(** * Aladaia review-collection core: a shallow embedding

    The collection pipeline of the repository lives in two Python files:

    - [01_collect_data.py]: zone classifier, deduplicator, the Outscraper
      (remote API) adapter, the synthetic generator and the orchestrator
      [main] that picks one of them;
    - [scrape_google_maps.py]: the browser-automation adapter, the
      checkpoint/resume manager ([load_existing], [save_all]) and its own
      orchestrator [main].

    Each Python function is transcribed as a Rocq function of the same name
    inside a module named after its file ([Collect] and [Scrape]).  Python
    [str] values are Rocq [string]s holding the UTF-8 bytes, Python [float]s
    are IEEE-754 binary64 primitive floats, [dict]s used as records are
    [gmap string _], code that can raise runs in an error monad, and code
    that talks to the network, the browser or the disk threads an explicit
    world through a state-and-error monad.

    The file has two parts: the embedding (modules [PyStr], [Py], [Md5],
    [Zone], [Collect], [Scrape]) and then the theorems about it. *)

From Stdlib Require Import ZArith Floats Uint63 Ascii String List Lia Bool.
From stdpp Require Import base option list gmap strings pretty finite.

Set Warnings "-inexact-float,-register-all,-clear-no-such-hyp".
#[local] Arguments String.append !_ _ / : simpl nomatch.

(* ===================================================================== *)
(** ** Python [str] operations used by the sources *)
(* ===================================================================== *)

Module PyStr.

(** [s.startswith(p)], byte by byte. *)
Fixpoint starts_with (p s : string) : bool :=
  match p, s with
  | EmptyString, _ => true
  | String _ _, EmptyString => false
  | String a p', String b s' => Ascii.eqb a b && starts_with p' s'
  end.

(** [sub in s] for two [str] values.  UTF-8 is self-synchronising, so a
    match on the encoded bytes is a match on the code points. *)
Fixpoint contains (sub s : string) : bool :=
  starts_with sub s ||
  match s with
  | EmptyString => false
  | String _ s' => contains sub s'
  end.

(** [c.lower()] on the ASCII range; bytes of multi-byte code points are left
    as they are.  Python also lowers the letters outside ASCII, and two of
    them to ASCII letters: the Kelvin sign becomes [k] and the dotted
    capital I becomes [i] followed by a combining dot.  Of the key words the
    sources look for after [.lower()], only [week] of [parse_date] has a
    [k] and none ends with [i]; what is proved of [parse_date] is proved of
    ASCII texts. *)
Definition lower_ascii (c : ascii) : ascii :=
  let n := nat_of_ascii c in
  if (65 <=? n)%nat && (n <=? 90)%nat then ascii_of_nat (n + 32) else c.

Fixpoint lower (s : string) : string :=
  match s with
  | EmptyString => EmptyString
  | String c s' => String (lower_ascii c) (lower s')
  end.

(** A UTF-8 continuation byte is [10xxxxxx]. *)
Definition is_continuation (c : ascii) : bool :=
  let n := nat_of_ascii c in (128 <=? n)%nat && (n <? 192)%nat.

(** [len(s)]: the number of code points, i.e. of non-continuation bytes. *)
Fixpoint len (s : string) : nat :=
  match s with
  | EmptyString => 0
  | String c s' => (if is_continuation c then 0 else 1) + len s'
  end.

(** [list(s)]: the code points of [s], each as a one-character string. *)
Fixpoint chars (s : string) : list string :=
  match s with
  | EmptyString => []
  | String c s' =>
      match chars s' with
      | String d h :: t =>
          if is_continuation d then String c (String d h) :: t
          else String c EmptyString :: String d h :: t
      | rest => String c EmptyString :: rest
      end
  end.

(** [x in (a, b, c)] for strings. *)
Definition in_tuple (x : string) (t : list string) : bool :=
  existsb (String.eqb x) t.

(** ASCII white space, as [str.strip()] removes it. *)
Definition is_space (c : ascii) : bool :=
  let n := nat_of_ascii c in ((9 <=? n)%nat && (n <=? 13)%nat) || (n =? 32)%nat.

Fixpoint lstrip (s : string) : string :=
  match s with
  | EmptyString => EmptyString
  | String c s' => if is_space c then lstrip s' else s
  end.

Fixpoint rstrip (s : string) : string :=
  match s with
  | EmptyString => EmptyString
  | String c s' =>
      match rstrip s' with
      | EmptyString => if is_space c then EmptyString else String c EmptyString
      | r => String c r
      end
  end.

(** [s.strip()]. *)
Definition strip (s : string) : string := rstrip (lstrip s).

(** [s.split(sep)] for a one-byte separator. *)
Fixpoint split (sep : ascii) (s : string) : list string :=
  match s with
  | EmptyString => [EmptyString]
  | String c s' =>
      if Ascii.eqb c sep then EmptyString :: split sep s'
      else match split sep s' with
           | h :: t => String c h :: t
           | [] => [String c EmptyString]
           end
  end.

End PyStr.

(* ===================================================================== *)
(** ** Python values, exceptions and the two monads *)
(* ===================================================================== *)

Module Py.

(** What [json.loads] can return, which is also what the fields of a review
    [dict] hold.  A JSON object keeps its keys in document order. *)
Inductive val : Type :=
| None_
| Bool (b : bool)
| Int (z : Z)
| Float (f : float)
| Str (s : string)
| List (l : list val)
| Dict (d : list (string * val)).

(** An exception that derives from [Exception], by its message [str(e)]. *)
Definition Exn : Type := string.

Inductive result (A : Type) : Type :=
| Ok (a : A)
| Raise (e : Exn).
Arguments Ok {A} a.
Arguments Raise {A} e.

#[global] Instance result_ret : MRet result := fun A a => Ok a.
#[global] Instance result_bind : MBind result := fun A B f m =>
  match m with Ok a => f a | Raise e => Raise e end.

(** [try: body  except Exception: handler]. *)
Definition try_except {A} (body : result A) (handler : Exn -> result A) : result A :=
  match body with Ok a => Ok a | Raise e => handler e end.

(** A [for] loop that updates an accumulator and stops at the first raise. *)
Fixpoint for_each {A X} (xs : list X) (acc : A) (body : A -> X -> result A) : result A :=
  match xs with
  | [] => Ok acc
  | x :: xs' => acc' ← body acc x; for_each xs' acc' body
  end.

(** [d.get(k, dflt)] on the items of a [dict]. *)
Fixpoint dict_get (d : list (string * val)) (k : string) (dflt : val) : val :=
  match d with
  | [] => dflt
  | (k', v) :: d' => if String.eqb k' k then v else dict_get d' k dflt
  end.

(** [v.get(k, dflt)]: only a [dict] has the method. *)
Definition get (v : val) (k : string) (dflt : val) : result val :=
  match v with
  | Dict d => Ok (dict_get d k dflt)
  | _ => Raise "AttributeError: object has no attribute 'get'"
  end.

(** [for x in v]: the elements of a list, the keys of a dict, the characters
    of a string; anything else is not iterable. *)
Definition iter (v : val) : result (list val) :=
  match v with
  | List l => Ok l
  | Dict d => Ok (map (fun kv => Str (fst kv)) d)
  | Str s => Ok (map Str (PyStr.chars s))
  | _ => Raise "TypeError: object is not iterable"
  end.

(** [len(v)]. *)
Definition len (v : val) : result nat :=
  match v with
  | Str s => Ok (PyStr.len s)
  | List l => Ok (length l)
  | Dict d => Ok (length d)
  | _ => Raise "TypeError: object has no len()"
  end.

(** [v.lower()]: only a [str] has the method. *)
Definition lower (v : val) : result string :=
  match v with
  | Str s => Ok (PyStr.lower s)
  | _ => Raise "AttributeError: object has no attribute 'lower'"
  end.

(** [isinstance(v, list)] and [isinstance(v, dict)]. *)
Definition is_list (v : val) : bool := match v with List _ => true | _ => false end.
Definition is_dict (v : val) : bool := match v with Dict _ => true | _ => false end.

(** [v[:n]] is evaluated only for its possible exception: strings and lists
    can be sliced, the other JSON values cannot.  (For a [dict] the
    exception is a [TypeError] up to Python 3.11 and a [KeyError] from 3.12
    on, where a slice can be hashed.) *)
Definition check_sliceable (v : val) : result unit :=
  match v with
  | Str _ | List _ => Ok tt
  | _ => Raise "TypeError: object is not subscriptable"
  end.

(** An [int] as the [float] Python compares it as.  The conversion is exact up
    to [2^53]; beyond, the integer is replaced by an infinity of its sign,
    which compares like it against every constant the sources use. *)
Definition float_of_Z (z : Z) : float :=
  if (Z.abs z <? 2 ^ 53)%Z then
    let m := PrimFloat.of_uint63 (Uint63.of_Z (Z.abs z)) in
    if (z <? 0)%Z then PrimFloat.opp m else m
  else if (z <? 0)%Z then PrimFloat.neg_infinity else PrimFloat.infinity.

(** The operand of an ordering comparison with a [float]: numbers compare
    ([bool] is a subclass of [int]), everything else raises [TypeError]. *)
Definition number (v : val) : result float :=
  match v with
  | Float f => Ok f
  | Int z => Ok (float_of_Z z)
  | Bool b => Ok (float_of_Z (if b then 1 else 0))
  | _ => Raise "TypeError: '<=' not supported between instances"
  end.

(** [lo <= v <= hi] for two float constants: [v] is evaluated once, and the
    second comparison runs only if the first holds. *)
Definition between (lo hi : float) (v : val) : result bool :=
  x ← number v; Ok (PrimFloat.leb lo x && PrimFloat.leb x hi).

(** *** Code that acts on a world [W] and may raise *)

Definition M (W A : Type) : Type := W -> result A * W.

Definition ret {W A} (a : A) : M W A := fun w => (Ok a, w).

Definition raise {W A} (e : Exn) : M W A := fun w => (Raise e, w).

Definition bind {W A B} (m : M W A) (k : A -> M W B) : M W B :=
  fun w => match m w with
           | (Ok a, w') => k a w'
           | (Raise e, w') => (Raise e, w')
           end.

(** A pure computation that may raise, run inside [M]. *)
Definition lift {W A} (r : result A) : M W A := fun w => (r, w).

(** [try: body  except Exception as e: handler(e)].  What the body did to
    the world before it raised stays done. *)
Definition catch {W A} (body : M W A) (handler : Exn -> M W A) : M W A :=
  fun w => match body w with
           | (Ok a, w') => (Ok a, w')
           | (Raise e, w') => handler e w'
           end.

(** [try: body  finally: cleanup]: the cleanup runs on both exits; if it
    raises, its exception replaces the pending one. *)
Definition finally {W A} (body : M W A) (cleanup : M W unit) : M W A :=
  fun w => match body w with
           | (r, w') =>
               match cleanup w' with
               | (Ok _, w'') => (r, w'')
               | (Raise e, w'') => (Raise e, w'')
               end
           end.

End Py.

Notation "'let!' x ':=' m 'in' k" := (Py.bind m (fun x => k))
  (at level 10, x pattern, m at level 100, k at level 200).
Notation "m ';;;' k" := (Py.bind m (fun _ => k))
  (at level 100, k at level 200, right associativity).

(* ===================================================================== *)
(** ** [hashlib.md5]: the digest the deduplicator keys on (RFC 1321) *)
(* ===================================================================== *)

Module Md5.
Local Open Scope Z_scope.

Definition W32 : Z := 2 ^ 32.
Definition add32 (x y : Z) : Z := (x + y) mod W32.
Definition not32 (x : Z) : Z := W32 - 1 - x.
Definition rotl32 (x : Z) (c : Z) : Z :=
  Z.lor (Z.shiftl x c mod W32) (Z.shiftr x (32 - c)).

(** Per-round shift amounts. *)
Definition S_TABLE : list Z :=
  [7; 12; 17; 22; 7; 12; 17; 22; 7; 12; 17; 22; 7; 12; 17; 22;
   5; 9; 14; 20; 5; 9; 14; 20; 5; 9; 14; 20; 5; 9; 14; 20;
   4; 11; 16; 23; 4; 11; 16; 23; 4; 11; 16; 23; 4; 11; 16; 23;
   6; 10; 15; 21; 6; 10; 15; 21; 6; 10; 15; 21; 6; 10; 15; 21].

(** [floor(2^32 * abs(sin(i + 1)))] for [i = 0..63]. *)
Definition K_TABLE : list Z :=
  [0xd76aa478; 0xe8c7b756; 0x242070db; 0xc1bdceee; 0xf57c0faf; 0x4787c62a; 0xa8304613; 0xfd469501;
   0x698098d8; 0x8b44f7af; 0xffff5bb1; 0x895cd7be; 0x6b901122; 0xfd987193; 0xa679438e; 0x49b40821;
   0xf61e2562; 0xc040b340; 0x265e5a51; 0xe9b6c7aa; 0xd62f105d; 0x02441453; 0xd8a1e681; 0xe7d3fbc8;
   0x21e1cde6; 0xc33707d6; 0xf4d50d87; 0x455a14ed; 0xa9e3e905; 0xfcefa3f8; 0x676f02d9; 0x8d2a4c8a;
   0xfffa3942; 0x8771f681; 0x6d9d6122; 0xfde5380c; 0xa4beea44; 0x4bdecfa9; 0xf6bb4b60; 0xbebfbc70;
   0x289b7ec6; 0xeaa127fa; 0xd4ef3085; 0x04881d05; 0xd9d4d039; 0xe6db99e5; 0x1fa27cf8; 0xc4ac5665;
   0xf4292244; 0x432aff97; 0xab9423a7; 0xfc93a039; 0x655b59c3; 0x8f0ccc92; 0xffeff47d; 0x85845dd1;
   0x6fa87e4f; 0xfe2ce6e0; 0xa3014314; 0x4e0811a1; 0xf7537e82; 0xbd3af235; 0x2ad7d2bb; 0xeb86d391].

Definition state : Type := Z * Z * Z * Z.
Definition INIT : state := (0x67452301, 0xefcdab89, 0x98badcfe, 0x10325476).

Definition bytes_of (s : string) : list Z :=
  map (fun c => Z.of_nat (nat_of_ascii c)) (list_ascii_of_string s).

(** Little-endian bytes of [x], [n] of them. *)
Fixpoint le_bytes (n : nat) (x : Z) : list Z :=
  match n with
  | O => []
  | S n' => x mod 256 :: le_bytes n' (x / 256)
  end.

Fixpoint le_word (bs : list Z) : Z :=
  match bs with
  | [] => 0
  | b :: bs' => b + 256 * le_word bs'
  end.

(** Message padding: a 1 bit, zeros up to 56 mod 64, the bit length on 64 bits. *)
Definition pad (msg : list Z) : list Z :=
  let n := Z.of_nat (length msg) in
  let zeros := Z.to_nat ((55 - n) mod 64) in
  msg ++ [128] ++ repeat 0 zeros ++ le_bytes 8 ((8 * n) mod 2 ^ 64).

(** The sixteen little-endian words of a 64-byte block. *)
Fixpoint words (n : nat) (block : list Z) : list Z :=
  match n with
  | O => []
  | S n' => le_word (firstn 4 block) :: words n' (skipn 4 block)
  end.

Definition round (m : list Z) (st : state) (i : Z) : state :=
  let '(a, b, c, d) := st in
  let '(f, g) :=
    if i <? 16 then (Z.lor (Z.land b c) (Z.land (not32 b) d), i)
    else if i <? 32 then (Z.lor (Z.land d b) (Z.land (not32 d) c), (5 * i + 1) mod 16)
    else if i <? 48 then (Z.lxor (Z.lxor b c) d, (3 * i + 5) mod 16)
    else (Z.lxor c (Z.lor b (not32 d)), (7 * i) mod 16) in
  let k := nth (Z.to_nat i) K_TABLE 0 in
  let sh := nth (Z.to_nat i) S_TABLE 0 in
  let f' := add32 (add32 (add32 f a) k) (nth (Z.to_nat g) m 0) in
  (d, add32 b (rotl32 f' sh), b, c).

Definition process_block (st : state) (block : list Z) : state :=
  let m := words 16 block in
  let '(a, b, c, d) := fold_left (round m) (map Z.of_nat (seq 0 64)) st in
  let '(a0, b0, c0, d0) := st in
  (add32 a0 a, add32 b0 b, add32 c0 c, add32 d0 d).

Fixpoint blocks (n : nat) (bs : list Z) : list (list Z) :=
  match n with
  | O => []
  | S n' => firstn 64 bs :: blocks n' (skipn 64 bs)
  end.

Definition final_state (s : string) : state :=
  let p := pad (bytes_of s) in
  fold_left process_block (blocks (length p / 64) p) INIT.

(** The 128-bit digest as a number: the sixteen digest bytes, little endian. *)
Definition digest (s : string) : Z :=
  let '(a, b, c, d) := final_state s in
  a + 2 ^ 32 * b + 2 ^ 64 * c + 2 ^ 96 * d.

Definition hex_digit (n : Z) : ascii :=
  ascii_of_nat (Z.to_nat (if n <? 10 then 48 + n else 87 + n)).

Definition hex_byte (b : Z) : string :=
  String (hex_digit (b / 16)) (String (hex_digit (b mod 16)) EmptyString).

Definition hex_of (n : Z) : string :=
  fold_right (fun b acc => hex_byte b +:+ acc) EmptyString (le_bytes 16 n).

(** [hashlib.md5(key.encode()).hexdigest()]. *)
Definition hexdigest (s : string) : string := hex_of (digest s).

End Md5.

(* ===================================================================== *)
(** ** Zone classification: what both files share *)
(* ===================================================================== *)

Module Zone.

(** [PARIS_LAT = (48.815, 48.902)] and [PARIS_LNG = (2.225, 2.420)], the
    same literals in both files. *)
Definition PARIS_LAT : float * float := (48.815%float, 48.902%float).
Definition PARIS_LNG : float * float := (2.225%float, 2.420%float).

Definition INTRA : string := "Paris Intra Muros".
Definition EXTRA : string := "Paris Extra Muros".
Definition PROVINCE : string := "Province".

(** The fixed set of zone labels. *)
Definition labels : list string := [INTRA; EXTRA; PROVINCE].

(** [PARIS_LAT[0] <= lat <= PARIS_LAT[1] and PARIS_LNG[0] <= lng <= PARIS_LNG[1]]
    with IEEE comparisons (every comparison with a NaN is false); [and] does
    not look at [lng] when the latitude is outside. *)
Definition in_box (lat lng : Py.val) : Py.result bool :=
  a ← Py.between (fst PARIS_LAT) (snd PARIS_LAT) lat;
  if a : bool then Py.between (fst PARIS_LNG) (snd PARIS_LNG) lng else Py.Ok false.

(** First value of an ordered keyword table whose key occurs in [a]; this is
    the loop [for k, v in table: if k in a: return v]. *)
Fixpoint first_keyword (table : list (string * string)) (a : string) : option string :=
  match table with
  | [] => None
  | (k, v) :: rest => if PyStr.contains k a then Some v else first_keyword rest a
  end.

(** A coordinate as the adapters produce it: a [float], or an [int] (the
    Outscraper adapter defaults a missing coordinate to the integer [0]). *)
Inductive coordinate : Type :=
| CFloat (f : float)
| CInt (z : Z).

Definition coordinate_val (c : coordinate) : Py.val :=
  match c with CFloat f => Py.Float f | CInt z => Py.Int z end.

End Zone.

(* ===================================================================== *)
(** ** [01_collect_data.py] *)
(* ===================================================================== *)

Module Collect.
Import Py.

(** *** Zone classifier (lines 28-37) *)

Definition is_paris_intra (lat lng : val) : result bool := Zone.in_box lat lng.

(** The region test of line 35:
    ["France" in region and ("Ile" in region or "le-de" in region)]. *)
Definition region_is_idf (region : string) : bool :=
  PyStr.contains "France" region
  && (PyStr.contains "Ile" region || PyStr.contains "le-de" region).

Definition classify_zone (lat lng : val) (region : string) : result string :=
  if region_is_idf region then
    inside ← is_paris_intra lat lng;
    Ok (if inside : bool then Zone.INTRA else Zone.EXTRA)
  else Ok Zone.PROVINCE.

(** *** Deduplicator (lines 39-49) *)

(** A review is a [dict] from field names to values. *)
Abbreviation review := (gmap string val).

(** [r.get(field, "")]. *)
Definition field (r : review) (name : string) : val :=
  default (Str "") (r !! name).

(** Line 44: [r.get("review_text","") + "|" + r.get("store_name","")].
    [+] concatenates two [str]; with any other operand it raises. *)
Definition dedup_key (r : review) : result string :=
  match field r "review_text", field r "store_name" with
  | Str text, Str store => Ok (text +:+ "|" +:+ store)
  | _, _ => Raise "TypeError: can only concatenate str"
  end.

(** Line 45: [hashlib.md5(key.encode()).hexdigest()]. *)
Definition fingerprint (r : review) : result string :=
  key ← dedup_key r; Ok (Md5.hexdigest key).

(** The loop of lines 42-48, with its two accumulators. *)
Fixpoint dedup_loop (reviews : list review) (seen : gset string) (out : list review)
  : result (list review) :=
  match reviews with
  | [] => Ok out
  | r :: rest =>
      h ← fingerprint r;
      if decide (h ∈ seen) then dedup_loop rest seen out
      else dedup_loop rest ({[h]} ∪ seen) (out ++ [r])
  end.

Definition dedup (reviews : list review) : result (list review) :=
  dedup_loop reviews ∅ [].

(** *** The network, as the Outscraper adapter sees it *)

(** What one [requests] call can do: raise (time-out, connection error), or
    return a response with a status code and a body that [r.json()] either
    parses or raises on. *)
Inductive HttpOutcome : Type :=
| HttpFailed (e : Exn)
| HttpResponse (status : Z) (json : result val).

(** [session.get(url, params=..., timeout=...)] with the API key the session
    carries, on a world [W]. *)
Record Http (W : Type) : Type := {
  http_get : string -> string -> list (string * val) -> W -> HttpOutcome * W
}.
Arguments http_get {W}.

(** [r.raise_for_status()]: a 4xx or 5xx status raises. *)
Definition raise_for_status (status : Z) : result unit :=
  if (400 <=? status)%Z && (status <? 600)%Z then Raise "HTTPError" else Ok tt.

(** The store [dict] built at lines 69-71; [name] is a [str] because
    [.lower()] was called on it. *)
Record Store : Type := {
  name : string;
  address : val;
  lat : val;
  lng : val;
  place_id : val
}.

Definition SEARCH_URL : string := "https://api.app.outscraper.com/maps/search-v3".
Definition REVIEWS_URL : string := "https://api.app.outscraper.com/maps/reviews-v3".

(** [place if isinstance(place, list) else [place]]. *)
Definition items_of (place : val) : list val :=
  match place with List l => l | _ => [place] end.

(** Lines 63-71: the loops of [find_stores] over the parsed payload.
    [.lower()] exists on a [str] only. *)
Definition stores_of_payload (payload : val) : result (list Store) :=
  data ← get payload "data" (List []);
  places ← iter data;
  for_each places [] (fun stores place =>
    for_each (items_of place) stores (fun stores item =>
      match item with
      | Dict d =>
          match dict_get d "name" (Str "") with
          | Str nm =>
              if negb (PyStr.contains "intersport" (PyStr.lower nm)) then Ok stores
              else Ok (stores ++ [{| name := nm;
                                     address := dict_get d "full_address" (Str "");
                                     lat := dict_get d "latitude" (Int 0);
                                     lng := dict_get d "longitude" (Int 0);
                                     place_id := dict_get d "place_id" (Str "") |}])
          | _ => Raise "AttributeError: object has no attribute 'lower'"
          end
      | _ => Ok stores
      end)).

(** Line 92-93: the review [dict] built from one upstream review. *)
Definition review_of (text rating date who : val) : gmap string val :=
  {[ "review_text" := text; "rating" := rating; "date" := date;
     "reviewer_name" := who ]}.

(** Lines 84-93: the loops of [get_reviews] over the parsed payload. *)
Definition reviews_of_payload (payload : val) : result (list review) :=
  data ← get payload "data" (List []);
  places ← iter data;
  for_each places [] (fun reviews place =>
    for_each (items_of place) reviews (fun reviews item =>
      match item with
      | Dict d =>
          revs ← iter (dict_get d "reviews_data" (List []));
          for_each revs reviews (fun reviews rev =>
            text ← get rev "review_text" (Str "");
            n ← len text;
            if (n <? 10)%nat then Ok reviews else
            rating ← get rev "review_rating" (Int 0);
            date ← get rev "review_datetime_utc" (Str "");
            who ← get rev "author_title" (Str "Anonyme");
            Ok (reviews ++ [review_of text rating date who]))
      | _ => Ok reviews
      end)).

(** The body of a [try] block that makes one request and reads its payload. *)
Definition request {W A} (http : Http W) (key url : string)
    (params : list (string * val)) (read : val -> result A) : M W A :=
  fun w =>
    match http_get http key url params w with
    | (HttpFailed e, w') => (Raise e, w')
    | (HttpResponse status json, w') =>
        (_ ← raise_for_status status; payload ← json; read payload, w')
    end.

Section Outscraper.
Context {W : Type} (http : Http W).
(** The API key given to [OutscraperScraper(key)]. *)
Variable key : string.
(** [re.search(r'\d{5}\s+([A-Za-z\s-]+)', s)]: group 1 of the match, if any.
    The regular-expression engine is not part of the repository. *)
Variable re_city : string -> option string.

(** [find_stores] (lines 57-76): everything after the [print] is inside
    [try ... except Exception: return []]. *)
Definition find_stores (query location : string) (limit : Z) : M W (list Store) :=
  catch
    (request http key SEARCH_URL
       [("query", Str query); ("location", Str location); ("limit", Int limit);
        ("language", Str "fr")]
       stores_of_payload)
    (fun _ => ret []).

(** [get_reviews] (lines 78-98).  Line 79 prints [place_id[:20]] before the
    [try]; the rest is inside [try ... except Exception: return []]. *)
Definition get_reviews (place_id : val) (limit : Z) : M W (list review) :=
  lift (check_sliceable place_id) ;;;
  catch
    (request http key REVIEWS_URL
       [("query", place_id); ("reviewsLimit", Int limit); ("language", Str "fr");
        ("sort", Str "newest")]
       reviews_of_payload)
    (fun _ => ret []).

(** The dict literal of [_region] (lines 120-125), in insertion order. *)
Definition REGION_TABLE : list (string * string) :=
  [("paris","Ile-de-France"); ("75","Ile-de-France"); ("92","Ile-de-France");
   ("93","Ile-de-France"); ("94","Ile-de-France"); ("78","Ile-de-France");
   ("grenoble","Auvergne-Rhone-Alpes"); ("lyon","Auvergne-Rhone-Alpes");
   ("38","Auvergne-Rhone-Alpes"); ("69","Auvergne-Rhone-Alpes");
   ("marseille","PACA"); ("nice","PACA"); ("13","PACA");
   ("toulouse","Occitanie"); ("bordeaux","Nouvelle-Aquitaine");
   ("lille","Hauts-de-France"); ("strasbourg","Grand Est");
   ("rennes","Bretagne"); ("nantes","Pays de la Loire")].

Definition _region (addr : string) : string :=
  let a := PyStr.lower addr in
  default "France" (Zone.first_keyword REGION_TABLE a).

(** Lines 106-107: the city from the postal code, else the part before the
    last comma, else nothing. *)
Definition city_of (addr : string) : string :=
  match re_city addr with
  | Some g => PyStr.strip g
  | None =>
      if PyStr.contains "," addr then
        let parts := PyStr.split "," addr in
        PyStr.strip (nth (length parts - 2) parts "")
      else ""
  end.

(** Lines 111-113: [rev.update({...})]; an update overwrites. *)
Definition annotate (store : Store) (city zone region : string) (rev : review) : review :=
  <["source" := Str "outscraper"]>
  (<["longitude" := lng store]>
  (<["latitude" := lat store]>
  (<["region" := Str region]>
  (<["zone" := Str zone]>
  (<["city" := Str city]>
  (<["address" := address store]>
  (<["store_name" := Str (name store)]> rev))))))).

(** One turn of the loop of lines 103-115.  [re.search] and [.lower()] need
    the address to be a [str]. *)
Definition scrape_store (per_store : Z) (all_revs : list review) (store : Store)
  : M W (list review) :=
  let! revs := get_reviews (place_id store) per_store in
  match address store with
  | Str addr =>
      let city := city_of addr in
      let region := _region addr in
      let! zone := lift (classify_zone (lat store) (lng store) region) in
      ret (all_revs ++ map (annotate store city zone region) revs)
  | _ => raise "TypeError: expected string or bytes-like object"
  end.

Fixpoint scrape_stores (per_store : Z) (stores : list Store) (all_revs : list review)
  : M W (list review) :=
  match stores with
  | [] => ret all_revs
  | store :: rest =>
      let! all_revs' := scrape_store per_store all_revs store in
      scrape_stores per_store rest all_revs'
  end.

(** [scrape_area] (lines 100-116). *)
Definition scrape_area (area : string) (per_store : Z) : M W (list review) :=
  let! stores := find_stores "Intersport" area 20 in
  let! all_revs := scrape_stores per_store stores [] in
  lift (dedup all_revs).

End Outscraper.


(** *** Synthetic generator (lines 129-218) *)

(** One entry of [STORES]: the keys ["n"], ["a"], ["c"], ["r"], ["lat"],
    ["lng"] of the source. *)
Record SimStore : Type := mk_store {
  st_n : string;
  st_a : string;
  st_c : string;
  st_r : string;
  st_lat : float;
  st_lng : float
}.

(** [STORES] (lines 130-158). *)
Definition STORES : list SimStore :=
  [mk_store "Intersport Rivoli" "30 Rue de Rivoli, 75004 Paris" "Paris 4e" "Ile-de-France" 48.8566%float 2.3522%float;
   mk_store "Intersport Republique" "5 Place de la Republique, 75003 Paris" "Paris 3e" "Ile-de-France" 48.8676%float 2.3636%float;
   mk_store "Intersport Montparnasse" "CC Montparnasse, 75015 Paris" "Paris 15e" "Ile-de-France" 48.8422%float 2.3219%float;
   mk_store "Intersport Italie 2" "CC Italie 2, 75013 Paris" "Paris 13e" "Ile-de-France" 48.8283%float 2.3558%float;
   mk_store "Intersport Creteil Soleil" "CC Creteil Soleil, 94000 Creteil" "Creteil" "Ile-de-France" 48.7835%float 2.4598%float;
   mk_store "Intersport Velizy 2" "CC Velizy 2, 78140 Velizy" "Velizy" "Ile-de-France" 48.7847%float 2.1900%float;
   mk_store "Intersport Rosny 2" "CC Rosny 2, 93110 Rosny" "Rosny-sous-Bois" "Ile-de-France" 48.8728%float 2.4837%float;
   mk_store "Intersport Parly 2" "CC Parly 2, 78150 Le Chesnay" "Le Chesnay" "Ile-de-France" 48.8219%float 2.1278%float;
   mk_store "Intersport Grand Place" "CC Grand Place, 38100 Grenoble" "Grenoble" "Auvergne-Rhone-Alpes" 45.1608%float 5.7350%float;
   mk_store "Intersport Caserne de Bonne" "Caserne de Bonne, 38000 Grenoble" "Grenoble" "Auvergne-Rhone-Alpes" 45.1856%float 5.7264%float;
   mk_store "Intersport Part-Dieu" "CC Part-Dieu, 69003 Lyon" "Lyon" "Auvergne-Rhone-Alpes" 45.7604%float 4.8590%float;
   mk_store "Intersport Confluence" "CC Confluence, 69002 Lyon" "Lyon" "Auvergne-Rhone-Alpes" 45.7420%float 4.8184%float;
   mk_store "Intersport Annecy Courier" "CC Courier, 74000 Annecy" "Annecy" "Auvergne-Rhone-Alpes" 45.9009%float 6.1198%float;
   mk_store "Intersport Chamnord" "CC Chamnord, 73000 Chambery" "Chambery" "Auvergne-Rhone-Alpes" 45.5751%float 5.9189%float;
   mk_store "Intersport Labege" "CC Labege 2, 31670 Labege" "Labege" "Occitanie" 43.5356%float 1.5069%float;
   mk_store "Intersport Blagnac" "CC Blagnac, 31700 Blagnac" "Blagnac" "Occitanie" 43.6377%float 1.3756%float;
   mk_store "Intersport Odysseum" "CC Odysseum, 34000 Montpellier" "Montpellier" "Occitanie" 43.6045%float 3.9193%float;
   mk_store "Intersport Lac" "CC Bordeaux Lac, 33300 Bordeaux" "Bordeaux" "Nouvelle-Aquitaine" 44.8752%float (-0.5673)%float;
   mk_store "Intersport Meriadeck" "CC Meriadeck, 33000 Bordeaux" "Bordeaux" "Nouvelle-Aquitaine" 44.8378%float (-0.5792)%float;
   mk_store "Intersport Euralille" "CC Euralille, 59000 Lille" "Lille" "Hauts-de-France" 50.6365%float 3.0701%float;
   mk_store "Intersport Englos" "CC Englos, 59320 Englos" "Englos" "Hauts-de-France" 50.6431%float 2.9812%float;
   mk_store "Intersport Valentine" "CC La Valentine, 13011 Marseille" "Marseille" "PACA" 43.2926%float 5.4841%float;
   mk_store "Intersport Grand Littoral" "CC Grand Littoral, 13016 Marseille" "Marseille" "PACA" 43.3619%float 5.3520%float;
   mk_store "Intersport Nice TNL" "CC TNL, 06200 Nice" "Nice" "PACA" 43.7046%float 7.2630%float;
   mk_store "Intersport Rivetoile" "CC Rivetoile, 67100 Strasbourg" "Strasbourg" "Grand Est" 48.5692%float 7.7716%float;
   mk_store "Intersport Alma" "CC Alma, 35000 Rennes" "Rennes" "Bretagne" 48.1147%float (-1.6794)%float;
   mk_store "Intersport Atlantis" "CC Atlantis, 44800 Saint-Herblain" "Saint-Herblain" "Pays de la Loire" 47.2263%float (-1.6215)%float].

(** [TEMPLATES] (lines 160-178), in insertion order. *)
Definition TEMPLATES : list (string * list string) :=
  [("accueil_pos",
     ["Tres bon accueil. Le personnel est souriant et disponible.";
      "Accueil chaleureux, le vendeur m'a aide des mon arrivee.";
      "On se sent bienvenu des la porte. Equipe sympathique."]);
   ("conseil_pos",
     ["Le vendeur m'a tres bien conseille sur le modele adapte a ma foulee.";
      "Excellents conseils pour mes chaussures de randonnee. Vrai pro.";
      "Super conseil personnalise pour mon velo. Technicien patient.";
      "Vendeur passionne de trail, test de foulee offert."]);
   ("reparation_pos",
     ["Reparation rapide et soignee. Le technicien a verifie chaque detail.";
      "Mon ski repare et teste avant de me le rendre. Impeccable.";
      "Excellent service atelier. Teste apres reparation, tout marche."]);
   ("reparation_neg",
     ["Reparation baclee. Mon velo faisait encore du bruit. Pas teste.";
      "Produit rendu sans test. Ne fonctionnait toujours pas.";
      "3 semaines d'attente pour une reparation mal faite.";
      "Le technicien n'a pas teste le produit apres reparation."]);
   ("attente_neg",
     ["Attente trop longue en caisse. 2 caisses ouvertes un samedi.";
      "25 minutes d'attente. Magasin en sous-effectif.";
      "File d'attente interminable le week-end."]);
   ("prix_pos",
     ["Bon rapport qualite-prix. Promotions interessantes.";
      "Prix corrects. La carte fidelite offre de vrais avantages."]);
   ("prix_neg",
     ["Prix plus eleves qu'en ligne pour le meme produit.";
      "Trop cher par rapport a Decathlon."]);
   ("choix_pos",
     ["Grand choix de running. Toutes les marques.";
      "Rayon ski complet pour tous niveaux.";
      "Beau magasin bien agence, large choix."]);
   ("choix_neg",
     ["Peu de choix en grandes tailles. Reparti les mains vides.";
      "Rupture de stock sur le modele voulu."]);
   ("magasin_pos",
     ["Magasin propre et bien organise.";
      "Bel espace lumineux, parking facile."]);
   ("magasin_neg",
     ["Magasin en desordre. Tailles melangees.";
      "Parking trop petit."]);
   ("online_neg",
     ["Commande en ligne annulee sans explication.";
      "Click and collect: produit pas pret a l'heure.";
      "Site lent et peu intuitif."]);
   ("fidelite_pos",
     ["Carte fidelite avantageuse. 20% de reduction. Merci Sophie Martin !";
      "Programme fidelite top. Points cumules vite."]);
   ("sav_neg",
     ["SAV desastreux. Aucun suivi depuis 2 semaines. Appelez-moi au 06 12 34 56 78.";
      "Retour complique. Procedure dissuasive.";
      "SAV injoignable par telephone."]);
   ("personnel_neg",
     ["Vendeur desagreable et condescendant.";
      "Personnel peu aimable. Pas un sourire."]);
   ("ski",
     ["Location ski parfaite. Materiel recent.";
      "Rayon ski au top. Bon conseil sur les batons."]);
   ("velo",
     ["Nakamura e-Summit achete, ravi. Montage soigne.";
      "Tres bon conseil VTT. Technicien passionne."])].

(** [BIAS] (lines 180-186). *)
Definition BIAS : list (string * float) :=
  [("Intersport Rivoli", (-0.3)%float);
   ("Intersport Republique", 0.1%float);
   ("Intersport Montparnasse", (-0.1)%float);
   ("Intersport Italie 2", 0.0%float);
   ("Intersport Creteil Soleil", 0.2%float);
   ("Intersport Velizy 2", 0.3%float);
   ("Intersport Rosny 2", (-0.2)%float);
   ("Intersport Parly 2", 0.1%float);
   ("Intersport Grand Place", 0.4%float);
   ("Intersport Caserne de Bonne", 0.3%float);
   ("Intersport Part-Dieu", 0.1%float);
   ("Intersport Confluence", 0.2%float);
   ("Intersport Annecy Courier", 0.5%float);
   ("Intersport Chamnord", 0.3%float);
   ("Intersport Valentine", (-0.4)%float);
   ("Intersport Grand Littoral", (-0.3)%float);
   ("Intersport Nice TNL", (-0.1)%float);
   ("Intersport Alma", 0.4%float);
   ("Intersport Atlantis", 0.2%float);
   ("Intersport Englos", (-0.2)%float)].

Definition FNAMES : list string :=
  ["Marie"; "Thomas"; "Sophie"; "Pierre"; "Julie"; "Nicolas"; "Camille"; "Francois"; "Emilie"; "Antoine"; "Claire"; "Julien"; "Isabelle"; "Maxime"; "Nathalie"; "Alexandre"; "Celine"; "Vincent"; "Sandrine"].

Definition LNAMES : list string :=
  ["Martin"; "Bernard"; "Dubois"; "Thomas"; "Robert"; "Richard"; "Petit"; "Durand"; "Leroy"; "Moreau"; "Simon"].

(** The [random] module.  Its generator is not part of the repository: a
    generator is any state [G] with a seeding function, a source of raw
    integers and a source of floats.  [randint] and [choice] are written from
    their contracts: an integer of the closed range, an element of the
    sequence. *)
Record Rng : Type := {
  G : Type;
  seed : Z -> G;
  draw : G -> Z * G;
  uniform : G -> float * G
}.

Section Random.
Context (rng : Rng).

(** [random.randint(a, b)]; an empty range raises [ValueError]. *)
Definition randint (a b : Z) : M (G rng) Z :=
  fun g =>
    if (b <? a)%Z then (Raise "ValueError: empty range for randrange()", g)
    else let (x, g') := draw rng g in (Ok (a + x mod (b - a + 1))%Z, g').

(** [random.choice(seq)]; an empty sequence raises [IndexError]. *)
Definition choice {A} (l : list A) : M (G rng) A :=
  fun g =>
    match l with
    | [] => (Raise "IndexError: Cannot choose from an empty sequence", g)
    | d :: _ =>
        let (x, g') := draw rng g in
        (Ok (nth (Z.to_nat (x mod Z.of_nat (length l))) l d), g')
    end.

(** [random.random()]. *)
Definition random : M (G rng) float :=
  fun g => let (x, g') := uniform rng g in (Ok x, g').

End Random.

(** [s.zfill(width)] for the decimal of a natural number: what
    [f"{n:05d}"] and [f"{n:02d}"] print. *)
Definition zfill (width : nat) (s : string) : string :=
  String.string_of_list_ascii (repeat "0"%char (width - String.length s)) +:+ s.

Definition fmt_d (width : nat) (n : Z) : string := zfill width (pretty n).

(** [f"REV-{n:05d}"]. *)
Definition review_id (n : Z) : string := "REV-" +:+ fmt_d 5 n.

Definition is_leap (y : Z) : bool :=
  ((y mod 4 =? 0) && negb (y mod 100 =? 0) || (y mod 400 =? 0))%Z.

Definition month_lengths (y : Z) : list Z :=
  [31; if is_leap y then 29 else 28; 31; 30; 31; 30; 31; 31; 30; 31; 30; 31]%Z.

(** The calendar months from January 2023 on, three years of them. *)
Definition calendar : list (Z * Z * Z) :=
  flat_map (fun y => imap (fun i len => (y, Z.of_nat i + 1, len)%Z) (month_lengths y))
           [2023; 2024; 2025]%Z.

(** The day [days] days after 2023-01-01, walking the calendar. *)
Fixpoint walk (months : list (Z * Z * Z)) (days : Z) : Z * Z * Z :=
  match months with
  | [] => (2026, 1, 1 + days)%Z
  | (y, m, len) :: rest =>
      if (days <? len)%Z then (y, m, 1 + days)%Z else walk rest (days - len)%Z
  end.

(** [(datetime(2023,1,1) + timedelta(days=days)).strftime("%Y-%m-%d")]. *)
Definition date_after (days : Z) : string :=
  let '(y, m, d) := walk calendar days in
  fmt_d 4 y +:+ "-" +:+ fmt_d 2 m +:+ "-" +:+ fmt_d 2 d.

(** [BIAS.get(name, 0.0)]. *)
Fixpoint bias_of (table : list (string * float)) (name : string) : float :=
  match table with
  | [] => 0.0%float
  | (k, v) :: rest => if String.eqb k name then v else bias_of rest name
  end.

(** [TEMPLATES[pool]]; a missing key raises [KeyError]. *)
Fixpoint templates_of (table : list (string * list string)) (pool : string)
  : result (list string) :=
  match table with
  | [] => Raise "KeyError"
  | (k, v) :: rest => if String.eqb k pool then Ok v else templates_of rest pool
  end.

Definition POSITIVE_POOLS : list string :=
  ["accueil_pos"; "conseil_pos"; "reparation_pos"; "prix_pos"; "choix_pos";
   "magasin_pos"; "fidelite_pos"; "ski"; "velo"].
Definition NEGATIVE_POOLS : list string :=
  ["reparation_neg"; "attente_neg"; "prix_neg"; "choix_neg"; "magasin_neg";
   "online_neg"; "sav_neg"; "personnel_neg"].

Section Simulated.
Context (rng : Rng).

(** Lines 202-211: the pool and the rating of one review. *)
Definition draw_pool_rating (bias : float) : M (G rng) (string * Z) :=
  let! u := random rng in
  let r := (u + bias * 0.3)%float in
  if PrimFloat.ltb 0.55 r then
    let! pool := choice rng POSITIVE_POOLS in
    let! rating := choice rng [4; 4; 5; 5; 5]%Z in
    ret (pool, rating)
  else if PrimFloat.ltb 0.25 r then
    let! pool := choice rng NEGATIVE_POOLS in
    let! rating := choice rng [1; 1; 2; 2; 3]%Z in
    ret (pool, rating)
  else
    let! pool := choice rng (map fst TEMPLATES) in
    let! rating := choice rng [2; 3; 3; 4]%Z in
    ret (pool, rating).

(** Lines 201-217: one turn of the inner loop; [cnt] is already
    incremented. *)
Definition simulate_review (idx : nat) (st : SimStore) (bias : float) (zone : string)
    (cnt : Z) : M (G rng) review :=
  let! (pool, rating) := draw_pool_rating bias in
  let! pool_texts := lift (templates_of TEMPLATES pool) in
  let! text := choice rng pool_texts in
  let! days := randint rng 0 760 in
  let! first := choice rng FNAMES in
  let! last := choice rng LNAMES in
  ret (list_to_map
         [ ("review_id", Str (review_id cnt));
           ("review_text", Str text);
           ("rating", Int rating);
           ("date", Str (date_after days));
           ("reviewer_name", Str (first +:+ " " +:+ last));
           ("store_id", Str ("S" +:+ fmt_d 2 (Z.of_nat idx)));
           ("store_name", Str (st_n st));
           ("address", Str (st_a st));
           ("city", Str (st_c st));
           ("zone", Str zone);
           ("region", Str (st_r st));
           ("latitude", Float (st_lat st));
           ("longitude", Float (st_lng st));
           ("source", Str "simulated") ] : review).

(** [for _ in range(n)]: the accumulators are [revs] and [cnt]. *)
Fixpoint simulate_reviews (n : nat) (idx : nat) (st : SimStore) (bias : float)
    (zone : string) (revs : list review) (cnt : Z) : M (G rng) (list review * Z) :=
  match n with
  | O => ret (revs, cnt)
  | S n' =>
      let cnt := (cnt + 1)%Z in
      let! r := simulate_review idx st bias zone cnt in
      simulate_reviews n' idx st bias zone (revs ++ [r]) cnt
  end.

(** [for idx, st in enumerate(STORES)]. *)
Fixpoint simulate_stores (per_store : Z) (stores : list SimStore) (idx : nat)
    (revs : list review) (cnt : Z) : M (G rng) (list review) :=
  match stores with
  | [] => ret revs
  | st :: rest =>
      let bias := bias_of BIAS (st_n st) in
      let! zone := lift (classify_zone (Float (st_lat st)) (Float (st_lng st)) (st_r st)) in
      let! n := randint rng (Z.max 15 (per_store - 8)) (per_store + 8) in
      let! (revs', cnt') := simulate_reviews (Z.to_nat n) idx st bias zone revs cnt in
      simulate_stores per_store rest (S idx) revs' cnt'
  end.

(** [generate_simulated] (lines 192-218): seed, generate, deduplicate. *)
Definition generate_simulated (per_store : Z) : result (list review) :=
  match simulate_stores per_store STORES 0 [] 0 (seed rng 42) with
  | (Ok revs, _) => dedup revs
  | (Raise e, _) => Raise e
  end.

End Simulated.

(** *** Orchestrator [main] (lines 220-281) *)

(** Which third-party packages the interpreter can import. *)
Record Installed : Type := {
  HAS_REQUESTS : bool;
  has_bs4 : bool;
  has_selenium : bool
}.

(** What the run is given: [os.environ] and the installed packages. *)
Record Config : Type := {
  environ : gmap string string;
  installed : Installed
}.

(** [os.environ.get(name, "")]. *)
Definition getenv (cfg : Config) (name : string) : string :=
  default "" (environ cfg !! name).

(** The three [print("[MODE] ...")] lines of [main]. *)
Inductive Mode : Type :=
| MODE_Selenium
| MODE_Outscraper
| MODE_Simulated.

(** How [from scrape_google_maps import GoogleMapsScraper] (line 232) ends.
    Importing runs the top of [scrape_google_maps.py]: line 15 imports [bs4]
    (a missing package is an [ImportError]); lines 17-27 import [selenium]
    and, if that fails, print a hint and call [sys.exit(1)]; the module
    defines no [GoogleMapsScraper], so with both packages present the
    [from ... import] itself is an [ImportError]. *)
Inductive ImportOutcome : Type :=
| ImportError (msg : string)
| SystemExit (code : Z).

Definition import_GoogleMapsScraper (i : Installed) : ImportOutcome :=
  if negb (has_bs4 i) then ImportError "No module named 'bs4'"
  else if negb (has_selenium i) then SystemExit 1
  else ImportError "cannot import name 'GoogleMapsScraper' from 'scrape_google_maps'".

(** How a run ends, short of an uncaught exception: [reviews_raw.csv] is
    written with these rows, or the process exits before writing.  [modes]
    are the [MODE] lines printed on the way. *)
Inductive Outcome : Type :=
| Saved (modes : list Mode) (reviews : list review)
| Exited (code : Z) (modes : list Mode).

Definition AREAS : list string :=
  ["Paris France"; "Lyon France"; "Grenoble France"; "Marseille France";
   "Bordeaux France"; "Lille France"].

Section Main.
Context {W : Type} (http : Http W) (re_city : string -> option string) (rng : Rng).

(** Lines 255-257: [for area in [...]: reviews.extend(sc.scrape_area(area, per_store=50))]. *)
Fixpoint scrape_areas (key : string) (areas : list string) (reviews : list review)
  : M W (list review) :=
  match areas with
  | [] => ret reviews
  | area :: rest =>
      let! revs := scrape_area http key re_city area 50 in
      scrape_areas key rest (reviews ++ revs)
  end.

(** Lines 261-264: the header is [reviews[0].keys()]; [csv.DictWriter]
    raises [ValueError] on a row with a key outside the header.  These are
    the two failures of the write that depend on the shape of the batch;
    the failures of the file system ([OSError]) and of the encoding of a
    cell ([UnicodeEncodeError], on a lone surrogate of the payload) are not
    modelled. *)
Definition write_csv (modes : list Mode) (reviews : list review) : result Outcome :=
  match reviews with
  | [] => Raise "IndexError: list index out of range"
  | first :: _ =>
      if forallb (fun r => bool_decide (dom r ⊆ dom first)) reviews
      then Ok (Saved modes reviews)
      else Raise "ValueError: dict contains fields not in fieldnames"
  end.

(** Lines 258-264: the synthetic fallback, then the write. *)
Definition finish (modes : list Mode) (reviews : list review) : result Outcome :=
  match reviews with
  | [] =>
      simulated ← generate_simulated rng 25;
      write_csv (modes ++ [MODE_Simulated]) simulated
  | _ :: _ => write_csv modes reviews
  end.

Definition main (cfg : Config) : M W Outcome :=
  let okey := getenv cfg "OUTSCRAPER_API_KEY" in
  let use_selenium :=
    PyStr.in_tuple (PyStr.lower (getenv cfg "USE_SELENIUM")) ["1"; "true"; "yes"] in
  if use_selenium then
    match import_GoogleMapsScraper (installed cfg) with
    | SystemExit code => ret (Exited code [MODE_Selenium])
    | ImportError _ => lift (finish [MODE_Selenium] [])
    end
  else if negb (String.eqb okey "") && HAS_REQUESTS (installed cfg) then
    let! reviews := scrape_areas okey AREAS [] in
    lift (finish [MODE_Outscraper] reviews)
  else lift (finish [] []).

End Main.

End Collect.

(* ===================================================================== *)
(** ** [scrape_google_maps.py] *)
(* ===================================================================== *)

Module Scrape.
Import Py.

Abbreviation review := (gmap string val).

(** [CITIES] (lines 38-54): the work units, in order. *)
Definition CITIES : list (string * float * float) :=
  [("Paris", 48.8566, 2.3522); ("Creteil", 48.7835, 2.4598);
   ("Velizy", 48.7847, 2.1900); ("Grenoble", 45.1885, 5.7245);
   ("Lyon", 45.7640, 4.8357); ("Marseille", 43.2965, 5.3698);
   ("Bordeaux", 44.8378, -0.5792); ("Lille", 50.6292, 3.0573);
   ("Toulouse", 43.6047, 1.4442); ("Nice", 43.7102, 7.2620);
   ("Strasbourg", 48.5734, 7.7521); ("Rennes", 48.1173, -1.6778);
   ("Nantes", 47.2184, -1.5536); ("Annecy", 45.8992, 6.1294);
   ("Montpellier", 43.6108, 3.8767)]%float.

(** *** Zone classifier (lines 56-78) *)

(** The keyword list of [guess_region], in order. *)
Definition REGION_TABLE : list (string * string) :=
  [("paris","Ile-de-France"); ("75","Ile-de-France"); ("92","Ile-de-France");
   ("93","Ile-de-France"); ("94","Ile-de-France"); ("78","Ile-de-France");
   ("creteil","Ile-de-France"); ("velizy","Ile-de-France"); ("rosny","Ile-de-France");
   ("grenoble","Auvergne-Rhone-Alpes"); ("lyon","Auvergne-Rhone-Alpes");
   ("annecy","Auvergne-Rhone-Alpes"); ("chambery","Auvergne-Rhone-Alpes");
   ("marseille","PACA"); ("nice","PACA"); ("toulouse","Occitanie");
   ("montpellier","Occitanie"); ("bordeaux","Nouvelle-Aquitaine");
   ("lille","Hauts-de-France"); ("strasbourg","Grand Est");
   ("rennes","Bretagne"); ("nantes","Pays de la Loire")].

Definition guess_region (text : string) : string :=
  let t := PyStr.lower text in
  default "France" (Zone.first_keyword REGION_TABLE t).

(** The region test of line 74: ["Ile-de-France" in region]. *)
Definition region_is_idf (region : string) : bool :=
  PyStr.contains "Ile-de-France" region.

Definition classify_zone (lat lng : val) (region : string) : result string :=
  if region_is_idf region then
    inside ← Zone.in_box lat lng;
    Ok (if inside : bool then Zone.INTRA else Zone.EXTRA)
  else Ok Zone.PROVINCE.

(** *** Checkpoint/resume manager (lines 277-302) *)

(** The output file [data/raw/reviews_raw.csv]: absent, or its CSV rows, the
    header first.  The [csv] module's quoting is not modelled: a file is the
    table it encodes. *)
Definition File : Type := option (list (list string)).

(** One row of [csv.DictReader]: the header zipped with the cells; a short
    row is completed with [None].  (Cells beyond the header go under the key
    [None], which nothing reads.) *)
Definition row_dict (header row : list string) : review :=
  fold_left (fun m kv => <[fst kv := snd kv]> m)
            (zip header (map Str row ++ repeat None_ (length header - length row)))
            (∅ : review).

(** The loop of lines 285-289 over the rows that follow the header;
    [DictReader] skips empty rows.  [done_cities] keeps the [str] values
    only: a [None] in the set is equal to no city name. *)
Fixpoint read_rows (header : list string) (rows : list (list string))
    (existing : list review) (done_cities : gset string) : list review * gset string :=
  match rows with
  | [] => (existing, done_cities)
  | [] :: rest => read_rows header rest existing done_cities
  | row :: rest =>
      let d := row_dict header row in
      let done_cities' :=
        match d !! "search_city" with
        | Some (Str c) => {[c]} ∪ done_cities
        | _ => done_cities
        end in
      read_rows header rest (existing ++ [d]) done_cities'
  end.

Definition load_existing (file : File) : list review * gset string :=
  match file with
  | None => ([], ∅)
  | Some [] => ([], ∅)
  | Some (header :: rows) => read_rows header rows [] ∅
  end.

(** The header [save_all] writes (lines 296-298). *)
Definition FIELDS : list string :=
  ["review_id"; "review_text"; "rating"; "date"; "reviewer_name";
   "store_name"; "address"; "city"; "zone"; "region";
   "latitude"; "longitude"; "source"; "search_city"].

Section Persistence.
(** [str(v)] for a cell that is neither a [str] nor [None]. *)
Variable str_of : val -> string.

(** One cell as [csv.writer] writes it. *)
Definition cell (v : val) : string :=
  match v with
  | Str s => s
  | None_ => ""
  | _ => str_of v
  end.

(** One row of [csv.DictWriter(..., extrasaction="ignore")]: the fields of
    the header, a missing one as the empty string. *)
Definition row_of (r : review) : list string :=
  map (fun f => cell (default (Str "") (r !! f))) FIELDS.

(** What [save_all] does to the file, one operation at a time:
    [open(OUTPUT, "w")] empties the file in place, [writeheader] and
    [writerows] append to it. *)
Inductive WriteOp : Type :=
| OpenTruncate
| WriteRow (row : list string).

Definition apply_op (file : File) (op : WriteOp) : File :=
  match op with
  | OpenTruncate => Some []
  | WriteRow row => Some (default [] file ++ [row])
  end.

(** The operations of [save_all(reviews)], in order (lines 295-302). *)
Definition save_ops (reviews : list review) : list WriteOp :=
  match reviews with
  | [] => []
  | _ => OpenTruncate :: WriteRow FIELDS :: map (fun r => WriteRow (row_of r)) reviews
  end.

Definition save_all (reviews : list review) (file : File) : File :=
  fold_left apply_op (save_ops reviews) file.

(** The file a save leaves when the process stops after [k] operations. *)
Definition interrupted_save (k : nat) (reviews : list review) (file : File) : File :=
  fold_left apply_op (take k (save_ops reviews)) file.

End Persistence.

(** *** The browser, as the adapter sees it *)

(** The locators the adapter passes to Selenium (the [By] strategy and its
    value), named after what they look for. *)
Inductive Selector : Type :=
| COOKIE_BUTTON    (* XPATH //button[contains(.,'Tout accepter') or contains(.,'Accept all')] *)
| FEED             (* CSS div[role=feed] *)
| STORE_LINKS      (* CSS a.hfpxzc *)
| H1               (* CSS h1 *)
| ADDRESS_BUTTON   (* CSS button[data-item-id=address] *)
| ADDRESS_LABELLED (* XPATH //button[contains(@aria-label,dresse)] *)
| TABS             (* CSS button[role=tab] *)
| BUTTONS          (* TAG_NAME button *)
| SORT_BUTTON      (* CSS button[aria-label*=rier] *)
| MENU_ITEMS       (* CSS div[role=menuitemradio] *)
| SCROLL_PANE (n : nat) (* CSS div.m6QErb.DxyBCb.kA9KIf.dS8AEf, div.m6QErb.DxyBCb, div.m6QErb *)
| REVIEW_DIVS      (* CSS div.jftiEf *)
| MORE_BUTTONS.    (* CSS button.w8nwRe.kyuRq *)

(** The scripts the adapter injects. *)
Inductive Script : Type :=
| HIDE_WEBDRIVER   (* Object.defineProperty(navigator,'webdriver',...) *)
| SCROLL_TO_BOTTOM (* arguments[0].scrollTop = arguments[0].scrollHeight *)
| CLICK.           (* arguments[0].click(); *)

(** A Selenium session on a world [W]: drivers [D], elements [E].  Every
    call reaches the external browser process and may raise. *)
Record Browser (W D E : Type) : Type := {
  new_chrome : bool -> M W D;                 (* webdriver.Chrome(options=...) *)
  get : D -> string -> M W unit;              (* driver.get(url) *)
  find_element : D -> Selector -> M W E;
  find_elements : D -> Selector -> M W (list E);
  wait_clickable : D -> Selector -> M W E;    (* WebDriverWait(driver, 5).until(...) *)
  execute_script : D -> Script -> list E -> M W unit;
  current_url : D -> M W string;
  page_source : D -> M W string;
  quit : D -> M W unit;
  get_attribute : E -> string -> M W (option string);
  text : E -> M W string;
  click : E -> M W unit
}.
Arguments new_chrome {W D E}.
Arguments get {W D E}.
Arguments find_element {W D E}.
Arguments find_elements {W D E}.
Arguments wait_clickable {W D E}.
Arguments execute_script {W D E}.
Arguments current_url {W D E}.
Arguments page_source {W D E}.
Arguments quit {W D E}.
Arguments get_attribute {W D E}.
Arguments text {W D E}.
Arguments click {W D E}.

(** One [div.jftiEf] of the parsed page, by what lines 250-267 look up in
    it: the stripped text of the first [div.d4r55], the [aria-label] of the
    first [span.kvMYJc] ([""] when the span has none), the [aria-label] of
    every descendant that has one, the stripped text of the first
    [span.rsqaWe] and of the first [span.wiI7pd]. *)
Record ReviewDiv : Type := {
  d4r55 : option string;
  kvMYJc : option string;
  aria_labels : list string;
  rsqaWe : option string;
  wiI7pd : option string
}.

(** Library code the adapter calls and the embedding does not open. *)
Record Lib : Type := {
  (** [f"{x}"] for a float. *)
  float_str : float -> string;
  (** lines 128-129: the two floats after [@] in the URL, else [(0.0, 0.0)]. *)
  parse_gps : string -> float * float;
  (** group 1 of the regular expression of [extract_city] (line 81). *)
  re_city : string -> option string;
  (** [parse_date] (lines 84-96) at the time of the run. *)
  parse_date : string -> result string;
  (** [BeautifulSoup(html, "html.parser").find_all("div", class_="jftiEf")]. *)
  soup_reviews : string -> list ReviewDiv;
  (** [str(v)] for a CSV cell. *)
  str_of : val -> string;
  (** [int(s)]; [None] when it raises. *)
  int_of : string -> option Z
}.

(** *** Regular expressions of the review parser, on ASCII *)

Definition digit_of (c : ascii) : option Z :=
  let n := nat_of_ascii c in
  if (48 <=? n)%nat && (n <=? 57)%nat then Some (Z.of_nat (n - 48)) else None.

(** [re.search(r'(\d)', s)]: the first digit of [s]. *)
Fixpoint first_digit (s : string) : option Z :=
  match s with
  | EmptyString => None
  | String c s' => match digit_of c with Some d => Some d | None => first_digit s' end
  end.

(** What may follow the digit in the second pattern. *)
Definition RATING_WORDS : list string := ["star"; "toile"; "sur"; "/"].

(** [re.search(r'(\d)\s*(?:star|toile|sur|/)', s, re.I)]: the first digit
    that is followed, after optional white space, by one of the words; on
    ASCII (Python's [\d] also matches the decimal digits of other scripts,
    and [re.I] also the long s and the Kelvin sign). *)
Fixpoint digit_before_word (s : string) : option Z :=
  match s with
  | EmptyString => None
  | String c s' =>
      match digit_of c with
      | Some d =>
          let rest := PyStr.lower (PyStr.lstrip s') in
          if existsb (fun w => PyStr.starts_with w rest) RATING_WORDS then Some d
          else digit_before_word s'
      | None => digit_before_word s'
      end
  end.

Fixpoint skip_digits (s : string) : string :=
  match s with
  | EmptyString => EmptyString
  | String c s' => match digit_of c with Some _ => skip_digits s' | None => s end
  end.

(** [re.search(r'\d+\s*avis', s)] finds a match. *)
Fixpoint has_count_avis (s : string) : bool :=
  match s with
  | EmptyString => false
  | String c s' =>
      match digit_of c with
      | Some _ => PyStr.starts_with "avis" (PyStr.lstrip (skip_digits s')) || has_count_avis s'
      | None => has_count_avis s'
      end
  end.

(** Lines 259-261: the first labelled descendant whose label matches gives
    the rating, and the loop stops there. *)
Fixpoint rating_from_labels (labels : list string) : Z :=
  match labels with
  | [] => 0
  | label :: rest =>
      match digit_before_word label with
      | Some d => d
      | None => rating_from_labels rest
      end
  end.

(** Lines 253-261: the rating of one review [div]: the label of the star
    span first, then the labelled descendants. *)
Definition rating_of (div : ReviewDiv) : Z :=
  let rating :=
    match kvMYJc div with
    | Some label => default 0%Z (first_digit label)
    | None => 0%Z
    end in
  if (rating =? 0)%Z then rating_from_labels (aria_labels div) else rating.

(** The review [dict] of lines 270-271. *)
Definition review_of (text : string) (rating : Z) (date reviewer : string) : review :=
  {[ "review_text" := Str text; "rating" := Int rating;
     "date" := Str date; "reviewer_name" := Str reviewer ]}.

(** Lines 249-272: one turn of the parse loop; a raise inside it (only
    [parse_date] can) skips the [div]. *)
Definition parse_div (lib : Lib) (reviews : list review) (div : ReviewDiv) : list review :=
  let reviewer := default "Anonyme" (d4r55 div) in
  let rating := rating_of div in
  match (match rsqaWe div with Some t => parse_date lib t | None => Ok "" end) with
  | Raise _ => reviews
  | Ok date =>
      let text := default "" (wiI7pd div) in
      if negb (String.eqb text "") && (5 <=? PyStr.len text)%nat && (0 <? rating)%Z
      then reviews ++ [review_of text rating date reviewer]
      else reviews
  end.

Definition parse_reviews (lib : Lib) (html : string) : list review :=
  fold_left (parse_div lib) (soup_reviews lib html) [].

Section Adapter.
Context {W D E : Type} (br : Browser W D E) (lib : Lib).

(** [try: body  except: pass] for a body run for its effects. *)
Definition attempt (body : M W unit) : M W unit := catch body (fun _ => ret tt).

(** [make_driver] (lines 99-115). *)
Definition make_driver (headless : bool) : M W D :=
  let! driver := new_chrome br headless in
  execute_script br driver HIDE_WEBDRIVER [] ;;;
  ret driver.

(** [accept_cookies] (lines 118-124). *)
Definition accept_cookies (driver : D) : M W unit :=
  attempt (let! btn := wait_clickable br driver COOKIE_BUTTON in click br btn).

(** [get_gps] (lines 127-129). *)
Definition get_gps (driver : D) : M W (float * float) :=
  let! url := current_url br driver in
  ret (parse_gps lib url).

(** Lines 144-149: scroll the feed until the number of links is stable, ten
    times at most. *)
Fixpoint scroll_feed (n : nat) (driver : D) (feed : E) (last : nat) : M W unit :=
  match n with
  | O => ret tt
  | S n' =>
      execute_script br driver SCROLL_TO_BOTTOM [feed] ;;;
      let! links := find_elements br driver STORE_LINKS in
      let cur := length links in
      if (cur =? last)%nat then ret tt else scroll_feed n' driver feed cur
  end.

(** A store found on the result page (line 159). *)
Record Found : Type := { found_name : string; found_href : string }.

(** Lines 154-159: one turn of the loop over the links. *)
Definition collect_link (acc : list Found * gset string) (el : E)
  : M W (list Found * gset string) :=
  let '(results, seen) := acc in
  let! h := get_attribute br el "href" in
  let href := default "" h in
  let! a := get_attribute br el "aria-label" in
  let label := PyStr.strip (default "" a) in
  if PyStr.contains "intersport" (PyStr.lower label)
     && negb (String.eqb href "") && bool_decide (href ∉ seen)
  then ret (results ++ [{| found_name := label; found_href := href |}], {[href]} ∪ seen)
  else ret (results, seen).

Fixpoint collect_links (els : list E) (acc : list Found * gset string)
  : M W (list Found * gset string) :=
  match els with
  | [] => ret acc
  | el :: rest => let! acc' := collect_link acc el in collect_links rest acc'
  end.

(** [find_stores] (lines 132-162).  Only the cookie banner and the feed
    scroll are inside a [try]. *)
Definition find_stores (driver : D) (city : string) (lat lng : float) : M W (list Found) :=
  let url := "https://www.google.com/maps/search/Intersport/@" +:+ float_str lib lat
             +:+ "," +:+ float_str lib lng +:+ ",12z" in
  get br driver url ;;;
  accept_cookies driver ;;;
  attempt (let! feed := find_element br driver FEED in scroll_feed 10 driver feed 0) ;;;
  let! els := find_elements br driver STORE_LINKS in
  let! acc := collect_links els ([], ∅) in
  ret (fst acc).

(** Lines 169-181: the name, then the address with its fallback. *)
Definition read_name (driver : D) : M W string :=
  catch (let! h := find_element br driver H1 in
         let! t := text br h in ret (PyStr.strip t))
        (fun _ => ret "").

Definition read_address (driver : D) : M W string :=
  catch (let! b := find_element br driver ADDRESS_BUTTON in
         let! t := text br b in ret (PyStr.strip t))
        (fun _ =>
           catch (let! els := find_elements br driver ADDRESS_LABELLED in
                  match els with
                  | [] => ret ""
                  | el :: _ =>
                      let! a := get_attribute br el "aria-label" in
                      match a with
                      | Some label =>
                          ret (PyStr.strip (List.last (PyStr.split ":" label) ""))
                      | None => raise "AttributeError: 'NoneType' object has no attribute 'split'"
                      end
                  end)
                 (fun _ => ret "")).

(** Lines 189-195: click the first tab whose label mentions reviews. *)
Fixpoint click_review_tab (tabs : list E) : M W bool :=
  match tabs with
  | [] => ret false
  | tab :: rest =>
      let! a := get_attribute br tab "aria-label" in
      let! txt := match a with
                  | Some (String c s) => ret (String c s)
                  | _ => text br tab
                  end in
      let txt := PyStr.lower txt in
      if PyStr.contains "avis" txt || PyStr.contains "review" txt
      then click br tab ;;; ret true
      else click_review_tab rest
  end.

(** Lines 201-206: click the first button that shows a review count. *)
Fixpoint click_review_count (buttons : list E) : M W bool :=
  match buttons with
  | [] => ret false
  | el :: rest =>
      let! t := text br el in
      if has_count_avis (PyStr.lower t)
      then click br el ;;; ret true
      else click_review_count rest
  end.

(** Lines 186-207: [opened] after the two attempts. *)
Definition open_reviews (driver : D) : M W bool :=
  let! opened :=
    catch (let! tabs := find_elements br driver TABS in click_review_tab tabs)
          (fun _ => ret false) in
  if opened : bool then ret true
  else catch (let! buttons := find_elements br driver BUTTONS in click_review_count buttons)
             (fun _ => ret false).

(** Lines 217-221: pick the newest-first menu entry. *)
Fixpoint click_newest (items : list E) : M W unit :=
  match items with
  | [] => ret tt
  | item :: rest =>
      let! t1 := text br item in
      let! hit :=
        if PyStr.contains "recent" (PyStr.lower t1) then ret true
        else let! t2 := text br item in ret (PyStr.contains "nouveau" (PyStr.lower t2)) in
      if hit : bool then click br item else click_newest rest
  end.

(** Lines 212-222. *)
Definition sort_newest (driver : D) : M W unit :=
  attempt (let! sort := find_element br driver SORT_BUTTON in
           click br sort ;;;
           let! items := find_elements br driver MENU_ITEMS in
           click_newest items).

(** Lines 225-228: the first of the three panes that is found. *)
Fixpoint find_scrollable (panes : list nat) (driver : D) : M W (option E) :=
  match panes with
  | [] => ret None
  | n :: rest =>
      catch (let! e := find_element br driver (SCROLL_PANE n) in ret (Some e))
            (fun _ => find_scrollable rest driver)
  end.

(** Lines 231-237: scroll until enough reviews are loaded or their number is
    stable. *)
Fixpoint scroll_reviews (n : nat) (driver : D) (pane : E) (max_rev : Z) (last : nat)
  : M W unit :=
  match n with
  | O => ret tt
  | S n' =>
      execute_script br driver SCROLL_TO_BOTTOM [pane] ;;;
      let! divs := find_elements br driver REVIEW_DIVS in
      let cnt := length divs in
      if (max_rev <=? Z.of_nat cnt)%Z || (cnt =? last)%nat then ret tt
      else scroll_reviews n' driver pane max_rev cnt
  end.

(** Lines 240-242: expand every truncated review. *)
Fixpoint expand_more (driver : D) (buttons : list E) : M W unit :=
  match buttons with
  | [] => ret tt
  | btn :: rest =>
      attempt (execute_script br driver CLICK [btn]) ;;; expand_more driver rest
  end.

(** What [scrape_reviews] returns: [name, address, lat, lng, reviews]. *)
Record Scraped : Type := {
  s_name : string;
  s_address : string;
  s_lat : float;
  s_lng : float;
  s_reviews : list review
}.

(** [scrape_reviews] (lines 165-274). *)
Definition scrape_reviews (driver : D) (href : string) (max_rev : Z) : M W Scraped :=
  get br driver href ;;;
  let! name := read_name driver in
  let! address := read_address driver in
  let! gps := get_gps driver in
  let mk reviews := {| s_name := name; s_address := address; s_lat := fst gps;
                       s_lng := snd gps; s_reviews := reviews |} in
  let! opened := open_reviews driver in
  if negb opened then ret (mk []) else
  sort_newest driver ;;;
  let! scrollable := find_scrollable [0; 1; 2]%nat driver in
  match scrollable with
  | Some pane => scroll_reviews (Z.to_nat (max_rev / 4 + 5)) driver pane max_rev 0
  | None => ret tt
  end ;;;
  let! buttons := find_elements br driver MORE_BUTTONS in
  expand_more driver buttons ;;;
  let! html := page_source br driver in
  ret (mk (parse_reviews lib html)).

End Adapter.

(** *** Orchestrator [main] (lines 305-401) *)

(** What [main] prints, line by line. *)
Inductive Event : Type :=
| EvResuming (n : nat)                  (* Resuming: n reviews already saved *)
| EvSkip (city : string)                (* SKIP city (already done) *)
| EvCity (city : string)                (* CITY: city *)
| EvStore (i n : nat) (name : string)   (* Store i/n: name *)
| EvReviews (n : nat)                   (* -> n reviews *)
| EvError (e : Exn)                     (* -> ERROR: e *)
| EvChromeCrashed                       (* Chrome crashed. Moving to next city. *)
| EvCityError (e : Exn)                 (* City error: e *)
| EvSaved (n : nat)                     (* Saved: n total reviews so far *)
| EvDone (n : nat)                      (* DONE ... n reviews *)
| EvNothing.                            (* 0 reviews. Try: ... --visible *)

(** The variables of [main] and the output file. *)
Record State : Type := {
  all_reviews : list review;
  counter : Z;
  file : File;
  log : list Event
}.

Definition say (ev : Event) (st : State) : State :=
  {| all_reviews := all_reviews st; counter := counter st; file := file st;
     log := log st ++ [ev] |}.

(** [f"REV-{counter:05d}"]. *)
Definition review_id (n : Z) : string := Collect.review_id n.

(** [extract_city] (lines 80-82). *)
Definition extract_city (lib : Lib) (addr : string) : string :=
  match re_city lib addr with
  | Some g => PyStr.strip g
  | None =>
      if PyStr.contains "," addr then
        let parts := PyStr.split "," addr in
        PyStr.strip (nth (length parts - 2) parts "")
      else addr
  end.

(** Lines 356-362: [r.update({...})]. *)
Definition annotate (id name address scity zone region : string) (lat lng : float)
    (city_name : string) (r : review) : review :=
  <["search_city" := Str city_name]>
  (<["source" := Str "google_maps"]>
  (<["longitude" := Float lng]>
  (<["latitude" := Float lat]>
  (<["region" := Str region]>
  (<["zone" := Str zone]>
  (<["city" := Str scity]>
  (<["address" := Str address]>
  (<["store_name" := Str name]>
  (<["review_id" := Str id]> r))))))))).

(** Lines 354-362: number and annotate the reviews of one store. *)
Fixpoint number_reviews (name address scity zone region : string) (lat lng : float)
    (city_name : string) (reviews : list review) (counter : Z) : list review * Z :=
  match reviews with
  | [] => ([], counter)
  | r :: rest =>
      let counter := (counter + 1)%Z in
      let r' := annotate (review_id counter) name address scity zone region lat lng city_name r in
      let '(rest', counter') :=
        number_reviews name address scity zone region lat lng city_name rest counter in
      (r' :: rest', counter')
  end.

(** Lines 310-315: the two command-line flags. *)
Definition parse_headless (argv : list string) : bool :=
  negb (existsb (String.eqb "--visible") argv).

Fixpoint parse_max (lib : Lib) (argv : list string) (max_rev : Z) : Z :=
  match argv with
  | a :: ((b :: _) as rest) =>
      parse_max lib rest (if String.eqb a "--max" then default max_rev (int_of lib b) else max_rev)
  | _ => max_rev
  end.

Section Orchestrator.
Context {W D E : Type} (br : Browser W D E) (lib : Lib).

(** [main] runs on the browser's world and its own variables. *)
Definition up {A} (m : M W A) : M (W * State) A :=
  fun ws => let '(r, w') := m (fst ws) in (r, (w', snd ws)).

Definition update (f : State -> State) : M (W * State) unit :=
  fun ws => (Ok tt, (fst ws, f (snd ws))).

Definition current : M (W * State) State := fun ws => (Ok (snd ws), ws).

(** Lines 348-364: the body of the inner [try]. *)
Definition handle_store (driver : D) (city_name : string) (max_rev : Z) (store : Found)
  : M (W * State) unit :=
  let! s := up (scrape_reviews br lib driver (found_href store) max_rev) in
  let name := if String.eqb (s_name s) "" then found_name store else s_name s in
  let address := s_address s in
  let region := guess_region (if String.eqb address "" then city_name else address) in
  let! zone := lift (classify_zone (Float (s_lat s)) (Float (s_lng s)) region) in
  let scity := if String.eqb address "" then city_name else extract_city lib address in
  update (fun st =>
    let '(reviews, counter') :=
      number_reviews name address scity zone region (s_lat s) (s_lng s) city_name
                     (s_reviews s) (counter st) in
    say (EvReviews (length reviews))
      {| all_reviews := all_reviews st ++ reviews; counter := counter';
         file := file st; log := log st |}).

(** Lines 344-373: the loop over the stores of one city; a caught error
    whose message mentions a session ends the loop. *)
Fixpoint handle_stores (driver : D) (city_name : string) (max_rev : Z)
    (i n : nat) (stores : list Found) : M (W * State) unit :=
  match stores with
  | [] => ret tt
  | store :: rest =>
      update (say (EvStore (S i) n (found_name store))) ;;;
      let! stop :=
        catch (handle_store driver city_name max_rev store ;;; ret false)
              (fun e =>
                 update (say (EvError e)) ;;;
                 if PyStr.contains "session" (PyStr.lower e)
                 then update (say EvChromeCrashed) ;;; ret true
                 else ret false) in
      if stop : bool then ret tt
      else handle_stores driver city_name max_rev (S i) n rest
  end.

(** Lines 339-382: one city, after the skip test.  [driver] stays [None]
    when [make_driver] raises, so [finally] quits only a driver that was
    made. *)
Definition handle_city (headless : bool) (max_rev : Z) (city : string * float * float)
  : M (W * State) unit :=
  let '(city_name, city_lat, city_lng) := city in
  fun ws =>
    match up (make_driver br headless) ws with
    | (Raise e, ws') => update (say (EvCityError e)) ws'
    | (Ok driver, ws') =>
        finally
          (catch (let! stores := up (find_stores br lib driver city_name city_lat city_lng) in
                  handle_stores driver city_name max_rev 0 (length stores) stores)
                 (fun e => update (say (EvCityError e))))
          (catch (up (quit br driver)) (fun _ => ret tt))
          ws'
    end.

(** Lines 329-387: the loop over [CITIES]. *)
Fixpoint handle_cities (headless : bool) (max_rev : Z) (done_cities : gset string)
    (cities : list (string * float * float)) : M (W * State) unit :=
  match cities with
  | [] => ret tt
  | city :: rest =>
      let city_name := fst (fst city) in
      (if decide (city_name ∈ done_cities) then update (say (EvSkip city_name))
       else
         update (say (EvCity city_name)) ;;;
         handle_city headless max_rev city ;;;
         update (fun st =>
           say (EvSaved (length (all_reviews st)))
             {| all_reviews := all_reviews st; counter := counter st;
                file := save_all (str_of lib) (all_reviews st) (file st);
                log := log st |})) ;;;
      handle_cities headless max_rev done_cities rest
  end.

(** Lines 390-401: the final statistics read [r["store_name"]] of every
    review and sort the zone labels [r.get("zone","?")], which must then be
    comparable with each other: all [str], or all [None]. *)
Definition final_stats : M (W * State) unit :=
  let! st := current in
  match all_reviews st with
  | [] => update (say EvNothing)
  | _ =>
      if negb (forallb (fun r : review => bool_decide (is_Some (r !! "store_name")))
                       (all_reviews st))
      then raise "KeyError: 'store_name'"
      else
        let zones := map (fun r : review => default (Str "?") (r !! "zone")) (all_reviews st) in
        if forallb (fun z => match z with Str _ => true | _ => false end) zones
           || forallb (fun z => match z with None_ => true | _ => false end) zones
        then update (say (EvDone (length (all_reviews st))))
        else raise "TypeError: '<' not supported between instances"
  end.

(** The state [main] starts from, given the output file it finds. *)
Definition initial (file : File) : State :=
  let '(existing, _) := load_existing file in
  {| all_reviews := existing; counter := Z.of_nat (length existing); file := file;
     log := match existing with [] => [] | _ => [EvResuming (length existing)] end |}.

Definition main (argv : list string) (file : File) (w : W) : result unit * (W * State) :=
  let headless := parse_headless argv in
  let max_rev := parse_max lib argv 50 in
  let done_cities := snd (load_existing file) in
  (handle_cities headless max_rev done_cities CITIES ;;; final_stats) (w, initial file).

End Orchestrator.

End Scrape.

(* ===================================================================== *)
(** ** [scrape_google_maps.py]: [parse_date] (lines 84-96) *)
(* ===================================================================== *)

Module Dates.
Import Py.

(** [datetime.now()], by what [parse_date] asks of it: the year, the month,
    [now.strftime("%Y-%m-%d")], and
    [(now - timedelta(days=n)).strftime("%Y-%m-%d")], which raises
    [OverflowError] when [n] or the date is out of range. *)
Record Now : Type := {
  year : Z;
  month : Z;
  today : string;
  days_ago : Z -> result string
}.

(** The text has ASCII characters only.  On such a text [.lower()] is
    [PyStr.lower] and [\d] matches the ten ASCII digits; on other texts
    Python also lowers letters outside ASCII (the Kelvin sign becomes [k])
    and [\d] also matches the decimal digits of other scripts, which this
    module does not follow. *)
Definition ascii_text (s : string) : bool :=
  forallb (fun c => (N_of_ascii c <? 128)%N) (list_ascii_of_string s).

(** The digits at the head of [s]: the longest match of [\d*] there. *)
Fixpoint digit_run (s : string) : string :=
  match s with
  | EmptyString => EmptyString
  | String c s' =>
      match Scrape.digit_of c with
      | Some _ => String c (digit_run s')
      | None => EmptyString
      end
  end.

(** [re.findall(r'(\d+)', t)[0]], if there is a match: the first maximal
    run of digits of [t]. *)
Fixpoint first_match (s : string) : option string :=
  match s with
  | EmptyString => None
  | String c s' =>
      match Scrape.digit_of c with
      | Some _ => Some (String c (digit_run s'))
      | None => first_match s'
      end
  end.

(** The digits that follow, read as one decimal number. *)
Fixpoint take_digits (s : string) (acc : Z) : Z :=
  match s with
  | EmptyString => acc
  | String c s' =>
      match Scrape.digit_of c with
      | Some d => take_digits s' (10 * acc + d)
      | None => acc
      end
  end.

(** [sys.get_int_max_str_digits()], by default. *)
Definition MAX_STR_DIGITS : N := 4300.

(** [int(ds)] for a string of ASCII digits.  CPython since 3.11, and the
    security releases of 3.7 to 3.10, refuse a string of more than 4300
    digits with a [ValueError]; earlier interpreters convert it. *)
Definition int_of_digits (ds : string) : result Z :=
  if (MAX_STR_DIGITS <? N.of_nat (String.length ds))%N
  then Raise "ValueError: Exceeds the limit (4300 digits) for integer string conversion"
  else Ok (take_digits ds 0).

(** Line 88: [n = int(nums[0]) if nums else 1]. *)
Definition first_number (t : string) : result Z :=
  match first_match t with
  | Some ds => int_of_digits ds
  | None => Ok 1%Z
  end.

(** [any(w in t for w in words)]. *)
Definition mentions (words : list string) (t : string) : bool :=
  existsb (fun w => PyStr.contains w t) words.

(** [while mo<=0: mo+=12; yr-=1], run for [fuel] turns at most. *)
Fixpoint months_back (fuel : nat) (mo yr : Z) : Z * Z :=
  if (mo <=? 0)%Z then
    match fuel with
    | O => (mo, yr)
    | S fuel' => months_back fuel' (mo + 12) (yr - 1)
    end
  else (mo, yr).

(** [parse_date] at the time [now], on an ASCII text.  The loop of line 93
    runs at most once for every month counted back. *)
Definition parse_date (now : Now) (text : string) : result string :=
  let t := PyStr.lower text in
  n ← first_number t;
  if mentions ["jour"; "day"] t then days_ago now n
  else if mentions ["semaine"; "week"] t then days_ago now (7 * n)
  else if mentions ["mois"; "month"] t then
    let '(mo, yr) := months_back (Z.to_nat n) (month now - n)%Z (year now) in
    Ok (pretty yr +:+ "-" +:+ Collect.fmt_d 2 mo +:+ "-15")
  else if mentions ["an"; "year"] t then Ok (pretty (year now - n)%Z +:+ "-06-15")
  else Ok (today now).

(** A clock for closed examples: the fourth of November 2026; the only day
    count it answers is zero. *)
Definition sample_now : Now :=
  {| year := 2026; month := 11; today := "2026-11-04";
     days_ago := fun n => if (n =? 0)%Z then Ok "2026-11-04"
                          else Raise "OverflowError: date value out of range" |}.

End Dates.

(* ===================================================================== *)
(** ** Vocabulary of the statements *)
(* ===================================================================== *)

Section DedupVocabulary.
Import Py Collect.

(** [fps] are the fingerprints of [reviews], position by position. *)
Definition fingerprints (reviews : list review) (fps : list string) : Prop :=
  Forall2 (fun r h => fingerprint r = Ok h) reviews fps.

(** Position [i] is first-seen: its fingerprint occurs at no earlier
    position. *)
Definition first_seen (fps : list string) (i : nat) : Prop :=
  exists h, fps !! i = Some h /\ forall j, j < i -> fps !! j <> Some h.

Definition first_seenb (fps : list string) (i : nat) : bool :=
  match fps !! i with
  | Some h => bool_decide (h ∉ take i fps)
  | None => false
  end.

(** The record at position [i] if that position is first-seen. *)
Definition pick (reviews : list review) (fps : list string) (i : nat) : option review :=
  if first_seenb fps i then reviews !! i else None.

(** The first-seen records, in the order of their positions. *)
Definition first_seen_subsequence (reviews : list review) (fps : list string) : list review :=
  omap (pick reviews fps) (seq 0 (length reviews)).

(** Store names of every length. *)
Fixpoint store_named (n : nat) : string :=
  match n with
  | O => EmptyString
  | S n' => String "a" (store_named n')
  end.

(** A review with the two fields the deduplicator reads. *)
Definition two_fields (text store : string) : review :=
  {[ "review_text" := Str text; "store_name" := Str store ]}.

Definition witness_batch : list review :=
  [ two_fields "Tres bon accueil du personnel" "Intersport Rivoli";
    two_fields "Tres bon accueil du personnel" "Intersport Lyon";
    two_fields "Tres bon accueil du personnel" "Intersport Rivoli";
    two_fields "Magasin propre et bien range" "Intersport Rivoli" ].

Definition witness_fingerprints : list string :=
  [ "56c742640514bd787411b73fd38226e6"; "f90310950242071a5cb074a015e98f8b";
    "56c742640514bd787411b73fd38226e6"; "d0e57955319f0e68dc79d1504e086563" ].

(** A review that also carries a rating, which the deduplicator does not
    read. *)
Definition rated (rating : Z) (text store : string) : review :=
  <["rating" := Int rating]> (two_fields text store).

(** A batch whose second record repeats the text and the store of the
    first with another rating, and whose third has the text at another
    store. *)
Definition repeat_batch : list review :=
  [ rated 5 "Tres bon accueil du personnel" "Intersport Rivoli";
    rated 1 "Tres bon accueil du personnel" "Intersport Rivoli";
    two_fields "Tres bon accueil du personnel" "Intersport Lyon" ].

Definition repeat_fingerprints : list string :=
  [ "56c742640514bd787411b73fd38226e6"; "56c742640514bd787411b73fd38226e6";
    "f90310950242071a5cb074a015e98f8b" ].
End DedupVocabulary.

Section Md5Vocabulary.
Import Md5.
Local Open Scope Z_scope.

(** A 32-bit word, and a state of four of them. *)
Definition word_ok (x : Z) : Prop := 0 <= x < 2 ^ 32.
Definition state_ok (st : state) : Prop :=
  let '(a, b, c, d) := st in word_ok a /\ word_ok b /\ word_ok c /\ word_ok d.

End Md5Vocabulary.

Section AdapterVocabulary.
Import Py Collect.

(** What the adapter makes of one request: the parsed payload read by
    [read], or nothing on any failure. *)
Definition contained {A} (read : val -> result (list A)) (outcome : HttpOutcome) : list A :=
  match outcome with
  | HttpFailed _ => []
  | HttpResponse status json =>
      if (400 <=? status)%Z && (status <? 600)%Z then []
      else match json with
           | Raise _ => []
           | Ok payload => match read payload with Ok l => l | Raise _ => [] end
           end
  end.

End AdapterVocabulary.

Section RunVocabulary.
Import Py Scrape.

(** The outline of a run: which units were skipped, which were processed,
    and where the output was saved. *)
Inductive Step : Type :=
| Skipped (city : string)
| Processed (city : string)
| SavedHere.

Definition step_of (ev : Event) : option Step :=
  match ev with
  | EvSkip c => Some (Skipped c)
  | EvCity c => Some (Processed c)
  | EvSaved _ => Some SavedHere
  | _ => None
  end.

Definition outline (evs : list Event) : list Step := omap step_of evs.

(** What the outline of a run over [cities] must be, given the done set. *)
Definition expected_outline (done_cities : gset string) (cities : list (string * float * float))
  : list Step :=
  flat_map (fun city : string * float * float =>
              let c := fst (fst city) in
              if decide (c ∈ done_cities) then [Skipped c] else [Processed c; SavedHere])
           cities.

(** A computation of [main] that always returns and changes the variables
    of [main] only along [R]. *)
Definition steps {W A} (R : State -> State -> Prop) (c : M (W * State) A) : Prop :=
  forall ws, R (snd ws) (snd (snd (c ws))).

Definition returns {W A} (c : M (W * State) A) : Prop :=
  forall ws, exists a, fst (c ws) = Ok a.

(** The variables change without a trace in the outline. *)
Definition quiet (st st' : State) : Prop := outline (log st') = outline (log st).

End RunVocabulary.

Section ResumeVocabulary.
Import Py Scrape.

(** The done set is the projection of [search_city] off the records read. *)
Definition names_units (existing : list review) (done_cities : gset string) : Prop :=
  forall c, c ∈ done_cities
            <-> exists r, r ∈ existing /\ r !! "search_city" = Some (Str c).

End ResumeVocabulary.

Section Stubs.
Import Py Scrape.

(** Library stand-ins for closed examples. *)
Definition plain_lib : Lib :=
  {| float_str := fun _ => "0.0";
     parse_gps := fun _ => (0%float, 0%float);
     re_city := fun _ => None;
     parse_date := fun _ => Ok "2024-01-15";
     soup_reviews := fun _ => [];
     str_of := fun _ => "";
     int_of := fun _ => None |}.

(** A browser in which every page loads and no element is ever found. *)
Definition blank_browser : Browser unit unit unit :=
  {| new_chrome := fun _ => ret tt;
     get := fun _ _ => ret tt;
     find_element := fun _ _ => raise "Message: no such element";
     find_elements := fun _ _ => ret [];
     wait_clickable := fun _ _ => raise "Message: timeout";
     execute_script := fun _ _ _ => ret tt;
     current_url := fun _ => ret "https://www.google.com/maps";
     page_source := fun _ => ret "";
     quit := fun _ => ret tt;
     get_attribute := fun _ _ => ret None;
     text := fun _ => ret "";
     click := fun _ => ret tt |}.


(** An output file of an earlier run: the header and one review of Paris. *)
Definition paris_row : list string :=
  ["REV-00001"; "Tres bon accueil"; "5"; "2024-01-15"; "Marie"; "Intersport Rivoli";
   "30 Rue de Rivoli, 75004 Paris"; "Paris"; "Paris Intra Muros"; "Ile-de-France";
   "48.8566"; "2.3522"; "google_maps"; "Paris"].
Definition paris_file : File := Some [FIELDS; paris_row].

End Stubs.

(* ===================================================================== *)
(** ** Vocabulary of the statements about [01_collect_data.py] *)
(* ===================================================================== *)

Section OutscraperStubs.
Import Py Collect.

(** What the search endpoint answers in the examples: one Intersport store. *)
Definition search_payload : val :=
  Dict [("data", List [List [Dict [("name", Str "Intersport Rivoli");
                                   ("full_address", Str "30 Rue de Rivoli, 75004 Paris");
                                   ("latitude", Float 48.8566);
                                   ("longitude", Float 2.3522);
                                   ("place_id", Str "ChIJ-rivoli")]]])].

(** One upstream review that carries no rating. *)
Definition unrated_payload : val :=
  Dict [("data", List [Dict [("reviews_data",
      List [Dict [("review_text", Str "Tres bon accueil du personnel");
                  ("author_title", Str "Marie")]])]])].

(** One upstream review with a rating. *)
Definition rated_payload : val :=
  Dict [("data", List [Dict [("reviews_data",
      List [Dict [("review_text", Str "Tres bon accueil du personnel");
                  ("review_rating", Int 5);
                  ("author_title", Str "Marie")]])]])].

(** A network that answers every search with [search_payload] and every
    other request with [reviews_payload], status 200. *)
Definition canned_http (reviews_payload : val) : Http unit :=
  {| http_get := fun key url params w =>
       (HttpResponse 200 (Ok (if String.eqb url SEARCH_URL then search_payload
                              else reviews_payload)), w) |}.

Definition all_installed : Installed :=
  {| HAS_REQUESTS := true; has_bs4 := true; has_selenium := true |}.

(** A run with the Outscraper credential and nothing else set. *)
Definition outscraper_config : Config :=
  {| environ := {[ "OUTSCRAPER_API_KEY" := "secret" ]}; installed := all_installed |}.

(** A generator that always draws zero. *)
Definition constant_rng : Rng :=
  {| G := unit; seed := fun _ => tt; draw := fun g => (0%Z, g);
     uniform := fun g => (0%float, g) |}.

End OutscraperStubs.

Section MainVocabulary.
Import Py Collect.

(** Line 225: the flag that asks for the browser-automation branch. *)
Definition use_selenium (cfg : Config) : bool :=
  PyStr.in_tuple (PyStr.lower (getenv cfg "USE_SELENIUM")) ["1"; "true"; "yes"].

(** Line 252: the test of the remote-API branch. *)
Definition remote_ready (cfg : Config) : bool :=
  negb (String.eqb (getenv cfg "OUTSCRAPER_API_KEY") "") && HAS_REQUESTS (installed cfg).

Definition modes_of (o : Outcome) : list Mode :=
  match o with Saved modes _ => modes | Exited _ modes => modes end.

(** The four adapters of the specification and the precedence it states:
    browser automation if requested, else the remote API if its credential
    is present, else the official API if its credential is present, else the
    synthetic generator. *)
Inductive Adapter : Type :=
| BrowserAutomation
| RemoteApi
| OfficialApi
| Synthetic.

Definition stated_choice (browser_requested remote_credential official_credential : bool)
  : Adapter :=
  if browser_requested then BrowserAutomation
  else if remote_credential then RemoteApi
  else if official_credential then OfficialApi
  else Synthetic.

Definition adapter_of (m : Mode) : Adapter :=
  match m with
  | MODE_Selenium => BrowserAutomation
  | MODE_Outscraper => RemoteApi
  | MODE_Simulated => Synthetic
  end.

(** The adapter a run starts with: its first [MODE] line. *)
Definition first_adapter (o : Outcome) : option Adapter :=
  adapter_of <$> head (modes_of o).

(** The fields of a synthetic review and of a review of the remote API. *)
Definition SIMULATED_KEYS : gset string :=
  list_to_set ["review_id"; "review_text"; "rating"; "date"; "reviewer_name"; "store_id";
               "store_name"; "address"; "city"; "zone"; "region"; "latitude"; "longitude";
               "source"].

Definition OUTSCRAPER_KEYS : gset string :=
  list_to_set ["review_text"; "rating"; "date"; "reviewer_name"; "store_name"; "address";
               "city"; "zone"; "region"; "latitude"; "longitude"; "source"].

(** A synthetic review: all its fields, a non-empty text, a rating between
    one and five, an identifier. *)
Definition simulated_review (r : review) : Prop :=
  dom r = SIMULATED_KEYS
  /\ (exists text, r !! "review_text" = Some (Str text) /\ text <> "")
  /\ (exists store, r !! "store_name" = Some (Str store))
  /\ (exists n, r !! "rating" = Some (Int n) /\ (1 <= n <= 5)%Z)
  /\ (exists n, r !! "review_id" = Some (Str (review_id n))).

(** A computation that always returns, with a result in [P]. *)
Definition yields {W A} (m : M W A) (P : A -> Prop) : Prop :=
  forall w, exists a w', m w = (Ok a, w') /\ P a.

(** A computation whose results, when it returns, are in [P]. *)
Definition ensures {W A} (m : M W A) (P : A -> Prop) : Prop :=
  forall w a w', m w = (Ok a, w') -> P a.

(** The pools can all be drawn from: every name has templates, none empty. *)
Definition pools_ok : bool :=
  forallb (fun pool =>
             match templates_of TEMPLATES pool with
             | Ok texts => negb (Nat.eqb (length texts) 0)
                           && forallb (fun t => negb (String.eqb t "")) texts
             | Raise _ => false
             end)
          (map fst TEMPLATES).

End MainVocabulary.

Section OutscraperShapes.
Import Py Collect.

(** The four fields of a review as [get_reviews] builds it, and no other. *)
Definition fetched (r : review) : Prop :=
  dom r = list_to_set ["review_text"; "rating"; "date"; "reviewer_name"].

(** Reviews as [scrape_area] returns them: the twelve fields of the remote
    API's adapter, and no other. *)
Definition shaped (revs : list review) : Prop :=
  Forall (fun r : review => dom r = OUTSCRAPER_KEYS) revs.

End OutscraperShapes.

Section MainStubs.
Import Py Collect.

(** The Outscraper credential is set but [requests] cannot be imported. *)
Definition requests_missing_config : Config :=
  {| environ := {[ "OUTSCRAPER_API_KEY" := "secret" ]};
     installed := {| HAS_REQUESTS := false; has_bs4 := true; has_selenium := true |} |}.

(** Only a Google Places credential is set. *)
Definition official_only_config : Config :=
  {| environ := {[ "GOOGLE_API_KEY" := "secret" ]}; installed := all_installed |}.

(** The browser branch is requested; [bs4] is installed and [selenium] is
    not. *)
Definition selenium_missing_config : Config :=
  {| environ := {[ "USE_SELENIUM" := "1" ]};
     installed := {| HAS_REQUESTS := true; has_bs4 := true; has_selenium := false |} |}.

End MainStubs.

Section RunTests.
Import Py Collect.

(** Boolean tests on one field of a review, and on what a run saved; they
    let a concrete run be evaluated. *)
Definition field_is_int (k : string) (z : Z) (r : review) : bool :=
  match r !! k with Some (Int z') => Z.eqb z' z | _ => false end.

Definition field_is_str (k s : string) (r : review) : bool :=
  match r !! k with Some (Str s') => String.eqb s' s | _ => false end.

Definition field_absent (k : string) (r : review) : bool :=
  match r !! k with None => true | Some _ => false end.

Definition mode_eqb (a b : Mode) : bool :=
  match a, b with
  | MODE_Selenium, MODE_Selenium
  | MODE_Outscraper, MODE_Outscraper
  | MODE_Simulated, MODE_Simulated => true
  | _, _ => false
  end.

Fixpoint modes_eqb (a b : list Mode) : bool :=
  match a, b with
  | [], [] => true
  | x :: a', y :: b' => mode_eqb x y && modes_eqb a' b'
  | _, _ => false
  end.

(** The run saved [n] reviews, all passing [test], after the lines [modes]. *)
Definition saved_all {W} (test : review -> bool) (modes : list Mode) (n : nat)
    (run : result Outcome * W) : bool :=
  match fst run with
  | Ok (Saved modes' revs) =>
      modes_eqb modes' modes && Nat.eqb (length revs) n && forallb test revs
  | _ => false
  end.

(** The computation returned at least one review. *)
Definition returned_some {W} (run : result (list review) * W) : bool :=
  match fst run with Ok (_ :: _) => true | _ => false end.

End RunTests.

(** [s.lstrip("0")]: a zero-padded number without its padding. *)
Fixpoint skip_zeros (s : string) : string :=
  match s with
  | String c s' => if Ascii.eqb c "0" then skip_zeros s' else s
  | EmptyString => EmptyString
  end.

(** What the browser adapter guarantees of a parsed review: a text of at
    least five characters and a one-digit rating that is not zero. *)
Definition parsed_review (r : Collect.review) : Prop :=
  exists (text : string) (n : Z),
    r !! "review_text" = Some (Py.Str text) /\ 5 <= PyStr.len text
    /\ r !! "rating" = Some (Py.Int n) /\ (1 <= n <= 9)%Z.

(* ===================================================================== *)
(** ** Vocabulary of the further properties *)
(* ===================================================================== *)

Section AreaVocabulary.
Import Py Collect.

(** A store kept by [find_stores]: its name mentions Intersport. *)
Definition listed (s : Store) : Prop :=
  PyStr.contains "intersport" (PyStr.lower (name s)) = true.

(** A review as [get_reviews] builds it: the four fields, and a text whose
    [len] is at least ten. *)
Definition fetched_long (r : review) : Prop :=
  fetched r
  /\ exists (text : val) (n : nat),
       r !! "review_text" = Some text /\ len text = Ok n /\ 10 <= n.

(** A review as [scrape_area] returns it. *)
Definition area_review (r : review) : Prop :=
  dom r = OUTSCRAPER_KEYS
  /\ (exists text, r !! "review_text" = Some (Str text) /\ 10 <= PyStr.len text)
  /\ (exists store, r !! "store_name" = Some (Str store)
                    /\ PyStr.contains "intersport" (PyStr.lower store) = true)
  /\ (exists zone, r !! "zone" = Some (Str zone) /\ In zone Zone.labels)
  /\ (exists region, r !! "region" = Some (Str region)
                     /\ (region = "France" \/ In region (map snd Collect.REGION_TABLE)))
  /\ r !! "source" = Some (Str "outscraper")
  /\ r !! "review_id" = None.

(** The same, before the deduplicator has read the text. *)
Definition area_review_raw (r : review) : Prop :=
  dom r = OUTSCRAPER_KEYS
  /\ (exists (text : val) (n : nat),
        r !! "review_text" = Some text /\ len text = Ok n /\ 10 <= n)
  /\ (exists store, r !! "store_name" = Some (Str store)
                    /\ PyStr.contains "intersport" (PyStr.lower store) = true)
  /\ (exists zone, r !! "zone" = Some (Str zone) /\ In zone Zone.labels)
  /\ (exists region, r !! "region" = Some (Str region)
                     /\ (region = "France" \/ In region (map snd Collect.REGION_TABLE)))
  /\ r !! "source" = Some (Str "outscraper")
  /\ r !! "review_id" = None.

(** The fingerprints of a batch exist and differ from one another. *)
Definition distinct_fingerprints (reviews : list review) : Prop :=
  exists fps, fingerprints reviews fps /\ NoDup fps.



End AreaVocabulary.

Section GeneratorVocabulary.
Import Py Collect.

(** A synthetic review numbered [n]. *)
Definition simulated_at (n : Z) (r : review) : Prop :=
  simulated_review r
  /\ r !! "review_id" = Some (Str (review_id n))
  /\ (exists zone, r !! "zone" = Some (Str zone) /\ In zone Zone.labels)
  /\ r !! "source" = Some (Str "simulated").

(** The accumulators of the generator: [cnt] reviews so far, the one at
    position [k] (from zero) numbered [k + 1]. *)
Definition counted (revs : list review) (cnt : Z) : Prop :=
  cnt = Z.of_nat (length revs)
  /\ forall k r, revs !! k = Some r -> simulated_at (Z.of_nat k + 1) r.

End GeneratorVocabulary.

(** A list of positions that grows strictly. *)
Definition increasing (ns : list nat) : Prop :=
  forall i j a b, i < j -> ns !! i = Some a -> ns !! j = Some b -> a < b.

Section RunInvariants.
Import Py Scrape.

(** The four fields of a review as [scrape_reviews] parses it, with a text
    and a rating that passed the test of line 269. *)
Definition parsed (r : review) : Prop :=
  dom r = list_to_set ["review_text"; "rating"; "date"; "reviewer_name"]
  /\ parsed_review r.

(** A store found by a search: its label mentions Intersport. *)
Definition labelled (store : Found) : Prop :=
  PyStr.contains "intersport" (PyStr.lower (found_name store)) = true.

(** The links kept so far: labelled, with hrefs that are not empty and all
    different, [seen] being the set of them. *)
Definition kept (acc : list Found * gset string) : Prop :=
  Forall labelled (fst acc)
  /\ Forall (fun s => found_href s <> "") (fst acc)
  /\ NoDup (map found_href (fst acc))
  /\ forall h, h ∈ snd acc <-> In h (map found_href (fst acc)).

(** A review as the orchestrator appends it: the [n]-th of the batch, with
    the fourteen fields of the output, found while searching a unit in
    [Q]. *)
Definition appended (Q : string -> Prop) (n : Z) (r : review) : Prop :=
  dom r = list_to_set FIELDS
  /\ r !! "review_id" = Some (Str (review_id n))
  /\ parsed_review r
  /\ (exists name, r !! "store_name" = Some (Str name) /\ name <> "")
  /\ (exists zone, r !! "zone" = Some (Str zone) /\ In zone Zone.labels)
  /\ r !! "source" = Some (Str "google_maps")
  /\ (exists city, r !! "search_city" = Some (Str city) /\ Q city).

(** The batch grows at its end by reviews numbered from the counter on, and
    the counter advances by their number. *)
Definition extends (Q : string -> Prop) (st st' : State) : Prop :=
  exists new : list review,
    all_reviews st' = all_reviews st ++ new
    /\ counter st' = (counter st + Z.of_nat (length new))%Z
    /\ forall k r, new !! k = Some r -> appended Q (counter st + 1 + Z.of_nat k) r.

(** The output file holds the batch: the header and one row per review. *)
Definition synced (lib : Lib) (st : State) : Prop :=
  all_reviews st <> [] ->
  file st = Some (FIELDS :: map (row_of (str_of lib)) (all_reviews st)).

(** The units of [cities] that a run with this done set searches. *)
Definition pending (done_cities : gset string) (cities : list (string * float * float))
    (c : string) : Prop :=
  In c (map (fun city : string * float * float => fst (fst city)) cities)
  /\ c ∉ done_cities.

End RunInvariants.

Section FileInvariants.
Import Py Scrape.

(** The output file is left as it is. *)
Definition keeps_file (st st' : State) : Prop := file st' = file st.

(** What a run has done to the output file [st] started with: nothing, the
    batch being the same too, or the file is what [save_all] writes for the
    batch.  A batch that is empty was empty before. *)
Definition saved (lib : Lib) (st st' : State) : Prop :=
  (all_reviews st' = [] -> all_reviews st = [])
  /\ ((file st' = file st /\ all_reviews st' = all_reviews st)
      \/ file st' = save_all (str_of lib) (all_reviews st') (file st)).

(** The carriage return, and the batches none of whose cells holds one.
    [load_existing] opens the file in text mode without [newline=""], so a
    carriage return inside a cell would be read back as a line feed; the
    file being modelled as the table it encodes, what is said of cells read
    back is said of such batches. *)
Definition CR : string := String (Ascii.ascii_of_nat 13) EmptyString.

Definition plain_cells (str_of : val -> string) (reviews : list review) : bool :=
  forallb (fun r => forallb (fun c => negb (PyStr.contains CR c)) (row_of str_of r))
          reviews.

(** A review read back from the output file: the row [save_all] wrote for
    it, under the header. *)
Definition reloaded (str_of : val -> string) (r : review) : review :=
  row_dict FIELDS (row_of str_of r).

End FileInvariants.

Section RunStubs.
Import Py Scrape.

(** The batch carries the identifiers of its positions: the review at
    position [k] (from zero) is [REV-] followed by [k + 1]. *)
Definition numbered (reviews : list review) : Prop :=
  forall k r, reviews !! k = Some r ->
              r !! "review_id" = Some (Str (review_id (Z.of_nat k + 1))).

(** A result page with three links, each an [href] and a label: two to the
    same Intersport store and one to another shop. *)
Definition listing_browser : Browser unit unit (string * string) :=
  {| new_chrome := fun _ => ret tt;
     get := fun _ _ => ret tt;
     find_element := fun _ _ => raise "Message: no such element";
     find_elements := fun _ sel =>
       match sel with
       | STORE_LINKS =>
           ret [("https://maps.google.com/?cid=1", "Intersport Rivoli");
                ("https://maps.google.com/?cid=1", "INTERSPORT Rivoli ");
                ("https://maps.google.com/?cid=2", "Decathlon Madeleine")]
       | _ => ret []
       end;
     wait_clickable := fun _ _ => raise "Message: timeout";
     execute_script := fun _ _ _ => ret tt;
     current_url := fun _ => ret "https://www.google.com/maps";
     page_source := fun _ => ret "";
     quit := fun _ => ret tt;
     get_attribute := fun el name =>
       ret (if String.eqb name "href" then Some (fst el) else Some (snd el));
     text := fun _ => ret "";
     click := fun _ => ret tt |}.

(** A browser whose session is lost: every navigation raises. *)
Definition crashed_browser : Browser unit unit unit :=
  {| new_chrome := fun _ => ret tt;
     get := fun _ _ => raise "Message: invalid session id";
     find_element := fun _ _ => raise "Message: invalid session id";
     find_elements := fun _ _ => raise "Message: invalid session id";
     wait_clickable := fun _ _ => raise "Message: invalid session id";
     execute_script := fun _ _ _ => raise "Message: invalid session id";
     current_url := fun _ => raise "Message: invalid session id";
     page_source := fun _ => raise "Message: invalid session id";
     quit := fun _ => raise "Message: invalid session id";
     get_attribute := fun _ _ => raise "Message: invalid session id";
     text := fun _ => raise "Message: invalid session id";
     click := fun _ => raise "Message: invalid session id" |}.

(** An output file written by another tool: no [store_name] column. *)
Definition foreign_file : File :=
  Some [["review_text"; "search_city"]; ["Tres bon accueil"; "Paris"]].

(** Two reviews as the orchestrator holds them before a save. *)
Definition two_reviews : list review :=
  [ annotate (review_id 1) "Intersport Rivoli" "30 Rue de Rivoli, 75004 Paris" "Paris"
      "Paris Intra Muros" "Ile-de-France" 48.8566 2.3522 "Paris"
      (review_of "Tres bon accueil" 5 "2024-01-15" "Marie");
    annotate (review_id 2) "Intersport Part-Dieu" "CC Part-Dieu, 69003 Lyon" "Lyon"
      "Province" "Auvergne-Rhone-Alpes" 45.7604 4.8590 "Lyon"
      (review_of "Magasin propre" 4 "2024-02-15" "Thomas") ].

End RunStubs.

Section MoreStubs.
Import Py Scrape.

(** A browser that starts but refuses every script. *)
Definition unscriptable_browser : Browser unit unit unit :=
  {| new_chrome := fun _ => ret tt;
     get := fun _ _ => ret tt;
     find_element := fun _ _ => raise "Message: no such element";
     find_elements := fun _ _ => ret [];
     wait_clickable := fun _ _ => raise "Message: timeout";
     execute_script := fun _ _ _ => raise "Message: javascript error";
     current_url := fun _ => ret "https://www.google.com/maps";
     page_source := fun _ => ret "";
     quit := fun _ => ret tt;
     get_attribute := fun _ _ => ret None;
     text := fun _ => ret "";
     click := fun _ => ret tt |}.

(** A library whose [int] reads the two numerals of the examples. *)
Definition numeral_lib : Lib :=
  {| float_str := float_str plain_lib;
     parse_gps := parse_gps plain_lib;
     re_city := re_city plain_lib;
     parse_date := parse_date plain_lib;
     soup_reviews := soup_reviews plain_lib;
     str_of := str_of plain_lib;
     int_of := fun s => if String.eqb s "20" then Some 20%Z
                        else if String.eqb s "80" then Some 80%Z else None |}.

End MoreStubs.

Section ResumeCells.
Import Py Scrape.

(** A cell as [csv.DictReader] gives it: a string, or [None] for a cell the
    row lacks. *)
Definition text_cell (v : val) : Prop := v = None_ \/ exists s, v = Str s.

(** A record all of whose fields are such cells. *)
Definition text_cells (r : review) : Prop :=
  forall k v, r !! k = Some v -> text_cell v.

End ResumeCells.

Section RemoteVocabulary.
Import Py Collect.


End RemoteVocabulary.

(* ===================================================================== *)
(** * Theorems *)
(* ===================================================================== *)

(* ===================================================================== *)
(** ** Substring facts *)
(* ===================================================================== *)

Section Substrings.
Import PyStr.

Lemma starts_with_app (p t : string) : starts_with p (p +:+ t) = true.
Proof.
  induction p as [|a p IH]; simpl; [reflexivity|].
  rewrite Ascii.eqb_refl. exact IH.
Qed.

Lemma starts_with_inv (p s : string) :
  starts_with p s = true -> exists t, s = p +:+ t.
Proof.
  revert s. induction p as [|a p IH]; intros s H.
  - exists s. reflexivity.
  - destruct s as [|b s]; simpl in H; [discriminate|].
    apply andb_true_iff in H as [Hab Hps].
    apply Ascii.eqb_eq in Hab. subst b.
    destruct (IH _ Hps) as [t ->]. exists t. reflexivity.
Qed.

Lemma contains_intro (sub a b : string) : contains sub (a +:+ sub +:+ b) = true.
Proof.
  induction a as [|c a IH]; simpl.
  - pose proof (starts_with_app sub b) as H.
    destruct (sub +:+ b); simpl; rewrite H; reflexivity.
  - rewrite IH. apply orb_true_r.
Qed.

Lemma contains_inv (sub s : string) :
  contains sub s = true -> exists a b, s = a +:+ sub +:+ b.
Proof.
  induction s as [|c s IH]; simpl; intros H.
  - rewrite orb_false_r in H. destruct (starts_with_inv _ _ H) as [t Ht].
    exists "", t. exact Ht.
  - apply orb_true_iff in H as [H|H].
    + destruct (starts_with_inv _ _ H) as [t Ht]. exists "", t. exact Ht.
    + destruct (IH H) as (a & b & ->). exists (String c a), b. reflexivity.
Qed.

Lemma string_app_assoc (a b c : string) : (a +:+ b) +:+ c = a +:+ (b +:+ c).
Proof.
  induction a as [|x a IH]; simpl; [reflexivity | now rewrite IH].
Qed.

(** A substring of a substring is a substring. *)
Lemma contains_trans (x y z : string) :
  contains x y = true -> contains y z = true -> contains x z = true.
Proof.
  intros Hxy Hyz.
  destruct (contains_inv _ _ Hxy) as (a & b & ->).
  destruct (contains_inv _ _ Hyz) as (c & d & ->).
  replace (c +:+ (a +:+ x +:+ b) +:+ d) with ((c +:+ a) +:+ x +:+ (b +:+ d)).
  - apply contains_intro.
  - now rewrite !string_app_assoc.
Qed.

End Substrings.
(* ===================================================================== *)
(** ** Zone classifier *)
(* ===================================================================== *)

Section ZoneFacts.
Import Py.

Lemma first_keyword_value (table : list (string * string)) (a v : string) :
  Zone.first_keyword table a = Some v -> In v (map snd table).
Proof.
  induction table as [|[k w] table IH]; simpl; [discriminate|].
  destruct (PyStr.contains k a).
  - intros [= ->]. now left.
  - intros H. right. auto.
Qed.

(** A numeric coordinate never makes the box test raise. *)
Lemma in_box_coordinate (lat lng : Zone.coordinate) :
  exists inside, Zone.in_box (Zone.coordinate_val lat) (Zone.coordinate_val lng) = Ok inside.
Proof.
  unfold Zone.in_box, between.
  destruct lat, lng; simpl;
    match goal with |- context [if ?c then _ else _] => destruct c end; eauto.
Qed.


(** The narrower region test implies the wider one. *)
Lemma scrape_idf_collect_idf (region : string) :
  Scrape.region_is_idf region = true -> Collect.region_is_idf region = true.
Proof.
  unfold Scrape.region_is_idf, Collect.region_is_idf. intros H.
  assert (HF : PyStr.contains "France" region = true).
  { apply contains_trans with "Ile-de-France"; [reflexivity | exact H]. }
  assert (HI : PyStr.contains "Ile" region = true).
  { apply contains_trans with "Ile-de-France"; [reflexivity | exact H]. }
  now rewrite HF, HI.
Qed.

(** The two tests agree on every label the two region guessers produce. *)
Lemma idf_agree_on_tables :
  Forall (fun v => Collect.region_is_idf v = Scrape.region_is_idf v)
         ("France" :: map snd Collect.REGION_TABLE ++ map snd Scrape.REGION_TABLE).
Proof. repeat constructor. Qed.

Lemma region_in_tables (addr : string) :
  In (Collect._region addr)
     ("France" :: map snd Collect.REGION_TABLE ++ map snd Scrape.REGION_TABLE)
  /\ In (Scrape.guess_region addr)
        ("France" :: map snd Collect.REGION_TABLE ++ map snd Scrape.REGION_TABLE).
Proof.
  unfold Collect._region, Scrape.guess_region. split.
  - destruct (Zone.first_keyword Collect.REGION_TABLE _) eqn:E; [|left; reflexivity].
    right. apply in_or_app. left. eapply first_keyword_value, E.
  - destruct (Zone.first_keyword Scrape.REGION_TABLE _) eqn:E; [|left; reflexivity].
    right. apply in_or_app. right. eapply first_keyword_value, E.
Qed.

Lemma classify_agree_iff (lat lng : val) (region : string) :
  Collect.classify_zone lat lng region = Scrape.classify_zone lat lng region
  <-> Collect.region_is_idf region = Scrape.region_is_idf region.
Proof.
  unfold Collect.classify_zone, Scrape.classify_zone, Collect.is_paris_intra.
  split.
  - destruct (Collect.region_is_idf region), (Scrape.region_is_idf region);
      try reflexivity;
      destruct (Zone.in_box lat lng) as [[]|]; simpl; discriminate.
  - intros ->. reflexivity.
Qed.


End ZoneFacts.



(** C10, as the code has it.  The two classifiers return the same result
    exactly when their region tests agree, that is, unless the label passes
    the test of [01_collect_data.py] without containing "Ile-de-France".
    The test of [scrape_google_maps.py] implies the other one, and the two
    tests agree on every label that [_region] and [guess_region] return. *)
Theorem classify_zone_implementations (lat lng : Py.val) (region : string) :
  (Collect.classify_zone lat lng region = Scrape.classify_zone lat lng region
   <-> (Collect.region_is_idf region = true -> Scrape.region_is_idf region = true))
  /\ (Scrape.region_is_idf region = true -> Collect.region_is_idf region = true)
  /\ (forall addr : string,
        Collect.classify_zone lat lng (Collect._region addr)
        = Scrape.classify_zone lat lng (Collect._region addr)
        /\ Collect.classify_zone lat lng (Scrape.guess_region addr)
           = Scrape.classify_zone lat lng (Scrape.guess_region addr)).
Proof.
  split; [|split].
  - rewrite classify_agree_iff. split.
    + intros ->. auto.
    + intros H. destruct (Collect.region_is_idf region) eqn:EC.
      * symmetry. auto.
      * destruct (Scrape.region_is_idf region) eqn:ES; [|reflexivity].
        apply scrape_idf_collect_idf in ES. congruence.
  - apply scrape_idf_collect_idf.
  - intros addr. pose proof idf_agree_on_tables as HF.
    rewrite Forall_forall in HF.
    destruct (region_in_tables addr) as [H1 H2].
    split; apply classify_agree_iff; apply HF, list_elem_of_In; assumption.
Qed.

(** C10 fails as stated: on the label with the accented capital the
    classifier of [01_collect_data.py] answers a Paris zone and the one of
    [scrape_google_maps.py] answers "Province". *)
Lemma classify_zone_implementations_differ :
  Collect.classify_zone (Py.Float 48.8566) (Py.Float 2.3522) "Île-de-France"
    = Py.Ok "Paris Intra Muros"
  /\ Scrape.classify_zone (Py.Float 48.8566) (Py.Float 2.3522) "Île-de-France"
    = Py.Ok "Province".
Proof. split; vm_compute; reflexivity. Qed.

(* ===================================================================== *)
(** ** Deduplicator *)
(* ===================================================================== *)

Section DedupFacts.
Import Py Collect.

Lemma first_seenb_spec (fps : list string) (i : nat) :
  first_seenb fps i = true <-> first_seen fps i.
Proof.
  unfold first_seenb, first_seen. destruct (fps !! i) as [h|] eqn:E.
  - rewrite bool_decide_eq_true. split.
    + intros Hn. exists h. split; [reflexivity|]. intros j Hj Hl.
      apply Hn. apply list_elem_of_lookup. exists j.
      rewrite lookup_take_lt by exact Hj. exact Hl.
    + intros (h' & [= <-] & Hn) Hin.
      apply list_elem_of_lookup in Hin as [j Hj].
      pose proof (lookup_lt_Some _ _ _ Hj) as Hlt.
      rewrite length_take in Hlt.
      apply (Hn j); [lia|]. rewrite lookup_take_lt in Hj by lia. exact Hj.
  - split; [discriminate|]. intros (h & [=] & _).
Qed.

Lemma dedup_loop_spec (rest : list review) :
  forall (pre : list review) (fpre frest : list string) (out : list review),
    length pre = length fpre ->
    fingerprints rest frest ->
    dedup_loop rest (list_to_set fpre) out
    = Ok (out ++ omap (pick (pre ++ rest) (fpre ++ frest)) (seq (length pre) (length rest))).
Proof.
  induction rest as [|r rest IH]; intros pre fpre frest out Hlen Hfp.
  - simpl. now rewrite app_nil_r.
  - inversion Hfp as [|r' h rest' frest' Hh Hrest]; subst.
    cbn [dedup_loop]. rewrite Hh. cbn [mbind result_bind].
    cbn [length seq]. change (omap ?f (?x :: ?l)) with (match f x with Some y => y :: omap f l | None => omap f l end).
    assert (Hpick : pick (pre ++ r :: rest) (fpre ++ h :: frest') (length pre)
                    = if decide (h ∈ fpre) then None else Some r).
    { unfold pick, first_seenb.
      rewrite Hlen at 1. rewrite list_lookup_middle by reflexivity.
      rewrite Hlen. rewrite take_app_length.
      rewrite list_lookup_middle by (symmetry; exact Hlen).
      destruct (decide (h ∈ fpre)) as [Hin|Hin].
      - rewrite bool_decide_eq_false_2; [reflexivity | tauto].
      - rewrite bool_decide_eq_true_2; [reflexivity | assumption]. }
    rewrite Hpick.
    specialize (IH (pre ++ [r]) (fpre ++ [h]) frest').
    rewrite !length_app in IH. simpl in IH.
    rewrite <- !app_assoc in IH. simpl in IH.
    replace (length pre + 1) with (S (length pre)) in IH by lia.
    destruct (decide (h ∈ list_to_set (C := gset string) fpre)) as [Hin|Hin];
      rewrite elem_of_list_to_set in Hin;
      destruct (decide (h ∈ fpre)); try contradiction.
    + replace (list_to_set (C := gset string) fpre)
        with (list_to_set (C := gset string) (fpre ++ [h])).
      * apply IH; [lia | assumption].
      * rewrite list_to_set_app_L. simpl. set_solver.
    + replace ({[h]} ∪ list_to_set (C := gset string) fpre)
        with (list_to_set (C := gset string) (fpre ++ [h])).
      * rewrite IH by (lia || assumption). now rewrite <- app_assoc.
      * rewrite list_to_set_app_L. simpl. set_solver.
Qed.

Lemma dedup_spec (reviews : list review) (fps : list string) :
  fingerprints reviews fps ->
  dedup reviews = Ok (first_seen_subsequence reviews fps).
Proof.
  intros H. unfold dedup.
  change (∅ : gset string) with (list_to_set (C := gset string) []).
  rewrite (dedup_loop_spec reviews [] [] fps []); [reflexivity | reflexivity | exact H].
Qed.

End DedupFacts.

Section DedupMore.
Import Py Collect.

Lemma pick_sublist (p : nat -> bool) (l : list review) :
  forall pre : list review,
    sublist (omap (fun i => if p i then (pre ++ l) !! i else None)
                  (seq (length pre) (length l))) l.
Proof.
  induction l as [|x l IH]; intros pre; [constructor|].
  cbn [length seq].
  change (omap ?f (?a :: ?t))
    with (match f a with Some y => y :: omap f t | None => omap f t end).
  cbn beta. rewrite list_lookup_middle by reflexivity.
  specialize (IH (pre ++ [x])).
  rewrite length_app, <- app_assoc in IH. simpl in IH.
  replace (length pre + 1) with (S (length pre)) in IH by lia.
  destruct (p (length pre)); [apply sublist_skip | apply sublist_cons]; exact IH.
Qed.

Lemma first_seen_subsequence_sublist (reviews : list review) (fps : list string) :
  sublist (first_seen_subsequence reviews fps) reviews.
Proof. apply (pick_sublist (first_seenb fps) reviews []). Qed.

(** Every fingerprint of the batch has a first-seen position. *)
Lemma first_position (fps : list string) (i : nat) (h : string) :
  fps !! i = Some h -> exists k, k <= i /\ fps !! k = Some h /\ first_seenb fps k = true.
Proof.
  intros Hi.
  destruct (list_find (fun x => x = h) fps) as [[k x]|] eqn:E.
  - apply list_find_Some in E as (Hk & -> & Hmin).
    exists k. split; [|split; [exact Hk|]].
    + destruct (le_lt_dec k i) as [|Hlt]; [assumption|].
      exfalso. apply (Hmin i h Hi Hlt). reflexivity.
    + apply first_seenb_spec. exists h. split; [exact Hk|].
      intros j Hj Hl. apply (Hmin j h Hl Hj). reflexivity.
  - apply list_find_None in E. rewrite Forall_forall in E.
    exfalso. apply (E h); [|reflexivity]. eapply list_elem_of_lookup_2, Hi.
Qed.

(** Every fingerprint of the batch survives in the output. *)
Lemma fingerprint_survives (reviews : list review) (fps : list string) (i : nat) (r : review) :
  fingerprints reviews fps -> reviews !! i = Some r ->
  exists k, k ∈ first_seen_subsequence reviews fps /\ fingerprint k = fingerprint r.
Proof.
  intros Hfp Hr.
  destruct (Forall2_lookup_l _ _ _ _ _ Hfp Hr) as (h & Hh & Hfr).
  destruct (first_position fps i h Hh) as (k & Hle & Hk & Hfirst).
  destruct (Forall2_lookup_r _ _ _ _ _ Hfp Hk) as (rk & Hrk & Hfk).
  exists rk. split; [|congruence].
  unfold first_seen_subsequence. apply list_elem_of_omap. exists k. split.
  - apply elem_of_seq. pose proof (lookup_lt_Some _ _ _ Hrk). lia.
  - unfold pick. rewrite Hfirst. exact Hrk.
Qed.

Lemma string_app_inv_head (p a b : string) : p +:+ a = p +:+ b -> a = b.
Proof. induction p as [|c p IH]; simpl; [auto|]. intros [= H]. auto. Qed.

(** Same text, other store: the keys differ. *)
Lemma dedup_key_store (r1 r2 : review) (text s1 s2 : string) :
  field r1 "review_text" = Str text -> field r2 "review_text" = Str text ->
  field r1 "store_name" = Str s1 -> field r2 "store_name" = Str s2 ->
  s1 <> s2 -> dedup_key r1 <> dedup_key r2.
Proof.
  intros T1 T2 S1 S2 Hne. unfold dedup_key. rewrite T1, T2, S1, S2.
  intros [= H]. apply Hne.
  apply string_app_inv_head in H. now injection H.
Qed.

(** Two records alone: both are kept exactly when their fingerprints differ. *)
Lemma dedup_pair (r1 r2 : review) (h1 h2 : string) :
  fingerprint r1 = Ok h1 -> fingerprint r2 = Ok h2 ->
  dedup [r1; r2] = Ok (if decide (h1 = h2) then [r1] else [r1; r2]).
Proof.
  intros H1 H2. unfold dedup. cbn [dedup_loop]. rewrite H1. cbn [mbind result_bind].
  destruct (decide (h1 ∈ (∅ : gset string))) as [Hin|_]; [set_solver|].
  rewrite H2. cbn [mbind result_bind].
  destruct (decide (h2 ∈ ({[h1]} ∪ ∅ : gset string))) as [Hin|Hin];
    destruct (decide (h1 = h2)) as [->|Hne]; try reflexivity; set_solver.
Qed.

End DedupMore.

Section Md5Range.
Import Md5.
Local Open Scope Z_scope.

Lemma add32_ok (x y : Z) : word_ok (add32 x y).
Proof. unfold word_ok, add32, W32. apply Z.mod_pos_bound. lia. Qed.

Lemma process_block_ok (st : state) (block : list Z) : state_ok (process_block st block).
Proof.
  unfold process_block.
  destruct (fold_left _ _ st) as [[[a b] c] d]. destruct st as [[[a0 b0] c0] d0].
  simpl. repeat split; apply add32_ok.
Qed.

Lemma fold_blocks_ok (bs : list (list Z)) (st : state) :
  state_ok st -> state_ok (fold_left process_block bs st).
Proof.
  revert st. induction bs as [|b bs IH]; intros st H; simpl; [exact H|].
  apply IH, process_block_ok.
Qed.

(** The digest is a 128-bit number. *)
Lemma digest_range (s : string) : 0 <= digest s < 2 ^ 128.
Proof.
  unfold digest, final_state.
  pose proof (fold_blocks_ok (blocks (length (pad (bytes_of s)) / 64) (pad (bytes_of s))) INIT) as H.
  destruct (fold_left _ _ INIT) as [[[a b] c] d].
  assert (Hi : state_ok INIT) by (unfold state_ok, INIT, word_ok; lia).
  specialize (H Hi). unfold state_ok, word_ok in H. lia.
Qed.

End Md5Range.

Section Md5Collision.
Import Py Collect.

Lemma store_named_length (n : nat) : String.length (store_named n) = n.
Proof. induction n; simpl; congruence. Qed.

(** More keys than digests: two store names of different lengths give the
    same digest after any common prefix. *)
Lemma md5_collision (prefix : string) :
  exists i j, i < j
    /\ Md5.hexdigest (prefix +:+ store_named i) = Md5.hexdigest (prefix +:+ store_named j).
Proof.
  set (f := fun i => Z.to_nat (Md5.digest (prefix +:+ store_named i))).
  destruct (nat_pigeonhole f (S (Z.to_nat (2 ^ 128))) (Z.to_nat (2 ^ 128)))
    as (i & j & [Hij _] & Hf).
  - apply Nat.lt_succ_diag_r.
  - intros i _. unfold f.
    pose proof (digest_range (prefix +:+ store_named i)) as [H0 H1].
    apply Z2Nat.inj_lt; [exact H0 | apply Z.pow_nonneg; discriminate | exact H1].
  - exists i, j. split; [exact Hij|].
    unfold f in Hf. apply Z2Nat.inj in Hf;
      try (apply digest_range).
    unfold Md5.hexdigest. now rewrite Hf.
Qed.

Lemma two_fields_fingerprint (text store : string) :
  fingerprint (two_fields text store) = Ok (Md5.hexdigest (text +:+ "|" +:+ store)).
Proof. reflexivity. Qed.

End Md5Collision.

(** C4.  On a batch whose records have fingerprints (their text and store
    name are strings), the deduplicator returns exactly the records at the
    first-seen positions, in the order of their positions: position [i] is
    first-seen when its fingerprint occurs at no earlier position.  The
    result is a subsequence of the batch, and the fingerprint is a function
    of the pair (review text, store name) alone. *)
Theorem dedup_keeps_first_seen (reviews : list (gmap string Py.val)) (fps : list string) :
  fingerprints reviews fps ->
  Collect.dedup reviews
  = Py.Ok (omap (fun i => if first_seenb fps i then reviews !! i else None)
                (seq 0 (length reviews)))
  /\ (forall i, first_seenb fps i = true
                <-> exists h, fps !! i = Some h /\ forall j, j < i -> fps !! j <> Some h)
  /\ (forall out, Collect.dedup reviews = Py.Ok out -> sublist out reviews)
  /\ (forall r r' : gmap string Py.val,
        Collect.field r "review_text" = Collect.field r' "review_text" ->
        Collect.field r "store_name" = Collect.field r' "store_name" ->
        Collect.fingerprint r = Collect.fingerprint r').
Proof.
  intros Hfp. pose proof (dedup_spec reviews fps Hfp) as Hd.
  split; [exact Hd|]. split; [apply first_seenb_spec|]. split.
  - intros out Hout. rewrite Hd in Hout. injection Hout as <-.
    apply first_seen_subsequence_sublist.
  - intros r r' Ht Hs. unfold Collect.fingerprint, Collect.dedup_key.
    now rewrite Ht, Hs.
Qed.

Lemma witness_batch_fingerprints : fingerprints witness_batch witness_fingerprints.
Proof. repeat constructor; vm_compute; reflexivity. Qed.

Lemma dedup_keeps_first_seen_witness :
  fingerprints witness_batch witness_fingerprints
  /\ Collect.dedup witness_batch
     = Py.Ok [ two_fields "Tres bon accueil du personnel" "Intersport Rivoli";
               two_fields "Tres bon accueil du personnel" "Intersport Lyon";
               two_fields "Magasin propre et bien range" "Intersport Rivoli" ].
Proof.
  split; [exact witness_batch_fingerprints|].
  destruct (dedup_keeps_first_seen witness_batch witness_fingerprints
              witness_batch_fingerprints) as [H _].
  rewrite H. vm_compute. reflexivity.
Defined.

Section DedupPositions.
Import Py Collect.

(** The record at a first-seen position is in the output. *)
Lemma first_seen_kept (reviews : list review) (fps : list string) (i : nat) (r : review) :
  reviews !! i = Some r -> first_seenb fps i = true ->
  r ∈ first_seen_subsequence reviews fps.
Proof.
  intros Hr Hf. unfold first_seen_subsequence. apply list_elem_of_omap. exists i. split.
  - apply elem_of_seq. pose proof (lookup_lt_Some _ _ _ Hr). lia.
  - unfold pick. now rewrite Hf.
Qed.

(** Whether a position is first-seen does not depend on an earlier or later
    position with another fingerprint. *)
Lemma first_seenb_apart (fps : list string) (i j : nat) (hi hj : string) :
  fps !! i = Some hi -> fps !! j = Some hj -> hi <> hj ->
  first_seenb fps j = true <-> (forall k, k < j -> k <> i -> fps !! k <> Some hj).
Proof.
  intros Hi Hj Hne. rewrite first_seenb_spec. unfold first_seen. split.
  - intros (h & Hh & Hn) k Hk _. rewrite Hj in Hh. injection Hh as <-. now apply Hn.
  - intros Hn. exists hj. split; [exact Hj|]. intros k Hk.
    destruct (decide (k = i)) as [->|Hki]; [|now apply Hn].
    rewrite Hi. intros [= E]. now apply Hne.
Qed.

Lemma repeat_batch_fingerprints : fingerprints repeat_batch repeat_fingerprints.
Proof. repeat constructor; vm_compute; reflexivity. Qed.

End DedupPositions.

(** C5, as the code has it.  Two records of a batch with the same text and
    different store names always have different keys [text|store].  The
    deduplicator returns the records at the first-seen positions: a record
    is dropped only when an earlier record of the batch has its
    fingerprint.  Whenever the MD5 digests of the two keys differ, the two
    are not deduplicated against each other: alone they are both returned,
    and in any batch each of them is kept exactly when no earlier record
    other than the other one has its fingerprint.  So both are kept when
    each is the first of the batch with its fingerprint. *)
Theorem dedup_same_text_other_store
    (reviews : list (gmap string Py.val)) (fps : list string) (i j : nat)
    (ri rj : gmap string Py.val) (text si sj : string) :
  fingerprints reviews fps ->
  reviews !! i = Some ri -> reviews !! j = Some rj ->
  Collect.field ri "review_text" = Py.Str text ->
  Collect.field rj "review_text" = Py.Str text ->
  Collect.field ri "store_name" = Py.Str si ->
  Collect.field rj "store_name" = Py.Str sj ->
  si <> sj ->
  Collect.dedup_key ri <> Collect.dedup_key rj
  /\ Collect.dedup reviews
     = Py.Ok (omap (fun k => if first_seenb fps k then reviews !! k else None)
                   (seq 0 (length reviews)))
  /\ (first_seenb fps i = false -> exists k, k < i /\ fps !! k = fps !! i)
  /\ (first_seenb fps j = false -> exists k, k < j /\ fps !! k = fps !! j)
  /\ (Collect.fingerprint ri <> Collect.fingerprint rj ->
      Collect.dedup [ri; rj] = Py.Ok [ri; rj]
      /\ (first_seenb fps i = true
          <-> forall k, k < i -> k <> j -> fps !! k <> fps !! i)
      /\ (first_seenb fps j = true
          <-> forall k, k < j -> k <> i -> fps !! k <> fps !! j)
      /\ (first_seenb fps i = true -> first_seenb fps j = true ->
          exists out, Collect.dedup reviews = Py.Ok out /\ ri ∈ out /\ rj ∈ out)).
Proof.
  intros Hfp Hi Hj Ti Tj Si Sj Hne.
  destruct (Forall2_lookup_l _ _ _ _ _ Hfp Hi) as (hi & Hfi & Hhi).
  destruct (Forall2_lookup_l _ _ _ _ _ Hfp Hj) as (hj & Hfj & Hhj).
  assert (Hdrop : forall (k : nat) (h : string), fps !! k = Some h ->
            first_seenb fps k = false -> exists k', k' < k /\ fps !! k' = fps !! k).
  { intros k h Hk Hf. unfold first_seenb in Hf. rewrite Hk in Hf.
    apply bool_decide_eq_false in Hf.
    destruct (decide (h ∈ take k fps)) as [Hin|Hin]; [|tauto].
    apply list_elem_of_lookup in Hin as [k' Hk'].
    pose proof (lookup_lt_Some _ _ _ Hk') as Hlt. rewrite length_take in Hlt.
    exists k'. split; [lia|]. rewrite lookup_take_lt in Hk' by lia. congruence. }
  split; [eapply dedup_key_store; eassumption|].
  split; [apply dedup_spec, Hfp|].
  split; [apply (Hdrop i hi Hfi)|].
  split; [apply (Hdrop j hj Hfj)|].
  intros Hfne.
  assert (Hh : hi <> hj) by (intros ->; apply Hfne; congruence).
  split.
  { rewrite (dedup_pair ri rj hi hj Hhi Hhj).
    destruct (decide (hi = hj)); [contradiction | reflexivity]. }
  split.
  { rewrite Hfi. apply (first_seenb_apart fps j i hj hi Hfj Hfi). congruence. }
  split.
  { rewrite Hfj. apply (first_seenb_apart fps i j hi hj Hfi Hfj Hh). }
  intros Fi Fj. exists (first_seen_subsequence reviews fps).
  split; [apply dedup_spec, Hfp|].
  split; eapply first_seen_kept; eassumption.
Qed.

Lemma dedup_same_text_other_store_witness :
  let ri := two_fields "Tres bon accueil du personnel" "Intersport Rivoli" in
  let rj := two_fields "Tres bon accueil du personnel" "Intersport Lyon" in
  fingerprints witness_batch witness_fingerprints
  /\ Collect.dedup_key ri <> Collect.dedup_key rj
  /\ Collect.fingerprint ri <> Collect.fingerprint rj
  /\ Collect.dedup [ri; rj] = Py.Ok [ri; rj]
  /\ exists out, Collect.dedup witness_batch = Py.Ok out /\ ri ∈ out /\ rj ∈ out.
Proof.
  intros ri rj.
  destruct (dedup_same_text_other_store witness_batch witness_fingerprints 0 1 ri rj
              "Tres bon accueil du personnel" "Intersport Rivoli" "Intersport Lyon")
    as (Hkey & _ & _ & _ & Hkept).
  - exact witness_batch_fingerprints.
  - reflexivity.
  - reflexivity.
  - reflexivity.
  - reflexivity.
  - reflexivity.
  - reflexivity.
  - discriminate.
  - assert (Hfp : Collect.fingerprint ri <> Collect.fingerprint rj)
      by (vm_compute; discriminate).
    destruct (Hkept Hfp) as (Hpair & _ & _ & Hboth).
    split; [exact witness_batch_fingerprints|].
    split; [exact Hkey|]. split; [exact Hfp|]. split; [exact Hpair|].
    apply Hboth; reflexivity.
Defined.

(** C5 fails as stated: a record that repeats the text and the store of an
    earlier one is dropped, so of two records with the same text and
    different store names the deduplicator need not keep both. *)
Lemma dedup_drops_a_repeated_record :
  let a := rated 5 "Tres bon accueil du personnel" "Intersport Rivoli" in
  let a' := rated 1 "Tres bon accueil du personnel" "Intersport Rivoli" in
  let b := two_fields "Tres bon accueil du personnel" "Intersport Lyon" in
  Collect.field a' "review_text" = Collect.field b "review_text"
  /\ Collect.field a' "store_name" <> Collect.field b "store_name"
  /\ Collect.fingerprint a' <> Collect.fingerprint b
  /\ Collect.dedup [a; a'; b] = Py.Ok [a; b]
  /\ a' ∉ [a; b].
Proof.
  intros a a' b.
  split; [reflexivity|].
  split; [vm_compute; discriminate|].
  split; [vm_compute; discriminate|].
  split.
  - change [a; a'; b] with repeat_batch.
    rewrite (dedup_spec repeat_batch repeat_fingerprints repeat_batch_fingerprints).
    reflexivity.
  - intros H. apply elem_of_cons in H as [H|H].
    + apply (f_equal (fun r => r !! "rating")) in H. vm_compute in H. discriminate H.
    + apply list_elem_of_singleton in H.
      apply (f_equal (fun r => r !! "rating")) in H. vm_compute in H. discriminate H.
Qed.

(** The hypothesis on the digests cannot be derived from the keys: MD5 has
    fewer digests than there are store names, so two different store names
    exist that give one fingerprint with the same text. *)
Lemma dedup_key_digests_collide :
  exists s1 s2 : string,
    s1 <> s2
    /\ Collect.dedup [ two_fields "Tres bon accueil du personnel" s1;
                       two_fields "Tres bon accueil du personnel" s2 ]
       = Py.Ok [ two_fields "Tres bon accueil du personnel" s1 ].
Proof.
  destruct (md5_collision "Tres bon accueil du personnel|") as (i & j & Hij & Hc).
  exists (store_named i), (store_named j). split.
  - intros H. apply (f_equal String.length) in H.
    rewrite !store_named_length in H. lia.
  - rewrite (dedup_pair _ _ _ _ (two_fields_fingerprint _ _) (two_fields_fingerprint _ _)).
    change ("Tres bon accueil du personnel" +:+ "|" +:+ store_named i)
      with ("Tres bon accueil du personnel|" +:+ store_named i).
    change ("Tres bon accueil du personnel" +:+ "|" +:+ store_named j)
      with ("Tres bon accueil du personnel|" +:+ store_named j).
    rewrite Hc. destruct (decide _); [reflexivity | contradiction].
Qed.
(* ===================================================================== *)
(** ** Remote-API adapter: failures stay inside *)
(* ===================================================================== *)

Section OutscraperFacts.
Import Py Collect.
Context {W : Type} (http : Http W) (key : string).

Lemma request_caught {A} (url : string) (params : list (string * val))
    (read : val -> result (list A)) (w : W) :
  catch (request http key url params read) (fun _ => ret []) w
  = (Ok (contained read (fst (http_get http key url params w))),
     snd (http_get http key url params w)).
Proof.
  unfold catch, request, contained, raise_for_status, ret.
  destruct (http_get http key url params w) as [[e|status json] w']; simpl; [reflexivity|].
  destruct ((400 <=? status)%Z && (status <? 600)%Z); simpl; [reflexivity|].
  destruct json as [payload|e]; simpl; [|reflexivity].
  destruct (read payload); reflexivity.
Qed.

Lemma find_stores_caught (query location : string) (limit : Z) (w : W) :
  let params := [("query", Str query); ("location", Str location);
                 ("limit", Int limit); ("language", Str "fr")] in
  find_stores http key query location limit w
  = (Ok (contained stores_of_payload (fst (http_get http key SEARCH_URL params w))),
     snd (http_get http key SEARCH_URL params w)).
Proof. apply request_caught. Qed.


End OutscraperFacts.

(* ===================================================================== *)
(** ** Browser orchestrator: the outline of a run *)
(* ===================================================================== *)

Section Frames.
Import Py Scrape.
Context {W : Type} (R : State -> State -> Prop).
Hypothesis R_refl : forall st, R st st.
Hypothesis R_trans : forall a b c, R a b -> R b c -> R a c.

Lemma steps_ret {A} (a : A) : steps (W := W) R (ret a).
Proof. intros ws. apply R_refl. Qed.

Lemma steps_raise {A} (e : Exn) : steps (W := W) (A := A) R (raise e).
Proof. intros ws. apply R_refl. Qed.

Lemma steps_lift {A} (r : result A) : steps (W := W) R (lift r).
Proof. intros ws. apply R_refl. Qed.

Lemma steps_up {A} (m : M W A) : steps R (up m).
Proof. intros [w st]. unfold up. simpl. destruct (m w). apply R_refl. Qed.

Lemma steps_current : steps (W := W) R current.
Proof. intros ws. apply R_refl. Qed.

Lemma steps_update (f : State -> State) :
  (forall st, R st (f st)) -> steps (W := W) R (update f).
Proof. intros H ws. apply H. Qed.

Lemma steps_bind {A B} (m : M (W * State) A) (k : A -> M (W * State) B) :
  steps R m -> (forall a, steps R (k a)) -> steps R (bind m k).
Proof.
  intros Hm Hk ws. unfold bind. specialize (Hm ws).
  destruct (m ws) as [[a|e] ws']; simpl in *; [|exact Hm].
  eapply R_trans; [exact Hm | apply Hk].
Qed.

Lemma steps_catch {A} (m : M (W * State) A) (h : Exn -> M (W * State) A) :
  steps R m -> (forall e, steps R (h e)) -> steps R (catch m h).
Proof.
  intros Hm Hh ws. unfold catch. specialize (Hm ws).
  destruct (m ws) as [[a|e] ws']; simpl in *; [exact Hm|].
  eapply R_trans; [exact Hm | apply Hh].
Qed.

Lemma steps_finally {A} (m : M (W * State) A) (c : M (W * State) unit) :
  steps R m -> steps R c -> steps R (finally m c).
Proof.
  intros Hm Hc ws. unfold finally. specialize (Hm ws).
  destruct (m ws) as [r ws']. specialize (Hc ws').
  destruct (c ws') as [[[]|e] ws'']; simpl in *; eapply R_trans; eassumption.
Qed.

End Frames.

Section Returns.
Import Py Scrape.
Context {W : Type}.

Lemma returns_ret {A} (a : A) : returns (W := W) (ret a).
Proof. intros ws. eexists. reflexivity. Qed.

Lemma returns_update (f : State -> State) : returns (W := W) (update f).
Proof. intros ws. eexists. reflexivity. Qed.

Lemma returns_bind {A B} (m : M (W * State) A) (k : A -> M (W * State) B) :
  returns m -> (forall a, returns (k a)) -> returns (bind m k).
Proof.
  intros Hm Hk ws. unfold bind. destruct (Hm ws) as [a Ha].
  destruct (m ws) as [[a'|e] ws']; simpl in Ha; [|discriminate].
  apply Hk.
Qed.

(** A handler that returns makes the whole [try] return. *)
Lemma returns_catch {A} (m : M (W * State) A) (h : Exn -> M (W * State) A) :
  (forall e, returns (h e)) -> returns (catch m h).
Proof.
  intros Hh ws. unfold catch. destruct (m ws) as [[a|e] ws']; [eexists; reflexivity|].
  apply Hh.
Qed.

Lemma returns_finally {A} (m : M (W * State) A) (c : M (W * State) unit) :
  returns m -> returns c -> returns (finally m c).
Proof.
  intros Hm Hc ws. unfold finally. destruct (Hm ws) as [a Ha].
  destruct (m ws) as [r ws']. simpl in Ha. subst r.
  destruct (Hc ws') as [u Hu]. destruct (c ws') as [[[]|e] ws'']; simpl in Hu;
    [eexists; reflexivity | discriminate].
Qed.

End Returns.

Section QuietFacts.
Import Py Scrape.

Lemma quiet_refl (st : State) : quiet st st.
Proof. reflexivity. Qed.

Lemma quiet_trans (a b c : State) : quiet a b -> quiet b c -> quiet a c.
Proof. unfold quiet. congruence. Qed.

Lemma outline_app (l1 l2 : list Event) : outline (l1 ++ l2) = outline l1 ++ outline l2.
Proof. apply omap_app. Qed.

Lemma quiet_say (ev : Event) (st : State) : step_of ev = None -> quiet st (say ev st).
Proof.
  intros H. unfold quiet, say. simpl. rewrite outline_app. simpl.
  unfold outline at 2. simpl. rewrite H. simpl. apply app_nil_r.
Qed.

End QuietFacts.

Ltac quiet_step :=
  first
    [ apply (steps_bind quiet quiet_trans); [ | intros ? ]
    | apply (steps_catch quiet quiet_trans); [ | intros ? ]
    | apply (steps_finally quiet quiet_trans)
    | apply (steps_up quiet quiet_refl)
    | apply (steps_ret quiet quiet_refl)
    | apply (steps_raise quiet quiet_refl)
    | apply (steps_lift quiet quiet_refl)
    | apply (steps_current quiet quiet_refl)
    | apply steps_update; intros ?; apply quiet_say; reflexivity ].

Section OrchestratorFacts.
Import Py Scrape.
Context {W D E : Type} (br : Browser W D E) (lib : Lib).

Lemma handle_store_quiet (driver : D) (city_name : string) (max_rev : Z) (store : Found) :
  steps quiet (handle_store br lib driver city_name max_rev store).
Proof.
  unfold handle_store. repeat quiet_step.
  apply steps_update. intros st.
  destruct (number_reviews _ _ _ _ _ _ _ _ _ _) as [reviews c'].
  unfold quiet, say. simpl. rewrite outline_app. simpl. apply app_nil_r.
Qed.

Lemma handle_stores_quiet (driver : D) (city_name : string) (max_rev : Z)
    (stores : list Found) :
  forall i n, steps quiet (handle_stores br lib driver city_name max_rev i n stores).
Proof.
  induction stores as [|store rest IH]; intros i n; simpl.
  - quiet_step.
  - quiet_step; [quiet_step|].
    quiet_step.
    + quiet_step; [quiet_step; [apply handle_store_quiet | quiet_step]|].
      quiet_step; [quiet_step|].
      destruct (PyStr.contains _ _); repeat quiet_step.
    + destruct a0; [quiet_step | apply IH].
Qed.

Lemma handle_stores_returns (driver : D) (city_name : string) (max_rev : Z)
    (stores : list Found) :
  forall i n, returns (handle_stores br lib driver city_name max_rev i n stores).
Proof.
  induction stores as [|store rest IH]; intros i n; simpl.
  - apply returns_ret.
  - apply returns_bind; [apply returns_update|]. intros _.
    apply returns_bind.
    + apply returns_catch. intros e.
      apply returns_bind; [apply returns_update|]. intros _.
      destruct (PyStr.contains _ _); [|apply returns_ret].
      apply returns_bind; [apply returns_update|]. intros _. apply returns_ret.
    + intros [|]; [apply returns_ret | apply IH].
Qed.

Lemma handle_city_quiet (headless : bool) (max_rev : Z) (city : string * float * float) :
  steps quiet (handle_city br lib headless max_rev city).
Proof.
  destruct city as [[city_name city_lat] city_lng]. intros ws. unfold handle_city.
  pose proof (steps_up quiet quiet_refl (make_driver br headless) ws) as Hm.
  destruct (up (make_driver br headless) ws) as [[driver|e] ws']; simpl in Hm.
  - eapply quiet_trans; [exact Hm|].
    match goal with |- quiet _ (snd (snd (?c ws'))) => assert (Hc : steps quiet c) end.
    { quiet_step.
      - quiet_step; [|quiet_step].
        quiet_step; [quiet_step|]. apply handle_stores_quiet.
      - quiet_step; quiet_step. }
    apply Hc.
  - eapply quiet_trans; [exact Hm|]. apply quiet_say. reflexivity.
Qed.

Lemma handle_city_returns (headless : bool) (max_rev : Z) (city : string * float * float) :
  returns (handle_city br lib headless max_rev city).
Proof.
  destruct city as [[city_name city_lat] city_lng]. intros ws. unfold handle_city.
  destruct (up (make_driver br headless) ws) as [[driver|e] ws'].
  - apply returns_finally.
    + apply returns_catch. intros e. apply returns_update.
    + apply returns_catch. intros e. apply returns_ret.
  - apply returns_update.
Qed.

End OrchestratorFacts.

Section RunFacts.
Import Py Scrape.
Context {W D E : Type} (br : Browser W D E) (lib : Lib).

Lemma bind_returns {A B} (m : M (W * State) A) (k : A -> M (W * State) B) (ws : W * State) :
  returns m -> exists a, bind m k ws = k a (snd (m ws)).
Proof.
  intros Hm. destruct (Hm ws) as [a Ha]. exists a. unfold bind.
  destruct (m ws) as [[a'|e] ws']; simpl in *; [congruence | discriminate].
Qed.

(** A unit of the done set is skipped: nothing but the log changes, and the
    browser is not touched. *)
Lemma handle_cities_skip (headless : bool) (max_rev : Z) (done_cities : gset string)
    (city : string * float * float) (rest : list (string * float * float)) (ws : W * State) :
  fst (fst city) ∈ done_cities ->
  handle_cities br lib headless max_rev done_cities (city :: rest) ws
  = handle_cities br lib headless max_rev done_cities rest
      (fst ws, say (EvSkip (fst (fst city))) (snd ws)).
Proof.
  intros Hin. cbn [handle_cities]. destruct (decide _); [reflexivity | contradiction].
Qed.

(** The loop over the units always returns, and its outline is the expected
    one: a skip for each done unit, a visit and a save for each other. *)
Lemma handle_cities_outline (headless : bool) (max_rev : Z) (done_cities : gset string)
    (cities : list (string * float * float)) :
  forall ws,
    fst (handle_cities br lib headless max_rev done_cities cities ws) = Ok tt
    /\ outline (log (snd (snd (handle_cities br lib headless max_rev done_cities cities ws))))
       = outline (log (snd ws)) ++ expected_outline done_cities cities.
Proof.
  induction cities as [|city rest IH]; intros ws.
  - simpl. split; [reflexivity|]. now rewrite app_nil_r.
  - assert (Hexp : expected_outline done_cities (city :: rest)
                   = (if decide (fst (fst city) ∈ done_cities)
                      then [Skipped (fst (fst city))]
                      else [Processed (fst (fst city)); SavedHere])
                     ++ expected_outline done_cities rest) by reflexivity.
    rewrite Hexp. clear Hexp.
    destruct (decide (fst (fst city) ∈ done_cities)) as [Hin|Hout].
    + rewrite (handle_cities_skip headless max_rev done_cities city rest ws Hin).
      destruct (IH (fst ws, say (EvSkip (fst (fst city))) (snd ws))) as [H1 H2].
      split; [exact H1|]. rewrite H2. cbn [snd say log].
      rewrite outline_app, <- app_assoc. reflexivity.
    + set (body := (update (say (EvCity (fst (fst city)))) ;;;
                    handle_city br lib headless max_rev city ;;;
                    update (fun st =>
                      say (EvSaved (length (all_reviews st)))
                        {| all_reviews := all_reviews st; counter := counter st;
                           file := save_all (str_of lib) (all_reviews st) (file st);
                           log := log st |}))).
      assert (Hunfold : handle_cities br lib headless max_rev done_cities (city :: rest) ws
                        = bind body (fun _ => handle_cities br lib headless max_rev
                                                done_cities rest) ws).
      { cbn [handle_cities]. destruct (decide _); [contradiction | reflexivity]. }
      rewrite Hunfold. clear Hunfold.
      assert (Hret : returns body).
      { apply returns_bind; [apply returns_update|]. intros _.
        apply returns_bind; [apply handle_city_returns|]. intros _. apply returns_update. }
      assert (Hlog : outline (log (snd (snd (body ws))))
                     = outline (log (snd ws)) ++ [Processed (fst (fst city)); SavedHere]).
      { unfold body, bind at 1, update at 1. cbn [fst snd].
        set (ws1 := (fst ws, say (EvCity (fst (fst city))) (snd ws))).
        pose proof (handle_city_quiet br lib headless max_rev city ws1) as Hq.
        destruct (handle_city_returns br lib headless max_rev city ws1) as [[] Hr].
        unfold bind. destruct (handle_city br lib headless max_rev city ws1) as [[[]|e] ws2];
          simpl in Hr; [|discriminate].
        simpl in Hq. unfold update. cbn [fst snd say log].
        rewrite outline_app. unfold quiet in Hq. rewrite Hq.
        unfold ws1. cbn [snd say log]. rewrite outline_app, <- app_assoc. reflexivity. }
      destruct (bind_returns body (fun _ => handle_cities br lib headless max_rev done_cities rest)
                  ws Hret) as [[] Hb].
      rewrite Hb. destruct (IH (snd (body ws))) as [H1 H2].
      split; [exact H1|]. rewrite H2, Hlog, <- app_assoc. reflexivity.
Qed.

Lemma initial_outline (file : File) : outline (log (initial file)) = [].
Proof.
  unfold initial. destruct (load_existing file) as [[|r existing] d]; reflexivity.
Qed.

Lemma final_stats_quiet : steps (W := W) quiet final_stats.
Proof.
  unfold final_stats. quiet_step; [quiet_step|].
  destruct (all_reviews a); [quiet_step|].
  destruct (negb _); [quiet_step|].
  destruct (_ || _); quiet_step.
Qed.

(** Whatever the browser does, [main] visits every unit in order. *)
Lemma main_outline (argv : list string) (file : File) (w : W) :
  outline (log (snd (snd (main br lib argv file w))))
  = expected_outline (snd (load_existing file)) CITIES.
Proof.
  unfold main.
  set (loop := handle_cities br lib (parse_headless argv) (parse_max lib argv 50)
                 (snd (load_existing file)) CITIES).
  destruct (handle_cities_outline (parse_headless argv) (parse_max lib argv 50)
              (snd (load_existing file)) CITIES (w, initial file)) as [H1 H2].
  fold loop in H1, H2. unfold bind.
  destruct (loop (w, initial file)) as [[[]|e] ws']; simpl in H1; [|discriminate].
  pose proof (final_stats_quiet ws') as Hq. unfold quiet in Hq. rewrite Hq.
  simpl in H2. rewrite H2. cbn [snd]. now rewrite initial_outline.
Qed.



End RunFacts.

Section ResumeFacts.
Import Py Scrape.

Lemma read_rows_names (header : list string) (rows : list (list string)) :
  forall existing done_cities,
    names_units existing done_cities ->
    names_units (fst (read_rows header rows existing done_cities))
                (snd (read_rows header rows existing done_cities)).
Proof.
  induction rows as [|row rows IH]; intros existing done_cities H; [exact H|].
  destruct row as [|cell row]; [apply IH, H|].
  cbn [read_rows]. apply IH. intros c.
  set (d := row_dict header (cell :: row)).
  split.
  - intros Hc. destruct (d !! "search_city") as [[]|] eqn:Ed;
      try (apply H in Hc as (r & Hr & Hs); exists r; split; [set_solver | exact Hs]).
    apply elem_of_union in Hc as [Hc|Hc].
    + apply elem_of_singleton in Hc as ->. exists d. split; [set_solver | exact Ed].
    + apply H in Hc as (r & Hr & Hs). exists r. split; [set_solver | exact Hs].
  - intros (r & Hr & Hs). apply elem_of_app in Hr as [Hr|Hr].
    + assert (c ∈ done_cities) by (apply H; eauto).
      destruct (d !! "search_city") as [[]|]; set_solver.
    + apply list_elem_of_singleton in Hr as ->. rewrite Hs. set_solver.
Qed.

Lemma load_existing_names (file : File) :
  names_units (fst (load_existing file)) (snd (load_existing file)).
Proof.
  assert (H0 : names_units [] ∅).
  { intros c. split; [set_solver|]. intros (r & Hr & _). inversion Hr. }
  destruct file as [[|header rows]|]; simpl; try exact H0.
  apply read_rows_names, H0.
Qed.

End ResumeFacts.

(* ===================================================================== *)
(** ** Synthetic generator *)
(* ===================================================================== *)

Section Yields.
Import Py.
Context {W : Type}.

Lemma yields_ret {A} (a : A) (P : A -> Prop) : P a -> yields (W := W) (ret a) P.
Proof. intros H w. exists a, w. split; [reflexivity | exact H]. Qed.

Lemma yields_lift {A} (a : A) (P : A -> Prop) : P a -> yields (W := W) (lift (Ok a)) P.
Proof. intros H w. exists a, w. split; [reflexivity | exact H]. Qed.

Lemma yields_bind {A B} (m : M W A) (k : A -> M W B) (P : A -> Prop) (Q : B -> Prop) :
  yields m P -> (forall a, P a -> yields (k a) Q) -> yields (bind m k) Q.
Proof.
  intros Hm Hk w. destruct (Hm w) as (a & w' & E & Ha).
  destruct (Hk a Ha w') as (b & w'' & E' & Hb).
  exists b, w''. unfold bind. rewrite E. split; assumption.
Qed.

Lemma yields_weaken {A} (m : M W A) (P Q : A -> Prop) :
  yields m P -> (forall a, P a -> Q a) -> yields m Q.
Proof.
  intros Hm H w. destruct (Hm w) as (a & w' & E & Ha). exists a, w'. auto.
Qed.

End Yields.

Section RandomFacts.
Import Py Collect.
Context (rng : Rng).

Lemma choice_yields {A} (l : list A) :
  l <> [] -> yields (choice rng l) (fun x => In x l).
Proof.
  intros Hne g. unfold choice. destruct l as [|d l]; [contradiction|].
  destruct (draw rng g) as [x g']. eexists _, g'. split; [reflexivity|].
  apply nth_In.
  assert (Hlen : (0 < Z.of_nat (length (d :: l)))%Z) by (simpl; lia).
  pose proof (Z.mod_pos_bound x _ Hlen). lia.
Qed.

Lemma randint_yields (a b : Z) :
  (a <= b)%Z -> yields (randint rng a b) (fun x => (a <= x <= b)%Z).
Proof.
  intros Hab g. unfold randint.
  destruct (b <? a)%Z eqn:E; [apply Z.ltb_lt in E; lia|].
  destruct (draw rng g) as [x g']. eexists _, g'. split; [reflexivity|].
  assert (H : (0 < b - a + 1)%Z) by lia.
  pose proof (Z.mod_pos_bound x _ H). lia.
Qed.

Lemma random_yields : yields (random rng) (fun _ => True).
Proof.
  intros g. unfold random. destruct (uniform rng g) as [x g'].
  exists x, g'. split; [reflexivity | exact I].
Qed.

Lemma pools_ok_true : pools_ok = true.
Proof. vm_compute. reflexivity. Qed.

Lemma templates_of_pool (pool : string) :
  In pool (map fst TEMPLATES) ->
  exists texts, templates_of TEMPLATES pool = Ok texts
                /\ texts <> [] /\ Forall (fun t => t <> "") texts.
Proof.
  intros Hin. pose proof pools_ok_true as H. unfold pools_ok in H.
  rewrite forallb_forall in H. specialize (H pool Hin).
  destruct (templates_of TEMPLATES pool) as [texts|]; [|discriminate].
  apply andb_true_iff in H as [Hlen Htexts]. exists texts. split; [reflexivity|]. split.
  - intros ->. discriminate.
  - apply Forall_forall. intros t Ht. rewrite forallb_forall in Htexts.
    apply list_elem_of_In in Ht. specialize (Htexts t Ht).
    intros ->. discriminate.
Qed.

Lemma draw_pool_rating_yields (bias : float) :
  yields (draw_pool_rating rng bias)
         (fun pr => In (fst pr) (map fst TEMPLATES) /\ (1 <= snd pr <= 5)%Z).
Proof.
  unfold draw_pool_rating.
  eapply yields_bind; [apply random_yields|]. intros u _.
  assert (Hpos : forall p, In p POSITIVE_POOLS -> In p (map fst TEMPLATES)).
  { intros p Hp. simpl in Hp. simpl. intuition (subst; auto 20). }
  assert (Hneg : forall p, In p NEGATIVE_POOLS -> In p (map fst TEMPLATES)).
  { intros p Hp. simpl in Hp. simpl. intuition (subst; auto 20). }
  destruct (PrimFloat.ltb 0.55 (u + bias * 0.3)); [|destruct (PrimFloat.ltb 0.25 (u + bias * 0.3))].
  - eapply yields_bind; [apply choice_yields; discriminate|]. intros pool Hpool.
    eapply yields_bind; [apply choice_yields; discriminate|]. intros rating Hr.
    apply yields_ret. split; [apply Hpos, Hpool|]. simpl in Hr. simpl. lia.
  - eapply yields_bind; [apply choice_yields; discriminate|]. intros pool Hpool.
    eapply yields_bind; [apply choice_yields; discriminate|]. intros rating Hr.
    apply yields_ret. split; [apply Hneg, Hpool|]. simpl in Hr. simpl. lia.
  - eapply yields_bind; [apply choice_yields; discriminate|]. intros pool Hpool.
    eapply yields_bind; [apply choice_yields; discriminate|]. intros rating Hr.
    apply yields_ret. split; [exact Hpool|]. simpl in Hr. simpl. lia.
Qed.

Lemma simulate_review_yields (idx : nat) (st : SimStore) (bias : float) (zone : string)
    (cnt : Z) :
  yields (simulate_review rng idx st bias zone cnt) simulated_review.
Proof.
  unfold simulate_review.
  eapply yields_bind; [apply draw_pool_rating_yields|]. intros [pool rating] [Hpool Hrating].
  simpl in Hpool, Hrating.
  destruct (templates_of_pool pool Hpool) as (texts & Ht & Hne & Hall).
  rewrite Ht.
  eapply yields_bind; [apply (yields_lift texts (fun x => x = texts) eq_refl)|].
  intros ? ->.
  eapply yields_bind; [apply choice_yields, Hne|]. intros text Htext.
  eapply yields_bind; [apply randint_yields; lia|]. intros days _.
  eapply yields_bind; [apply choice_yields; discriminate|]. intros first _.
  eapply yields_bind; [apply choice_yields; discriminate|]. intros last _.
  apply yields_ret. unfold simulated_review.
  split; [rewrite dom_list_to_map_L; reflexivity|].
  split; [exists text; split; [reflexivity|]|].
  { rewrite Forall_forall in Hall. apply Hall, list_elem_of_In, Htext. }
  split; [eexists; reflexivity|].
  split; [exists rating; split; [reflexivity | exact Hrating]|].
  exists cnt. reflexivity.
Qed.

Lemma simulate_reviews_yields (n idx : nat) (st : SimStore) (bias : float) (zone : string) :
  forall (revs : list review) (cnt : Z),
    Forall simulated_review revs ->
    yields (simulate_reviews rng n idx st bias zone revs cnt)
           (fun rc => Forall simulated_review (fst rc) /\ length (fst rc) = length revs + n).
Proof.
  induction n as [|n IH]; intros revs cnt Hrevs; cbn [simulate_reviews].
  - apply yields_ret. split; [exact Hrevs | simpl; lia].
  - eapply yields_bind; [apply simulate_review_yields|]. intros r Hr.
    eapply yields_weaken.
    + apply IH. apply Forall_app. split; [exact Hrevs | constructor; [exact Hr | constructor]].
    + intros [revs' cnt'] [H1 H2]. simpl in *. split; [exact H1|].
      rewrite H2, length_app. simpl. lia.
Qed.

Lemma simulate_stores_yields (stores : list SimStore) :
  forall (idx : nat) (revs : list review) (cnt : Z),
    Forall simulated_review revs ->
    yields (simulate_stores rng 25 stores idx revs cnt)
           (fun out => Forall simulated_review out
                       /\ length revs + 17 * length stores <= length out).
Proof.
  induction stores as [|st stores IH]; intros idx revs cnt Hrevs; cbn [simulate_stores].
  - apply yields_ret. split; [exact Hrevs | simpl; lia].
  - assert (Hzone : exists zone,
               classify_zone (Float (st_lat st)) (Float (st_lng st)) (st_r st) = Ok zone).
    { unfold classify_zone, is_paris_intra.
      destruct (in_box_coordinate (Zone.CFloat (st_lat st)) (Zone.CFloat (st_lng st)))
        as [inside Hin]. simpl in Hin. rewrite Hin.
      destruct (region_is_idf (st_r st)); eexists; reflexivity. }
    destruct Hzone as [zone Hzone]. rewrite Hzone.
    eapply yields_bind; [apply (yields_lift zone (fun x => x = zone) eq_refl)|].
    intros ? ->.
    eapply yields_bind; [apply randint_yields; lia|]. intros n Hn. cbv beta in Hn.
    eapply yields_bind; [apply simulate_reviews_yields, Hrevs|].
    intros [revs' cnt'] [H1 H2]. simpl in H1, H2.
    eapply yields_weaken; [apply IH, H1|].
    intros out [Ho Hl]. split; [exact Ho|]. simpl length. lia.
Qed.

End RandomFacts.


Section GeneratedBatch.
Import Py Collect.

Lemma Forall_sublist {A} (P : A -> Prop) (k l : list A) :
  sublist k l -> Forall P l -> Forall P k.
Proof.
  induction 1 as [|x k l _ IH|x k l _ IH]; intros H.
  - constructor.
  - inversion H; subst. constructor; auto.
  - inversion H; subst. auto.
Qed.

Lemma simulated_review_fingerprint (r : review) :
  simulated_review r -> exists h, fingerprint r = Ok h.
Proof.
  intros (_ & (text & Ht & _) & (store & Hs) & _).
  unfold fingerprint, dedup_key, field. rewrite Ht, Hs. simpl. eexists. reflexivity.
Qed.

Lemma fingerprints_exist (P : review -> Prop) (revs : list review) :
  (forall r, P r -> exists h, fingerprint r = Ok h) ->
  Forall P revs -> exists fps, fingerprints revs fps.
Proof.
  intros HP. induction 1 as [|r revs Hr _ [fps IH]].
  - exists []. constructor.
  - destruct (HP r Hr) as [h Hh]. exists (h :: fps). constructor; assumption.
Qed.

(** The deduplicator keeps the head of a batch. *)
Lemma dedup_keeps_head (r : review) (revs : list review) (fps : list string) :
  fingerprints (r :: revs) fps ->
  exists tail, first_seen_subsequence (r :: revs) fps = r :: tail.
Proof.
  intros H. inversion H as [|? h ? fps' Hh Hrest]; subst.
  unfold first_seen_subsequence. cbn [length seq].
  change (omap ?f (?a :: ?t))
    with (match f a with Some y => y :: omap f t | None => omap f t end).
  eexists. reflexivity.
Qed.

Lemma dedup_batch (P : review -> Prop) (revs : list review) :
  (forall r, P r -> exists h, fingerprint r = Ok h) ->
  Forall P revs ->
  exists out, dedup revs = Ok out /\ Forall P out /\ (revs <> [] -> out <> []).
Proof.
  intros HP Hall. destruct (fingerprints_exist P revs HP Hall) as [fps Hfps].
  exists (first_seen_subsequence revs fps). split; [apply dedup_spec, Hfps|]. split.
  - eapply Forall_sublist; [apply first_seen_subsequence_sublist | exact Hall].
  - intros Hne. destruct revs as [|r revs]; [contradiction|].
    destruct (dedup_keeps_head r revs fps Hfps) as [tail ->]. discriminate.
Qed.

(** The synthetic generator returns, and returns at least one review. *)
Lemma generate_simulated_batch (rng : Rng) :
  exists revs, generate_simulated rng 25 = Ok revs
               /\ revs <> [] /\ Forall simulated_review revs.
Proof.
  unfold generate_simulated.
  destruct (simulate_stores_yields rng STORES 0 [] 0 (List.Forall_nil _) (seed rng 42))
    as (all & g & E & Hall & Hlen).
  rewrite E.
  destruct (dedup_batch simulated_review all simulated_review_fingerprint Hall)
    as (out & Hd & Ho & Hne).
  exists out. split; [exact Hd|]. split; [|exact Ho].
  apply Hne. intros ->. simpl in Hlen. lia.
Qed.

(** A batch whose records all have the same fields can be written. *)
Lemma write_csv_uniform (keys : gset string) (modes : list Mode) (revs : list review) :
  revs <> [] -> Forall (fun r => dom r = keys) revs ->
  write_csv modes revs = Ok (Saved modes revs).
Proof.
  intros Hne Hall. destruct revs as [|first rest]; [contradiction|].
  unfold write_csv.
  assert (H : forallb (fun r : review => bool_decide (dom r ⊆ dom first)) (first :: rest) = true).
  { apply forallb_forall. intros r Hr. apply bool_decide_eq_true.
    rewrite Forall_forall in Hall.
    rewrite (Hall r) by (apply list_elem_of_In, Hr).
    rewrite (Hall first) by (left). reflexivity. }
  now rewrite H.
Qed.

Lemma finish_empty (rng : Rng) (modes : list Mode) :
  exists revs, finish rng modes [] = Ok (Saved (modes ++ [MODE_Simulated]) revs)
               /\ revs <> [] /\ Forall simulated_review revs.
Proof.
  destruct (generate_simulated_batch rng) as (revs & Hg & Hne & Hall).
  exists revs. unfold finish. rewrite Hg. cbn [mbind result_bind].
  split; [|split; assumption].
  apply (write_csv_uniform SIMULATED_KEYS); [exact Hne|].
  eapply Forall_impl; [exact Hall|]. intros r Hr. apply Hr.
Qed.

End GeneratedBatch.


(* ===================================================================== *)
(** ** Remote-API branch: the shape of what it collects *)
(* ===================================================================== *)

Section Ensures.
Import Py.
Context {W : Type}.

Lemma ensures_ret {A} (a : A) (P : A -> Prop) : P a -> ensures (W := W) (ret a) P.
Proof. intros H w a' w' [= <- _]. exact H. Qed.

Lemma ensures_raise {A} (e : Exn) (P : A -> Prop) : ensures (W := W) (raise e) P.
Proof. intros w a w' [=]. Qed.

Lemma ensures_lift {A} (r : result A) (P : A -> Prop) :
  (forall a, r = Ok a -> P a) -> ensures (W := W) (lift r) P.
Proof. intros H w a w' [= -> _]. now apply H. Qed.

Lemma ensures_bind {A B} (m : M W A) (k : A -> M W B) (P : A -> Prop) (Q : B -> Prop) :
  ensures m P -> (forall a, P a -> ensures (k a) Q) -> ensures (bind m k) Q.
Proof.
  intros Hm Hk w b w'. unfold bind.
  destruct (m w) as [[a|e] w1] eqn:E; [|discriminate].
  intros Hb. eapply Hk; [eapply Hm, E | exact Hb].
Qed.

Lemma ensures_catch {A} (m : M W A) (h : Exn -> M W A) (P : A -> Prop) :
  ensures m P -> (forall e, ensures (h e) P) -> ensures (catch m h) P.
Proof.
  intros Hm Hh w a w'. unfold catch.
  destruct (m w) as [[a'|e] w1] eqn:E.
  - intros [= <- <-]. eapply Hm, E.
  - apply Hh.
Qed.

End Ensures.

Section OutscraperShape.
Import Py Collect.

Lemma for_each_invariant {A X} (P : A -> Prop) (body : A -> X -> result A) (xs : list X) :
  (forall a x a', P a -> body a x = Ok a' -> P a') ->
  forall acc r, P acc -> for_each xs acc body = Ok r -> P r.
Proof.
  intros Hbody. induction xs as [|x xs IH]; intros acc r Hacc; simpl.
  - intros [= <-]. exact Hacc.
  - destruct (body acc x) as [acc'|e] eqn:E; simpl; [|discriminate].
    apply IH. eapply Hbody; eassumption.
Qed.

Lemma review_of_fetched (text rating date who : val) :
  fetched (Collect.review_of text rating date who).
Proof.
  unfold fetched, Collect.review_of. rewrite !dom_insert_L, dom_singleton_L.
  apply set_eq. intros k. set_solver.
Qed.

Lemma reviews_of_payload_fetched (payload : val) (revs : list review) :
  reviews_of_payload payload = Ok revs -> Forall fetched revs.
Proof.
  unfold reviews_of_payload.
  destruct (get payload "data" (List [])) as [data|]; simpl; [|discriminate].
  destruct (iter data) as [places|]; simpl; [|discriminate].
  apply (for_each_invariant (Forall fetched)); [|constructor].
  intros acc place acc' Hacc. apply (for_each_invariant (Forall fetched)); [|exact Hacc].
  clear. intros acc item acc' Hacc.
  destruct item; try (intros [= <-]; exact Hacc).
  destruct (iter _) as [rs|]; simpl; [|discriminate].
  apply (for_each_invariant (Forall fetched)); [|exact Hacc].
  clear. intros acc rev acc' Hacc.
  destruct (get rev "review_text" (Str "")) as [text|]; simpl; [|discriminate].
  destruct (len text) as [n|]; simpl; [|discriminate].
  destruct (n <? 10)%nat; [intros [= <-]; exact Hacc|].
  destruct (get rev "review_rating" (Int 0)) as [rating|]; simpl; [|discriminate].
  destruct (get rev "review_datetime_utc" (Str "")) as [date|]; simpl; [|discriminate].
  destruct (get rev "author_title" (Str "Anonyme")) as [who|]; simpl; [|discriminate].
  intros [= <-]. apply Forall_app. split; [exact Hacc|].
  constructor; [apply review_of_fetched | constructor].
Qed.

Lemma annotate_shape (store : Store) (city zone region : string) (rev : review) :
  fetched rev -> dom (Collect.annotate store city zone region rev) = OUTSCRAPER_KEYS.
Proof.
  unfold fetched, Collect.annotate. intros H.
  rewrite !dom_insert_L, H. apply set_eq. intros k. unfold OUTSCRAPER_KEYS. set_solver.
Qed.

Lemma dedup_loop_fingerprints (revs : list review) :
  forall seen out r, dedup_loop revs seen out = Ok r -> exists fps, fingerprints revs fps.
Proof.
  induction revs as [|x revs IH]; intros seen out r; simpl.
  - intros _. exists []. constructor.
  - destruct (fingerprint x) as [h|] eqn:E; simpl; [|discriminate].
    intros H. destruct (decide (h ∈ seen)); apply IH in H as [fps Hfps];
      exists (h :: fps); constructor; assumption.
Qed.

(** Whenever the deduplicator returns, it returns a subsequence. *)
Lemma dedup_sublist (revs out : list review) : dedup revs = Ok out -> sublist out revs.
Proof.
  intros H. destruct (dedup_loop_fingerprints revs ∅ [] out H) as [fps Hfps].
  rewrite (dedup_spec revs fps Hfps) in H. injection H as <-.
  apply first_seen_subsequence_sublist.
Qed.

Context {W : Type} (http : Http W) (key : string) (re_city : string -> option string).

Lemma get_reviews_fetched (pid : val) (limit : Z) :
  ensures (get_reviews http key pid limit) (Forall fetched).
Proof.
  unfold get_reviews. eapply ensures_bind with (P := fun _ => True).
  - intros w a w' _. exact I.
  - intros _ _ w a w'. rewrite request_caught. intros [= <- _].
    unfold contained. destruct (fst _) as [e|status json]; [constructor|].
    destruct (_ && _); [constructor|].
    destruct json as [payload|]; [|constructor].
    destruct (reviews_of_payload payload) eqn:E; [|constructor].
    eapply reviews_of_payload_fetched, E.
Qed.

Lemma scrape_store_shaped (per_store : Z) (all_revs : list review) (store : Store) :
  shaped all_revs ->
  ensures (scrape_store http key re_city per_store all_revs store) shaped.
Proof.
  intros Hall. unfold scrape_store.
  eapply ensures_bind; [apply get_reviews_fetched|]. intros revs Hrevs.
  destruct (address store); try apply ensures_raise.
  eapply ensures_bind with (P := fun _ => True); [intros ? ? ? _; exact I|].
  intros zone _. apply ensures_ret. apply Forall_app. split; [exact Hall|].
  apply Forall_map. eapply Forall_impl; [exact Hrevs|].
  intros r Hr. now apply annotate_shape.
Qed.

Lemma scrape_stores_shaped (per_store : Z) (stores : list Store) :
  forall all_revs, shaped all_revs ->
    ensures (scrape_stores http key re_city per_store stores all_revs) shaped.
Proof.
  induction stores as [|store stores IH]; intros all_revs Hall; simpl.
  - now apply ensures_ret.
  - eapply ensures_bind; [apply scrape_store_shaped, Hall|]. apply IH.
Qed.

Lemma scrape_area_shaped (area : string) (per_store : Z) :
  ensures (scrape_area http key re_city area per_store) shaped.
Proof.
  unfold scrape_area. eapply ensures_bind with (P := fun _ => True);
    [intros ? ? ? _; exact I|]. intros stores _.
  eapply ensures_bind; [apply scrape_stores_shaped; constructor|].
  intros all_revs Hall. apply ensures_lift. intros out Hout.
  eapply Forall_sublist; [eapply dedup_sublist, Hout | exact Hall].
Qed.

Lemma scrape_areas_shaped (areas : list string) :
  forall reviews, shaped reviews ->
    ensures (scrape_areas http re_city key areas reviews) shaped.
Proof.
  induction areas as [|area areas IH]; intros reviews Hall; simpl.
  - now apply ensures_ret.
  - eapply ensures_bind; [apply scrape_area_shaped|]. intros revs Hrevs.
    apply IH. apply Forall_app. split; assumption.
Qed.

End OutscraperShape.


(* ===================================================================== *)
(** ** Orchestrator of [01_collect_data.py]: which branch runs *)
(* ===================================================================== *)

Section MainFacts.
Import Py Collect.
Context {W : Type} (http : Http W) (re_city : string -> option string) (rng : Rng).

Lemma main_browser_branch (cfg : Config) (w : W) :
  use_selenium cfg = true ->
  exists o, main http re_city rng cfg w = (Ok o, w)
            /\ head (modes_of o) = Some MODE_Selenium.
Proof.
  intros Hs. unfold main. fold (use_selenium cfg). rewrite Hs.
  destruct (import_GoogleMapsScraper (installed cfg)) as [msg|code].
  - destruct (finish_empty rng [MODE_Selenium]) as (revs & Hf & _).
    unfold lift. rewrite Hf. eexists. split; reflexivity.
  - eexists. split; reflexivity.
Qed.

Lemma main_remote_branch (cfg : Config) (w w' : W) (revs : list review) :
  use_selenium cfg = false -> remote_ready cfg = true ->
  scrape_areas http re_city (getenv cfg "OUTSCRAPER_API_KEY") AREAS [] w = (Ok revs, w') ->
  exists modes out,
    main http re_city rng cfg w = (Ok (Saved modes out), w')
    /\ head modes = Some MODE_Outscraper
    /\ out <> []
    /\ (revs <> [] -> modes = [MODE_Outscraper] /\ out = revs)
    /\ (revs = [] -> modes = [MODE_Outscraper; MODE_Simulated]
                     /\ generate_simulated rng 25 = Ok out).
Proof.
  intros Hs Hr Hrun. unfold main. fold (use_selenium cfg). rewrite Hs.
  fold (remote_ready cfg). rewrite Hr. unfold bind. rewrite Hrun. unfold lift.
  destruct revs as [|r revs].
  - destruct (generate_simulated_batch rng) as (out & Hg & Hne & Hall).
    exists [MODE_Outscraper; MODE_Simulated], out.
    unfold finish. rewrite Hg. cbn [mbind result_bind].
    rewrite (write_csv_uniform SIMULATED_KEYS); [|exact Hne|].
    + split; [reflexivity|]. split; [reflexivity|]. split; [exact Hne|].
      split; [intros H; contradiction | intros _; split; reflexivity].
    + eapply Forall_impl; [exact Hall|]. intros x Hx. apply Hx.
  - exists [MODE_Outscraper], (r :: revs).
    pose proof (scrape_areas_shaped http _ re_city AREAS [] (List.Forall_nil _) w _ _ Hrun)
      as Hshape.
    unfold finish. rewrite (write_csv_uniform OUTSCRAPER_KEYS); [|discriminate|exact Hshape].
    split; [reflexivity|]. split; [reflexivity|]. split; [discriminate|].
    split; [intros _; split; reflexivity | discriminate].
Qed.

Lemma main_synthetic_branch (cfg : Config) (w : W) :
  use_selenium cfg = false -> remote_ready cfg = false ->
  exists revs, main http re_city rng cfg w = (Ok (Saved [MODE_Simulated] revs), w)
               /\ revs <> [] /\ generate_simulated rng 25 = Ok revs.
Proof.
  intros Hs Hr. unfold main. fold (use_selenium cfg). rewrite Hs.
  fold (remote_ready cfg). rewrite Hr.
  destruct (generate_simulated_batch rng) as (out & Hg & Hne & Hall).
  exists out. unfold lift, finish. rewrite Hg. cbn [mbind result_bind app].
  rewrite (write_csv_uniform SIMULATED_KEYS); [|exact Hne|].
  - split; [reflexivity|]. split; [exact Hne | reflexivity].
  - eapply Forall_impl; [exact Hall|]. intros x Hx. apply Hx.
Qed.

(** Whatever is saved is not empty. *)
Lemma main_saves_something (cfg : Config) (w w' : W) (modes : list Mode)
    (revs : list review) :
  main http re_city rng cfg w = (Ok (Saved modes revs), w') -> revs <> [].
Proof.
  assert (Hw : forall ms rs o, write_csv ms rs = Ok o ->
                 exists ms' rs', o = Saved ms' rs' /\ rs' <> []).
  { intros ms rs o. unfold write_csv. destruct rs as [|r rs]; [discriminate|].
    destruct (forallb _ _); [|discriminate]. intros [= <-]. eexists _, _. split;
      [reflexivity | discriminate]. }
  assert (Hf : forall ms rs o, finish rng ms rs = Ok o ->
                 exists ms' rs', o = Saved ms' rs' /\ rs' <> []).
  { intros ms rs o. unfold finish. destruct rs as [|r rs].
    - destruct (generate_simulated rng 25); simpl; [apply Hw | discriminate].
    - apply Hw. }
  unfold main. destruct (PyStr.in_tuple _ _).
  - destruct (import_GoogleMapsScraper _); [|intros [=]].
    unfold lift. intros [= H _].
    apply (Hf [MODE_Selenium] []) in H as (? & ? & [= <- <-] & Hne). exact Hne.
  - destruct (_ && _).
    + unfold bind. destruct (scrape_areas _ _ _ _ _ _) as [[rs|e] w1]; [|discriminate].
      unfold lift. intros [= H _].
      apply (Hf [MODE_Outscraper] rs) in H as (? & ? & [= <- <-] & Hne). exact Hne.
    + unfold lift. intros [= H _].
      apply (Hf [] []) in H as (? & ? & [= <- <-] & Hne). exact Hne.
Qed.

End MainFacts.

Section MainOutscraper.
Import Py Collect.
Context {W : Type} (http : Http W) (re_city : string -> option string) (rng : Rng).

Lemma write_csv_saved (modes modes' : list Mode) (reviews reviews' : list review) :
  write_csv modes reviews = Ok (Saved modes' reviews') -> modes' = modes /\ reviews' = reviews.
Proof.
  unfold write_csv. destruct reviews as [|r rs]; [discriminate|].
  destruct (forallb _ _); [|discriminate]. now intros [= <- <-].
Qed.

Lemma finish_saved (modes modes' : list Mode) (reviews reviews' : list review) :
  finish rng modes reviews = Ok (Saved modes' reviews') ->
  (reviews <> [] /\ modes' = modes /\ reviews' = reviews)
  \/ (reviews = [] /\ modes' = modes ++ [MODE_Simulated]).
Proof.
  unfold finish. destruct reviews as [|r rs].
  - destruct (generate_simulated rng 25) as [sim|e]; [|discriminate].
    cbn [mbind result_bind]. intros H. apply write_csv_saved in H as [-> _].
    right. split; reflexivity.
  - intros H. apply write_csv_saved in H as [-> ->]. left.
    split; [discriminate|]. split; reflexivity.
Qed.

(** A run whose only [MODE] line is the remote API's saved what
    [scrape_area] returned: reviews with the twelve fields of that adapter. *)
Lemma main_outscraper_only (cfg : Config) (w w' : W) (revs : list review) :
  main http re_city rng cfg w = (Ok (Saved [MODE_Outscraper] revs), w') ->
  revs <> [] /\ shaped revs.
Proof.
  unfold main. destruct (PyStr.in_tuple _ _).
  - destruct (import_GoogleMapsScraper _); [|intros [=]].
    unfold lift. intros [= H _].
    apply (finish_saved [MODE_Selenium] _ [] _) in H as [(_ & [=] & _)|(_ & [=])].
  - destruct (_ && _).
    + unfold bind.
      destruct (scrape_areas _ _ _ _ _ _) as [[rs|e] w1] eqn:Hrun; [|discriminate].
      unfold lift. intros [= H _].
      apply (finish_saved [MODE_Outscraper] _ rs _) in H as [(Hne & _ & ->)|(_ & [=])].
      split; [exact Hne|].
      exact (scrape_areas_shaped http _ re_city AREAS [] (List.Forall_nil _) w _ _ Hrun).
    + unfold lift. intros [= H _].
      apply (finish_saved [] _ [] _) in H as [(_ & [=] & _)|(_ & [=])].
Qed.

Lemma shaped_no_identifier (revs : list review) :
  shaped revs -> Forall (fun r : review => r !! "review_id" = None) revs.
Proof.
  intros H. eapply Forall_impl; [exact H|]. intros r Hr. cbv beta in Hr.
  apply not_elem_of_dom. rewrite Hr. unfold OUTSCRAPER_KEYS.
  rewrite elem_of_list_to_set. intros Hin. apply list_elem_of_In in Hin.
  cbn in Hin. intuition discriminate.
Qed.

End MainOutscraper.

(* ===================================================================== *)
(** ** Evaluating a concrete run *)
(* ===================================================================== *)

Section RunTestFacts.
Import Py Collect.

Lemma field_is_int_spec k z r : field_is_int k z r = true -> r !! k = Some (Int z).
Proof.
  unfold field_is_int. destruct (r !! k) as [[]|]; try discriminate.
  intros H. apply Z.eqb_eq in H. now subst.
Qed.

Lemma field_is_str_spec k s r : field_is_str k s r = true -> r !! k = Some (Str s).
Proof.
  unfold field_is_str. destruct (r !! k) as [[]|]; try discriminate.
  intros H. apply String.eqb_eq in H. now subst.
Qed.

Lemma field_absent_spec k r : field_absent k r = true -> r !! k = None.
Proof. unfold field_absent. now destruct (r !! k). Qed.

Lemma modes_eqb_spec a b : modes_eqb a b = true -> a = b.
Proof.
  revert b. induction a as [|x a IH]; intros [|y b]; cbn; try discriminate; [easy|].
  intros H. apply andb_prop in H as [Hx Hab]. f_equal; [|now apply IH].
  now destruct x, y.
Qed.

Lemma saved_all_spec {W} test modes n (run : result Outcome * W) :
  saved_all test modes n run = true ->
  exists revs, run = (Ok (Saved modes revs), snd run)
               /\ length revs = n /\ Forall (fun r => test r = true) revs.
Proof.
  unfold saved_all. destruct run as [[[modes' revs|]|] w]; cbn; try discriminate.
  intros H. apply andb_prop in H as [H Hall]. apply andb_prop in H as [Hm Hn].
  apply modes_eqb_spec in Hm as ->. apply Nat.eqb_eq in Hn.
  exists revs. split; [reflexivity|]. split; [exact Hn|].
  apply List.Forall_forall. now apply forallb_forall.
Qed.

Lemma returned_some_spec {W} (run : result (list review) * W) :
  returned_some run = true -> exists r revs, run = (Ok (r :: revs), snd run).
Proof.
  unfold returned_some. destruct run as [[[|r revs]|] w]; cbn; try discriminate.
  intros _. now exists r, revs.
Qed.

End RunTestFacts.

(* ===================================================================== *)
(** ** Identifiers and ratings of the paths that assign them *)
(* ===================================================================== *)

Section Identifiers.
Import Py.

Lemma pretty_N_go_head (x : N) :
  forall s, (0 < x)%N ->
    exists c t, pretty_N_go x s = String c t /\ c <> "0"%char.
Proof.
  induction (N.lt_wf_0 x) as [x _ IH]. intros s Hx.
  rewrite pretty_N_go_step by exact Hx.
  destruct (N.eq_dec (x `div` 10)%N 0%N) as [E|E].
  - rewrite E, pretty_N_go_0. eexists _, _. split; [reflexivity|].
    assert (Hlt : (x < 10)%N) by (apply N.div_small_iff in E; lia).
    rewrite N.mod_small by exact Hlt.
    intros Hc. apply (pretty_N_char_inj x 0) in Hc; lia.
  - apply IH; [apply N.div_lt; [exact Hx | reflexivity] | now apply N.neq_0_lt_0].
Qed.

Lemma pretty_Zpos_head (p : positive) :
  exists c t, pretty (Z.pos p) = String c t /\ c <> "0"%char.
Proof.
  unfold pretty, pretty_Z, pretty, pretty_positive, pretty, pretty_N.
  destruct (decide (N.pos p = 0%N)); [discriminate|].
  apply pretty_N_go_head. lia.
Qed.

Lemma skip_zeros_padding (k : nat) (s : string) :
  skip_zeros (String.string_of_list_ascii (repeat "0"%char k) +:+ s) = skip_zeros s.
Proof. induction k as [|k IH]; [reflexivity | exact IH]. Qed.

Lemma skip_zeros_fmt_d (width : nat) (n : Z) :
  (0 <= n)%Z ->
  skip_zeros (Collect.fmt_d width n) = if (n =? 0)%Z then "" else pretty n.
Proof.
  intros Hn. unfold Collect.fmt_d, Collect.zfill. rewrite skip_zeros_padding.
  destruct n as [|p|p]; [reflexivity| |lia].
  destruct (pretty_Zpos_head p) as (c & t & -> & Hc). cbn.
  destruct (Ascii.eqb_spec c "0"); [contradiction | reflexivity].
Qed.

Lemma fmt_d_inj (width : nat) (a b : Z) :
  (0 <= a)%Z -> (0 <= b)%Z -> Collect.fmt_d width a = Collect.fmt_d width b -> a = b.
Proof.
  intros Ha Hb H. apply (f_equal skip_zeros) in H.
  rewrite !skip_zeros_fmt_d in H by assumption.
  destruct a as [|p|p], b as [|q|q]; try lia; try reflexivity; cbv [Z.eqb] in H.
  - destruct (pretty_Zpos_head q) as (c & t & E & _). rewrite E in H. discriminate.
  - destruct (pretty_Zpos_head p) as (c & t & E & _). rewrite E in H. discriminate.
  - now apply (inj pretty) in H.
Qed.

(** [f"REV-{n:05d}"] names different counters differently. *)
Lemma review_id_inj (a b : Z) :
  (0 <= a)%Z -> (0 <= b)%Z -> Collect.review_id a = Collect.review_id b -> a = b.
Proof.
  intros Ha Hb H. unfold Collect.review_id in H.
  apply (fmt_d_inj 5); try assumption.
  cbn in H. now injection H.
Qed.

(** The browser orchestrator numbers the reviews of a store with the
    counters that follow the current one, and advances it by their number. *)
Lemma number_reviews_ids (name address scity zone region : string) (lat lng : float)
    (city_name : string) (reviews : list Collect.review) :
  forall counter : Z,
    let out := Scrape.number_reviews name address scity zone region lat lng city_name
                 reviews counter in
    snd out = (counter + Z.of_nat (length reviews))%Z
    /\ map (fun r : Collect.review => r !! "review_id") (fst out)
       = map (fun k => Some (Str (Scrape.review_id (counter + 1 + Z.of_nat k))))
             (seq 0 (length reviews)).
Proof.
  induction reviews as [|r rest IH]; intros counter; cbn zeta.
  - cbn. split; [lia | reflexivity].
  - cbn [Scrape.number_reviews length seq map].
    specialize (IH (counter + 1)%Z). cbn zeta in IH.
    destruct (Scrape.number_reviews _ _ _ _ _ _ _ _ rest _) as [rest' counter'].
    cbn [fst snd] in *. destruct IH as [-> IH]. split; [lia|].
    cbn [map]. f_equal.
    + unfold Scrape.annotate. rewrite !lookup_insert_ne by discriminate.
      rewrite lookup_insert. do 3 f_equal. lia.
    + rewrite IH, <- seq_shift, map_map. apply map_ext. intros k. do 3 f_equal. lia.
Qed.

(** So the identifiers given to one store's reviews differ from one
    another. *)
Lemma number_reviews_distinct (name address scity zone region : string) (lat lng : float)
    (city_name : string) (reviews : list Collect.review) (counter : Z) :
  (0 <= counter)%Z ->
  NoDup (map (fun r : Collect.review => r !! "review_id")
           (fst (Scrape.number_reviews name address scity zone region lat lng city_name
                   reviews counter))).
Proof.
  intros Hc.
  destruct (number_reviews_ids name address scity zone region lat lng city_name
              reviews counter) as [_ ->].
  apply NoDup_fmap_2_strong; [|apply NoDup_seq].
  intros i j _ _ [= H]. apply fmt_d_inj in H; lia.
Qed.

End Identifiers.

Section ParsedReviews.
Import Py Scrape.

Lemma digit_of_range (c : ascii) (d : Z) : digit_of c = Some d -> (0 <= d <= 9)%Z.
Proof.
  unfold digit_of. destruct (_ && _) eqn:E; [|discriminate].
  intros [= <-]. apply andb_prop in E as [H1 H2].
  apply Nat.leb_le in H1, H2. lia.
Qed.

Lemma first_digit_range (s : string) (d : Z) : first_digit s = Some d -> (0 <= d <= 9)%Z.
Proof.
  induction s as [|c s IH]; cbn; [discriminate|].
  destruct (digit_of c) eqn:E; [|exact IH]. intros [= <-]. eapply digit_of_range, E.
Qed.

Lemma digit_before_word_range (s : string) (d : Z) :
  digit_before_word s = Some d -> (0 <= d <= 9)%Z.
Proof.
  induction s as [|c s IH]; cbn [digit_before_word]; [discriminate|].
  destruct (digit_of c) eqn:E; [|exact IH].
  match goal with |- context [if ?b then _ else _] => destruct b end; [|exact IH].
  intros [= <-]. eapply digit_of_range, E.
Qed.

Lemma rating_from_labels_range (labels : list string) :
  (0 <= rating_from_labels labels <= 9)%Z.
Proof.
  induction labels as [|l rest IH]; cbn; [lia|].
  destruct (digit_before_word l) eqn:E; [|exact IH]. eapply digit_before_word_range, E.
Qed.

Lemma rating_of_range (div : ReviewDiv) : (0 <= rating_of div <= 9)%Z.
Proof.
  unfold rating_of. destruct (_ =? 0)%Z; [apply rating_from_labels_range|].
  destruct (kvMYJc div) as [label|]; [|cbn; lia].
  destruct (first_digit label) eqn:E; [|cbn; lia]. eapply first_digit_range, E.
Qed.

Lemma review_of_parsed (text date reviewer : string) (rating : Z) :
  5 <= PyStr.len text -> (1 <= rating <= 9)%Z ->
  parsed_review (review_of text rating date reviewer).
Proof.
  intros Ht Hr. exists text, rating. unfold review_of.
  split; [reflexivity|]. split; [exact Ht|]. split; [reflexivity | exact Hr].
Qed.

Lemma parse_div_parsed (lib : Lib) (reviews : list review) (div : ReviewDiv) :
  Forall parsed_review reviews -> Forall parsed_review (parse_div lib reviews div).
Proof.
  intros H. unfold parse_div.
  destruct (match rsqaWe div with Some t => parse_date lib t | None => Ok "" end);
    [|exact H].
  destruct (_ && _) eqn:E; [|exact H].
  apply andb_prop in E as [E Hr]. apply andb_prop in E as [_ Ht].
  apply Forall_app. split; [exact H|]. constructor; [|constructor].
  apply review_of_parsed.
  - now apply Nat.leb_le in Ht.
  - apply Z.ltb_lt in Hr. pose proof (rating_of_range div). lia.
Qed.

(** Every review the browser adapter parses has a text of at least five
    characters and a rating between one and nine. *)
Lemma parse_reviews_parsed (lib : Lib) (html : string) :
  Forall parsed_review (parse_reviews lib html).
Proof.
  unfold parse_reviews.
  assert (H : forall divs acc, Forall parsed_review acc ->
                Forall parsed_review (fold_left (parse_div lib) divs acc)).
  { induction divs as [|d divs IH]; intros acc Hacc; [exact Hacc|].
    apply IH, parse_div_parsed, Hacc. }
  apply H. constructor.
Qed.

End ParsedReviews.

(* ===================================================================== *)
(** ** Saving *)
(* ===================================================================== *)

Section SaveFacts.
Import Py Scrape.
Variable str_of : val -> string.

Lemma write_rows (rows acc : list (list string)) :
  fold_left apply_op (map WriteRow rows) (Some acc) = Some (acc ++ rows).
Proof.
  revert acc. induction rows as [|row rows IH]; intros acc; simpl.
  - now rewrite app_nil_r.
  - rewrite IH, <- app_assoc. reflexivity.
Qed.

Lemma save_ops_cons (r : review) (reviews : list review) :
  save_ops str_of (r :: reviews)
  = OpenTruncate :: map WriteRow (FIELDS :: map (row_of str_of) (r :: reviews)).
Proof. unfold save_ops. simpl. now rewrite map_map. Qed.

(** After [open] and [k] writes the file holds the first [k] rows of the new
    content. *)
Lemma interrupted_save_prefix (k : nat) (reviews : list review) (file : File) :
  reviews <> [] ->
  interrupted_save str_of (S k) reviews file
  = Some (take k (FIELDS :: map (row_of str_of) reviews)).
Proof.
  intros Hne. destruct reviews as [|r reviews]; [contradiction|].
  unfold interrupted_save. rewrite save_ops_cons.
  cbn [take fold_left apply_op]. rewrite firstn_map. apply (write_rows _ []).
Qed.

Lemma save_all_content (reviews : list review) (file : File) :
  reviews <> [] ->
  save_all str_of reviews file = Some (FIELDS :: map (row_of str_of) reviews).
Proof.
  intros Hne. destruct reviews as [|r reviews]; [contradiction|].
  unfold save_all. rewrite save_ops_cons. cbn [fold_left apply_op].
  apply write_rows.
Qed.

End SaveFacts.

(** C3, as the code has it: [save_all] rewrites the output file in place.
    Its first operation, [open(OUTPUT, "w")], empties the file; the header
    and the rows are then written one after the other.  A save that stops
    after [k] writes leaves the first [k] rows of the new content, and one
    that stops right after the [open] leaves an empty file, which is neither
    the previous content nor the new one. *)
Theorem save_all_rewrites_in_place
    (str_of : Py.val -> string) (reviews : list (gmap string Py.val))
    (header : list string) (old_rows : list (list string)) :
  reviews <> [] ->
  let old : Scrape.File := Some (header :: old_rows) in
  let new := Scrape.save_all str_of reviews old in
  new = Some (Scrape.FIELDS :: map (Scrape.row_of str_of) reviews)
  /\ (forall k, Scrape.interrupted_save str_of (S k) reviews old
                = Some (take k (Scrape.FIELDS :: map (Scrape.row_of str_of) reviews)))
  /\ Scrape.interrupted_save str_of 1 reviews old = Some []
  /\ Scrape.interrupted_save str_of 1 reviews old <> old
  /\ Scrape.interrupted_save str_of 1 reviews old <> new.
Proof.
  intros Hne old new.
  assert (Hnew : new = Some (Scrape.FIELDS :: map (Scrape.row_of str_of) reviews))
    by (apply save_all_content, Hne).
  assert (H1 : Scrape.interrupted_save str_of 1 reviews old = Some [])
    by (rewrite interrupted_save_prefix by exact Hne; reflexivity).
  split; [exact Hnew|]. split; [intros k; apply interrupted_save_prefix, Hne|].
  split; [exact H1|]. rewrite H1, Hnew. split; discriminate.
Qed.

Lemma save_all_rewrites_in_place_witness :
  let reviews := [ Scrape.review_of "Tres bon accueil" 5 "2024-01-15" "Marie";
                   Scrape.review_of "Magasin propre" 4 "2024-02-15" "Thomas" ] in
  reviews <> []
  /\ Scrape.interrupted_save (Scrape.str_of plain_lib) 1 reviews paris_file = Some []
  /\ Scrape.interrupted_save (Scrape.str_of plain_lib) 1 reviews paris_file <> paris_file
  /\ Scrape.interrupted_save (Scrape.str_of plain_lib) 1 reviews paris_file
     <> Scrape.save_all (Scrape.str_of plain_lib) reviews paris_file.
Proof.
  intros reviews.
  assert (Hne : reviews <> []) by discriminate.
  split; [exact Hne|].
  destruct (save_all_rewrites_in_place (Scrape.str_of plain_lib) reviews Scrape.FIELDS
              [paris_row] Hne) as (_ & _ & H).
  exact H.
Defined.
(* ===================================================================== *)
(** ** Orchestrator of [01_collect_data.py]: the branch that runs *)
(* ===================================================================== *)

(** C1, as the code has it, for a configuration without an official-API
    credential.  The browser-automation branch comes first: when
    [USE_SELENIUM] is 1, true or yes the run starts with it.  Otherwise the
    remote-API branch runs when [OUTSCRAPER_API_KEY] is not empty and
    [requests] can be imported: if it collects reviews, these are saved;
    if it collects none, the synthetic generator supplies the batch.
    Otherwise the synthetic generator alone runs.  The generator always
    returns at least one review, and whatever a run saves is not empty. *)
Theorem main_branch_precedence {W : Type} (http : Collect.Http W)
    (re_city : string -> option string) (rng : Collect.Rng) (cfg : Collect.Config) (w : W) :
  Collect.environ cfg !! "GOOGLE_API_KEY" = None ->
  (use_selenium cfg = true ->
   exists o, Collect.main http re_city rng cfg w = (Py.Ok o, w)
             /\ head (modes_of o) = Some Collect.MODE_Selenium)
  /\ (use_selenium cfg = false -> remote_ready cfg = true ->
      forall (revs : list (gmap string Py.val)) (w' : W),
        Collect.scrape_areas http re_city (Collect.getenv cfg "OUTSCRAPER_API_KEY")
          Collect.AREAS [] w = (Py.Ok revs, w') ->
        exists modes out,
          Collect.main http re_city rng cfg w = (Py.Ok (Collect.Saved modes out), w')
          /\ head modes = Some Collect.MODE_Outscraper
          /\ out <> []
          /\ (revs <> [] -> modes = [Collect.MODE_Outscraper] /\ out = revs)
          /\ (revs = [] -> modes = [Collect.MODE_Outscraper; Collect.MODE_Simulated]
                           /\ Collect.generate_simulated rng 25 = Py.Ok out))
  /\ (use_selenium cfg = false -> remote_ready cfg = false ->
      exists revs, Collect.main http re_city rng cfg w
                   = (Py.Ok (Collect.Saved [Collect.MODE_Simulated] revs), w)
                   /\ revs <> [] /\ Collect.generate_simulated rng 25 = Py.Ok revs)
  /\ (forall modes revs w',
        Collect.main http re_city rng cfg w = (Py.Ok (Collect.Saved modes revs), w') ->
        revs <> []).
Proof.
  intros _. split; [|split; [|split]].
  - apply main_browser_branch.
  - intros Hs Hr revs w'. now apply main_remote_branch.
  - apply main_synthetic_branch.
  - intros modes revs w'. apply main_saves_something.
Qed.

Lemma main_branch_precedence_witness :
  Collect.environ outscraper_config !! "GOOGLE_API_KEY" = None
  /\ exists out,
       Collect.main (canned_http rated_payload) (fun _ => None) constant_rng
         outscraper_config tt
       = (Py.Ok (Collect.Saved [Collect.MODE_Outscraper] out), tt)
       /\ out <> [].
Proof.
  split; [reflexivity|].
  destruct (main_branch_precedence (canned_http rated_payload) (fun _ => None)
              constant_rng outscraper_config tt eq_refl) as (_ & Hremote & _).
  assert (E : returned_some
               (Collect.scrape_areas (canned_http rated_payload) (fun _ => None)
                  (Collect.getenv outscraper_config "OUTSCRAPER_API_KEY") Collect.AREAS [] tt)
             = true) by (vm_compute; reflexivity).
  apply returned_some_spec in E. destruct (snd _) in E.
  destruct E as (r & revs & E).
  destruct (Hremote eq_refl eq_refl _ _ E) as (modes & out & Hm & _ & Hne & Hsame & _).
  destruct Hsame as [-> ->]; [discriminate|].
  exists (r :: revs). split; [exact Hm | discriminate].
Defined.

(** C1 fails as stated: with the remote-API credential present and
    [requests] not importable, the run starts with the synthetic generator,
    where the stated precedence selects the remote-API adapter. *)
Lemma remote_credential_is_not_enough :
  exists revs,
    Collect.main (canned_http rated_payload) (fun _ => None) constant_rng
      requests_missing_config tt
    = (Py.Ok (Collect.Saved [Collect.MODE_Simulated] revs), tt)
    /\ first_adapter (Collect.Saved [Collect.MODE_Simulated] revs) = Some Synthetic
    /\ stated_choice
         (use_selenium requests_missing_config)
         (negb (String.eqb (Collect.getenv requests_missing_config "OUTSCRAPER_API_KEY") ""))
         false
       = RemoteApi.
Proof.
  destruct (main_synthetic_branch (canned_http rated_payload) (fun _ => None) constant_rng
              requests_missing_config tt eq_refl eq_refl) as (revs & Hm & _).
  exists revs. split; [exact Hm|]. split; reflexivity.
Qed.

(** The orchestrator never reads an official-API credential: with only
    [GOOGLE_API_KEY] set the synthetic generator runs. *)
Lemma official_credential_is_not_read :
  exists revs,
    Collect.main (canned_http rated_payload) (fun _ => None) constant_rng
      official_only_config tt
    = (Py.Ok (Collect.Saved [Collect.MODE_Simulated] revs), tt).
Proof.
  destruct (main_synthetic_branch (canned_http rated_payload) (fun _ => None) constant_rng
              official_only_config tt eq_refl eq_refl) as (revs & Hm & _).
  exists revs. exact Hm.
Qed.

(** With the browser branch requested, [bs4] installed and [selenium] not,
    the import of [scrape_google_maps] ends the process before anything is
    written. *)
Lemma missing_selenium_exits :
  Collect.main (canned_http rated_payload) (fun _ => None) constant_rng
    selenium_missing_config tt
  = (Py.Ok (Collect.Exited 1 [Collect.MODE_Selenium]), tt).
Proof. reflexivity. Qed.

(* ===================================================================== *)
(** ** What the remote-API branch persists *)
(* ===================================================================== *)

(** C8 on the code: a run in Outscraper mode, against an upstream review of
    more than ten characters that carries no rating, saves that review with
    the rating [0]. *)
Theorem outscraper_saves_rating_zero
    (re_city : string -> option string) (rng : Collect.Rng) :
  exists revs : list (gmap string Py.val),
    Collect.main (canned_http unrated_payload) re_city rng outscraper_config tt
    = (Py.Ok (Collect.Saved [Collect.MODE_Outscraper] revs), tt)
    /\ length revs = 6
    /\ Forall (fun r : gmap string Py.val =>
                 r !! "rating" = Some (Py.Int 0)
                 /\ r !! "review_text" = Some (Py.Str "Tres bon accueil du personnel")
                 /\ r !! "source" = Some (Py.Str "outscraper")) revs.
Proof.
  assert (H : saved_all
                (fun r => field_is_int "rating" 0 r
                          && field_is_str "review_text" "Tres bon accueil du personnel" r
                          && field_is_str "source" "outscraper" r)
                [Collect.MODE_Outscraper] 6
                (Collect.main (canned_http unrated_payload) re_city rng
                   outscraper_config tt) = true)
    by (vm_compute; reflexivity).
  apply saved_all_spec in H as (revs & Hm & Hn & Hall).
  destruct (snd _) in Hm. exists revs. split; [exact Hm|]. split; [exact Hn|].
  eapply Forall_impl; [exact Hall|]. intros r Hr. cbv beta in Hr.
  apply andb_prop in Hr as [Hr Hs]. apply andb_prop in Hr as [Hr Ht].
  split; [now apply field_is_int_spec|].
  split; now apply field_is_str_spec.
Qed.

(** C9 on the code: whatever the network answers, a run that used the
    remote API alone saves at least one review, and none of the reviews it
    saves has a [review_id] field. *)
Theorem outscraper_saves_no_identifier {W : Type} (http : Collect.Http W)
    (re_city : string -> option string) (rng : Collect.Rng) (cfg : Collect.Config)
    (w w' : W) (revs : list (gmap string Py.val)) :
  Collect.main http re_city rng cfg w
  = (Py.Ok (Collect.Saved [Collect.MODE_Outscraper] revs), w') ->
  revs <> [] /\ Forall (fun r : gmap string Py.val => r !! "review_id" = None) revs.
Proof.
  intros Hrun. apply main_outscraper_only in Hrun as [Hne Hshape].
  split; [exact Hne | now apply shaped_no_identifier].
Qed.

Lemma outscraper_saves_no_identifier_witness :
  exists revs : list (gmap string Py.val),
    Collect.main (canned_http rated_payload) (fun _ => None) constant_rng
      outscraper_config tt
    = (Py.Ok (Collect.Saved [Collect.MODE_Outscraper] revs), tt)
    /\ length revs = 6
    /\ Forall (fun r : gmap string Py.val => r !! "review_id" = None) revs.
Proof.
  assert (H : saved_all (fun _ => true) [Collect.MODE_Outscraper] 6
                (Collect.main (canned_http rated_payload) (fun _ => None) constant_rng
                   outscraper_config tt) = true)
    by (vm_compute; reflexivity).
  apply saved_all_spec in H as (revs & Hm & Hn & _).
  destruct (snd _) in Hm. exists revs. split; [exact Hm|]. split; [exact Hn|].
  exact (proj2 (outscraper_saves_no_identifier _ _ _ _ _ _ _ Hm)).
Defined.
(* ===================================================================== *)
(** ** Deduplicator: what its output looks like *)
(* ===================================================================== *)

Section DedupFacts.
Import Py Collect.

Lemma dedup_loop_distinct (reviews : list review) :
  forall (seen : gset string) (out : list review) (fout : list string) (r : list review),
    fingerprints out fout -> NoDup fout -> (forall h, h ∈ seen <-> In h fout) ->
    dedup_loop reviews seen out = Ok r ->
    distinct_fingerprints r /\ length r <= length out + length reviews.
Proof.
  induction reviews as [|x reviews IH]; intros seen out fout r Hf Hn Hs; cbn [dedup_loop].
  - intros [= <-]. split; [exists fout; split; assumption | simpl; lia].
  - destruct (fingerprint x) as [h|] eqn:E; cbn [mbind result_bind]; [|discriminate].
    destruct (decide (h ∈ seen)) as [Hin|Hout]; intros H.
    + apply (IH seen out fout r Hf Hn Hs) in H as [H1 H2]. split; [exact H1 | simpl; lia].
    + apply (IH _ _ (fout ++ [h])) in H as [H1 H2].
      * split; [exact H1|]. rewrite length_app in H2. simpl in *. lia.
      * apply Forall2_app; [exact Hf | constructor; [exact E | constructor]].
      * apply NoDup_app. split; [exact Hn|]. split; [|apply NoDup_singleton].
        intros y Hy Hy'. apply list_elem_of_singleton in Hy'. subst y.
        apply Hout, Hs. now apply list_elem_of_In.
      * intros y. rewrite elem_of_union, elem_of_singleton, in_app_iff, Hs. simpl.
        intuition.
Qed.

(** A batch with fingerprints that all differ, none of them seen, passes
    through the loop. *)
Lemma dedup_loop_fresh (reviews : list review) :
  forall (fps : list string) (seen : gset string) (out : list review),
    fingerprints reviews fps -> NoDup fps -> (forall h, In h fps -> h ∉ seen) ->
    dedup_loop reviews seen out = Ok (out ++ reviews).
Proof.
  induction reviews as [|x reviews IH]; intros fps seen out Hf Hn Hs; cbn [dedup_loop].
  - now rewrite app_nil_r.
  - inversion Hf as [|? h ? fps' Hh Hrest]; subst. rewrite Hh. cbn [mbind result_bind].
    apply NoDup_cons in Hn as [Hh' Hn].
    destruct (decide (h ∈ seen)) as [Hin|_]; [exfalso; apply (Hs h); [now left | exact Hin]|].
    rewrite (IH fps'); [now rewrite <- app_assoc | exact Hrest | exact Hn |].
    intros y Hy. rewrite elem_of_union, elem_of_singleton. intros [->|Hy'].
    + apply Hh'. now apply list_elem_of_In.
    + apply (Hs y); [now right | exact Hy'].
Qed.

Lemma dedup_loop_raises (reviews : list review) (r : review) (e : Exn) :
  In r reviews -> fingerprint r = Raise e ->
  forall seen out, dedup_loop reviews seen out = Raise "TypeError: can only concatenate str".
Proof.
  assert (Hmsg : forall x e', fingerprint x = Raise e'
                              -> e' = "TypeError: can only concatenate str").
  { intros x e'. unfold fingerprint, dedup_key.
    destruct (field x "review_text"), (field x "store_name"); cbn; congruence. }
  induction reviews as [|x reviews IH]; intros Hin He seen out; [destruct Hin|].
  cbn [dedup_loop]. destruct (fingerprint x) as [h|e'] eqn:E; cbn [mbind result_bind].
  - destruct Hin as [->|Hin]; [congruence|].
    destruct (decide (h ∈ seen)); now apply IH.
  - now rewrite (Hmsg x e' E).
Qed.

End DedupFacts.

(* ===================================================================== *)
(** ** Remote-API adapter: what it returns *)
(* ===================================================================== *)

Section AreaFacts.
Import Py Collect.

Lemma stores_of_payload_listed (payload : val) (stores : list Store) :
  stores_of_payload payload = Ok stores -> Forall listed stores.
Proof.
  unfold stores_of_payload.
  destruct (get payload "data" (List [])) as [data|]; simpl; [|discriminate].
  destruct (iter data) as [places|]; simpl; [|discriminate].
  apply (for_each_invariant (Forall listed)); [|constructor].
  intros acc place acc' Hacc. apply (for_each_invariant (Forall listed)); [|exact Hacc].
  clear. intros acc item acc' Hacc.
  destruct item; try (intros [= <-]; exact Hacc).
  destruct (dict_get d "name" (Str "")) as [| | | |nm| |]; try discriminate.
  destruct (negb _) eqn:E; intros [= <-]; [exact Hacc|].
  apply Forall_app. split; [exact Hacc|]. constructor; [|constructor].
  unfold listed. cbn. now apply negb_false_iff in E.
Qed.

Lemma reviews_of_payload_long (payload : val) (revs : list review) :
  reviews_of_payload payload = Ok revs -> Forall fetched_long revs.
Proof.
  unfold reviews_of_payload.
  destruct (get payload "data" (List [])) as [data|]; simpl; [|discriminate].
  destruct (iter data) as [places|]; simpl; [|discriminate].
  apply (for_each_invariant (Forall fetched_long)); [|constructor].
  intros acc place acc' Hacc. apply (for_each_invariant (Forall fetched_long)); [|exact Hacc].
  clear. intros acc item acc' Hacc.
  destruct item; try (intros [= <-]; exact Hacc).
  destruct (iter _) as [rs|]; simpl; [|discriminate].
  apply (for_each_invariant (Forall fetched_long)); [|exact Hacc].
  clear. intros acc rev acc' Hacc.
  destruct (get rev "review_text" (Str "")) as [text|]; simpl; [|discriminate].
  destruct (len text) as [n|] eqn:En; simpl; [|discriminate].
  destruct (n <? 10)%nat eqn:E10; [intros [= <-]; exact Hacc|].
  destruct (get rev "review_rating" (Int 0)) as [rating|]; simpl; [|discriminate].
  destruct (get rev "review_datetime_utc" (Str "")) as [date|]; simpl; [|discriminate].
  destruct (get rev "author_title" (Str "Anonyme")) as [who|]; simpl; [|discriminate].
  intros [= <-]. apply Forall_app. split; [exact Hacc|].
  constructor; [|constructor]. split; [apply review_of_fetched|].
  exists text, n. split; [reflexivity|]. split; [exact En|].
  apply Nat.ltb_ge in E10. exact E10.
Qed.

Lemma contained_invariant {A} (P : list A -> Prop) (read : val -> result (list A))
    (outcome : HttpOutcome) :
  P [] -> (forall payload l, read payload = Ok l -> P l) -> P (contained read outcome).
Proof.
  intros Hnil Hread. unfold contained. destruct outcome as [e|status json]; [exact Hnil|].
  destruct (_ && _); [exact Hnil|]. destruct json as [payload|]; [|exact Hnil].
  destruct (read payload) eqn:E; [eapply Hread, E | exact Hnil].
Qed.

Lemma region_values (addr : string) :
  _region addr = "France" \/ In (_region addr) (map snd REGION_TABLE).
Proof.
  unfold _region. destruct (Zone.first_keyword REGION_TABLE (PyStr.lower addr)) as [v|] eqn:E.
  - right. cbn [default].
    assert (H : forall table a v, Zone.first_keyword table a = Some v -> In v (map snd table)).
    { induction table as [|[k x] table IH]; intros a y; cbn; [discriminate|].
      destruct (PyStr.contains k a); [intros [= <-]; now left | intros H; right; eapply IH, H]. }
    eapply H, E.
  - now left.
Qed.

Lemma collect_zone_label (lat lng : val) (region zone : string) :
  classify_zone lat lng region = Ok zone -> In zone Zone.labels.
Proof.
  unfold classify_zone, is_paris_intra. destruct (region_is_idf region).
  - destruct (Zone.in_box lat lng) as [[|]|]; cbn; intros [= <-]; simpl; auto.
  - intros [= <-]. simpl. auto.
Qed.

Context {W : Type} (http : Http W) (key : string) (re_city : string -> option string).

Lemma find_stores_listed (query location : string) (limit : Z) :
  yields (find_stores http key query location limit) (Forall listed).
Proof.
  intros w. eexists _, _. split; [apply find_stores_caught|].
  apply contained_invariant; [constructor | apply stores_of_payload_listed].
Qed.

Lemma get_reviews_long (pid : val) (limit : Z) :
  ensures (get_reviews http key pid limit) (Forall fetched_long).
Proof.
  unfold get_reviews. eapply ensures_bind with (P := fun _ => True).
  - intros w a w' _. exact I.
  - intros _ _ w a w'. rewrite request_caught. intros [= <- _].
    apply contained_invariant; [constructor | apply reviews_of_payload_long].
Qed.

Lemma annotate_raw (store : Store) (city zone region : string) (rev : review) :
  listed store -> In zone Zone.labels ->
  (region = "France" \/ In region (map snd REGION_TABLE)) ->
  fetched_long rev -> area_review_raw (annotate store city zone region rev).
Proof.
  intros Hs Hz Hr [Hf (text & n & Ht & Hn & H10)].
  split; [now apply annotate_shape|]. unfold annotate.
  split; [exists text, n; rewrite !lookup_insert_ne by discriminate; auto|].
  split.
  { exists (name store). split; [|exact Hs].
    rewrite !lookup_insert_ne by discriminate. now rewrite lookup_insert. }
  split.
  { exists zone. split; [|exact Hz].
    rewrite !lookup_insert_ne by discriminate. now rewrite lookup_insert. }
  split.
  { exists region. split; [|exact Hr].
    rewrite !lookup_insert_ne by discriminate. now rewrite lookup_insert. }
  split; [now rewrite lookup_insert|].
  rewrite !lookup_insert_ne by discriminate.
  apply not_elem_of_dom. rewrite Hf. rewrite elem_of_list_to_set.
  intros Hin. apply list_elem_of_In in Hin. cbn in Hin. intuition discriminate.
Qed.

Lemma scrape_store_raw (per_store : Z) (all_revs : list review) (store : Store) :
  listed store -> Forall area_review_raw all_revs ->
  ensures (scrape_store http key re_city per_store all_revs store)
          (Forall area_review_raw).
Proof.
  intros Hs Hall. unfold scrape_store.
  eapply ensures_bind; [apply get_reviews_long|]. intros revs Hrevs.
  destruct (address store); try apply ensures_raise.
  eapply ensures_bind with (P := fun zone => In zone Zone.labels).
  { apply ensures_lift. intros zone. apply collect_zone_label. }
  intros zone Hz. apply ensures_ret. apply Forall_app. split; [exact Hall|].
  apply Forall_map. eapply Forall_impl; [exact Hrevs|].
  intros r Hr. apply annotate_raw; [exact Hs | exact Hz | apply region_values | exact Hr].
Qed.

Lemma scrape_stores_raw (per_store : Z) (stores : list Store) :
  Forall listed stores ->
  forall all_revs, Forall area_review_raw all_revs ->
    ensures (scrape_stores http key re_city per_store stores all_revs)
            (Forall area_review_raw).
Proof.
  intros Hs. induction Hs as [|store stores Hstore _ IH]; intros all_revs Hall; simpl.
  - now apply ensures_ret.
  - eapply ensures_bind; [now apply scrape_store_raw|]. apply IH.
Qed.

Lemma yields_ensures {A} (m : M W A) (P : A -> Prop) : yields m P -> ensures m P.
Proof.
  intros H w a w' E. destruct (H w) as (a0 & w0 & E0 & Ha). rewrite E in E0.
  now injection E0 as -> _.
Qed.

Lemma area_review_of_raw (r : review) (h : string) :
  area_review_raw r -> fingerprint r = Ok h -> area_review r.
Proof.
  intros (H1 & (text & n & Ht & Hn & H10) & H3) Hh.
  split; [exact H1|]. split; [|exact H3].
  unfold fingerprint, dedup_key, field in Hh. rewrite Ht in Hh. cbn [default] in Hh.
  destruct text; try discriminate. exists s. split; [exact Ht|].
  cbn in Hn. now injection Hn as <-.
Qed.

Lemma scrape_area_reviews (area : string) (per_store : Z) :
  ensures (scrape_area http key re_city area per_store)
          (fun revs => Forall area_review revs /\ distinct_fingerprints revs).
Proof.
  unfold scrape_area.
  eapply ensures_bind; [apply yields_ensures, find_stores_listed|]. intros stores Hs.
  eapply ensures_bind; [apply scrape_stores_raw; [exact Hs | constructor]|].
  intros all_revs Hall. apply ensures_lift. intros out Hout.
  destruct (dedup_loop_distinct all_revs ∅ [] [] out) as [Hd _];
    [constructor | constructor | | exact Hout |].
  { intros h. split; [intros Hh; now apply not_elem_of_empty in Hh | intros []]. }
  split; [|exact Hd].
  pose proof (Forall_sublist _ _ _ (dedup_sublist _ _ Hout) Hall) as Hraw.
  destruct Hd as (fps & Hf & _).
  clear -Hraw Hf. revert fps Hf. induction Hraw as [|r out Hr _ IH]; intros fps Hf.
  - constructor.
  - inversion Hf as [|? h ? fps' Hh Hrest]; subst.
    constructor; [eapply area_review_of_raw; eassumption | eapply IH, Hrest].
Qed.

End AreaFacts.

Section CollectZoneFloats.
Import Py Collect.

Lemma classify_zone_floats_collect (lat lng : float) (region : string) :
  exists zone, classify_zone (Float lat) (Float lng) region = Ok zone
               /\ In zone Zone.labels.
Proof.
  unfold classify_zone, is_paris_intra. destruct (region_is_idf region).
  - unfold Zone.in_box, between, number. cbn [mbind result_bind].
    destruct (PrimFloat.leb _ lat && PrimFloat.leb lat _); cbn [mbind result_bind].
    + destruct (PrimFloat.leb _ lng && PrimFloat.leb lng _); eexists;
        (split; [reflexivity | simpl; auto]).
    + eexists. split; [reflexivity | simpl; auto].
  - eexists. split; [reflexivity | simpl; auto].
Qed.

End CollectZoneFloats.

(* ===================================================================== *)
(** ** Synthetic generator: numbering and size *)
(* ===================================================================== *)

Section GeneratorFacts.
Import Py Collect.
Context (rng : Rng).

Lemma simulate_review_at (idx : nat) (st : SimStore) (bias : float) (zone : string)
    (cnt : Z) :
  In zone Zone.labels ->
  yields (simulate_review rng idx st bias zone cnt) (simulated_at cnt).
Proof.
  intros Hzone. unfold simulate_review.
  eapply yields_bind; [apply draw_pool_rating_yields|]. intros [pool rating] [Hpool Hrating].
  simpl in Hpool, Hrating.
  destruct (templates_of_pool pool Hpool) as (texts & Ht & Hne & Hall).
  rewrite Ht.
  eapply yields_bind; [apply (yields_lift texts (fun x => x = texts) eq_refl)|].
  intros ? ->.
  eapply yields_bind; [apply choice_yields, Hne|]. intros text Htext.
  eapply yields_bind; [apply randint_yields; lia|]. intros days _.
  eapply yields_bind; [apply choice_yields; discriminate|]. intros first _.
  eapply yields_bind; [apply choice_yields; discriminate|]. intros last _.
  apply yields_ret. split; [|split; [reflexivity | split; [|reflexivity]]].
  - unfold simulated_review.
    split; [rewrite dom_list_to_map_L; reflexivity|].
    split; [exists text; split; [reflexivity|]|].
    { rewrite Forall_forall in Hall. apply Hall, list_elem_of_In, Htext. }
    split; [eexists; reflexivity|].
    split; [exists rating; split; [reflexivity | exact Hrating]|].
    exists cnt. reflexivity.
  - exists zone. split; [reflexivity | exact Hzone].
Qed.

Lemma counted_snoc (revs : list review) (cnt : Z) (r : review) :
  counted revs cnt -> simulated_at (cnt + 1) r -> counted (revs ++ [r]) (cnt + 1).
Proof.
  intros [-> Hall] Hr. split; [rewrite length_app; simpl; lia|].
  intros k x Hk. apply lookup_app_Some in Hk as [Hk|[Hlen Hk]]; [now apply Hall|].
  destruct (k - length revs) as [|j] eqn:Ej; [|discriminate]. cbn in Hk.
  injection Hk as <-. replace (Z.of_nat k + 1)%Z with (Z.of_nat (length revs) + 1)%Z by lia.
  exact Hr.
Qed.

Lemma simulate_reviews_counted (n idx : nat) (st : SimStore) (bias : float) (zone : string) :
  In zone Zone.labels ->
  forall (revs : list review) (cnt : Z),
    counted revs cnt ->
    yields (simulate_reviews rng n idx st bias zone revs cnt)
           (fun rc => counted (fst rc) (snd rc) /\ length (fst rc) = length revs + n).
Proof.
  intros Hzone. induction n as [|n IH]; intros revs cnt Hrevs; cbn [simulate_reviews].
  - apply yields_ret. split; [exact Hrevs | simpl; lia].
  - eapply yields_bind; [now apply simulate_review_at|]. intros r Hr.
    eapply yields_weaken.
    + apply IH. now apply counted_snoc.
    + intros [revs' cnt'] [H1 H2]. simpl in *. split; [exact H1|].
      rewrite H2, length_app. simpl. lia.
Qed.

Lemma simulate_stores_counted (per_store : Z) (stores : list SimStore) :
  (7 <= per_store)%Z ->
  forall (idx : nat) (revs : list review) (cnt : Z),
    counted revs cnt ->
    yields (simulate_stores rng per_store stores idx revs cnt)
           (fun out =>
              (exists cnt', counted out cnt')
              /\ (Z.of_nat (length revs) + 15 * Z.of_nat (length stores)
                  <= Z.of_nat (length out)
                  <= Z.of_nat (length revs) + (per_store + 8) * Z.of_nat (length stores))%Z).
Proof.
  intros Hp. induction stores as [|st stores IH]; intros idx revs cnt Hrevs;
    cbn [simulate_stores].
  - apply yields_ret. split; [now exists cnt | simpl; lia].
  - destruct (classify_zone_floats_collect (st_lat st) (st_lng st) (st_r st))
      as (zone & Hzone & Hlab).
    rewrite Hzone.
    eapply yields_bind; [apply (yields_lift zone (fun x => x = zone) eq_refl)|].
    intros ? ->.
    eapply yields_bind; [apply randint_yields; lia|]. intros n Hn. cbv beta in Hn.
    eapply yields_bind; [now apply simulate_reviews_counted|].
    intros [revs' cnt'] [H1 H2]. simpl in H1, H2.
    eapply yields_weaken; [apply IH, H1|].
    intros out [Ho Hl]. split; [exact Ho|]. simpl length. nia.
Qed.

(** With fewer than seven reviews per store the range of line 199 is
    empty. *)
Lemma simulate_stores_empty_range (per_store : Z) (st : SimStore) (stores : list SimStore)
    (idx : nat) (revs : list review) (cnt : Z) (g : G rng) :
  (per_store < 7)%Z ->
  simulate_stores rng per_store (st :: stores) idx revs cnt g
  = (Raise "ValueError: empty range for randrange()", g).
Proof.
  intros Hp. cbn [simulate_stores].
  destruct (classify_zone_floats_collect (st_lat st) (st_lng st) (st_r st))
    as (zone & Hzone & _).
  rewrite Hzone. unfold bind at 1, lift at 1. unfold bind at 1, randint.
  assert (E : (per_store + 8 <? Z.max 15 (per_store - 8))%Z = true) by (apply Z.ltb_lt; lia).
  now rewrite E.
Qed.

End GeneratorFacts.

Section SublistPositions.

Lemma increasing_map_S (ns : list nat) : increasing ns -> increasing (map S ns).
Proof.
  intros H i j a b Hij Ha Hb. rewrite list_lookup_fmap in Ha, Hb.
  destruct (ns !! i) as [a'|] eqn:Ea; [|discriminate].
  destruct (ns !! j) as [b'|] eqn:Eb; [|discriminate].
  injection Ha as <-. injection Hb as <-. specialize (H i j a' b' Hij Ea Eb). lia.
Qed.

Lemma increasing_cons_0 (ns : list nat) : increasing ns -> increasing (0 :: map S ns).
Proof.
  intros H [|i] [|j] a b Hij Ha Hb; try lia.
  - change (Some 0 = Some a) in Ha. change (map S ns !! j = Some b) in Hb.
    injection Ha as <-. rewrite list_lookup_fmap in Hb.
    destruct (ns !! j); [|discriminate]. injection Hb as <-. lia.
  - change (map S ns !! i = Some a) in Ha. change (map S ns !! j = Some b) in Hb.
    apply (increasing_map_S ns H i j a b); [lia | exact Ha | exact Hb].
Qed.

(** The positions of a subsequence. *)
Lemma sublist_positions {A} (k l : list A) :
  sublist k l ->
  exists ns, increasing ns /\ Forall2 (fun x n => l !! n = Some x) k ns.
Proof.
  induction 1 as [|x k l _ (ns & Hs & Hf)|x k l _ (ns & Hs & Hf)].
  - exists []. split; [intros i j a b _ Ha; discriminate | constructor].
  - exists (0 :: map S ns). split; [now apply increasing_cons_0|].
    constructor; [reflexivity|]. apply Forall2_fmap_r.
    eapply Forall2_impl; [exact Hf|]. intros y n Hy. exact Hy.
  - exists (map S ns). split; [now apply increasing_map_S|].
    apply Forall2_fmap_r. eapply Forall2_impl; [exact Hf|]. intros y n Hy. exact Hy.
Qed.

Lemma increasing_NoDup (ns : list nat) : increasing ns -> NoDup ns.
Proof.
  intros H. apply NoDup_alt. intros i j a Hi Hj.
  destruct (Nat.lt_trichotomy i j) as [Hlt|[Heq|Hgt]]; [|exact Heq|].
  - specialize (H i j a a Hlt Hi Hj). lia.
  - specialize (H j i a a Hgt Hj Hi). lia.
Qed.

End SublistPositions.

(* ===================================================================== *)
(** ** Browser orchestrator: what a run appends to the batch *)
(* ===================================================================== *)

Section ParsedFields.
Import Py Scrape.

Lemma review_of_fields (text date reviewer : string) (rating : Z) :
  dom (review_of text rating date reviewer)
  = list_to_set ["review_text"; "rating"; "date"; "reviewer_name"].
Proof.
  unfold review_of. rewrite !dom_insert_L, dom_singleton_L.
  apply set_eq. intros k. set_solver.
Qed.

Lemma parse_div_keeps (P : review -> Prop) (lib : Lib) (reviews : list review)
    (div : ReviewDiv) :
  (forall text rating date reviewer,
      5 <= PyStr.len text -> (1 <= rating <= 9)%Z ->
      P (review_of text rating date reviewer)) ->
  Forall P reviews -> Forall P (parse_div lib reviews div).
Proof.
  intros HP H. unfold parse_div.
  destruct (match rsqaWe div with Some t => parse_date lib t | None => Ok "" end);
    [|exact H].
  destruct (_ && _) eqn:E; [|exact H].
  apply andb_prop in E as [E Hr]. apply andb_prop in E as [_ Ht].
  apply Forall_app. split; [exact H|]. constructor; [|constructor].
  apply HP.
  - now apply Nat.leb_le in Ht.
  - apply Z.ltb_lt in Hr. pose proof (rating_of_range div). lia.
Qed.

Lemma parse_reviews_all (lib : Lib) (html : string) :
  Forall parsed (parse_reviews lib html).
Proof.
  unfold parse_reviews.
  assert (H : forall divs acc, Forall parsed acc ->
                Forall parsed (fold_left (parse_div lib) divs acc)).
  { induction divs as [|d divs IH]; intros acc Hacc; [exact Hacc|].
    apply IH. apply parse_div_keeps; [|exact Hacc].
    intros text rating date reviewer Ht Hr. split;
      [apply review_of_fields | now apply review_of_parsed]. }
  apply H. constructor.
Qed.

Lemma parse_div_length (lib : Lib) (reviews : list review) (div : ReviewDiv) :
  length reviews <= length (parse_div lib reviews div) <= S (length reviews).
Proof.
  unfold parse_div.
  destruct (match rsqaWe div with Some t => parse_date lib t | None => Ok "" end); [|lia].
  destruct (_ && _); [|lia]. rewrite length_app. simpl. lia.
Qed.

Lemma parse_reviews_length (lib : Lib) (html : string) :
  length (parse_reviews lib html) <= length (soup_reviews lib html).
Proof.
  unfold parse_reviews.
  assert (H : forall divs acc,
                length (fold_left (parse_div lib) divs acc) <= length acc + length divs).
  { induction divs as [|d divs IH]; intros acc; simpl; [lia|].
    specialize (IH (parse_div lib acc d)).
    pose proof (parse_div_length lib acc d). lia. }
  apply (H _ []).
Qed.

End ParsedFields.

Section ExtendsFacts.
Import Py Scrape.

Lemma extends_refl (Q : string -> Prop) (st : State) : extends Q st st.
Proof.
  exists []. split; [now rewrite app_nil_r|]. split; [simpl; lia|].
  intros k r H. discriminate.
Qed.

Lemma extends_trans (Q : string -> Prop) (a b c : State) :
  extends Q a b -> extends Q b c -> extends Q a c.
Proof.
  intros (n1 & H1 & C1 & A1) (n2 & H2 & C2 & A2). exists (n1 ++ n2).
  split; [now rewrite H2, H1, app_assoc|].
  split; [rewrite C2, C1, length_app; lia|].
  intros k r Hk. apply lookup_app_Some in Hk as [Hk|[Hlen Hk]].
  - now apply A1.
  - apply A2 in Hk. rewrite C1 in Hk.
    replace (counter a + 1 + Z.of_nat k)%Z
      with (counter a + Z.of_nat (length n1) + 1 + Z.of_nat (k - length n1))%Z by lia.
    exact Hk.
Qed.

Lemma appended_weaken (Q Q' : string -> Prop) (n : Z) (r : review) :
  (forall c, Q c -> Q' c) -> appended Q n r -> appended Q' n r.
Proof.
  intros HQ (H1 & H2 & H3 & H4 & H5 & H6 & c & Hc & Hq).
  repeat (split; [assumption|]). exists c. auto.
Qed.

Lemma extends_weaken (Q Q' : string -> Prop) (st st' : State) :
  (forall c, Q c -> Q' c) -> extends Q st st' -> extends Q' st st'.
Proof.
  intros HQ (new & H1 & H2 & H3). exists new. split; [exact H1|]. split; [exact H2|].
  intros k r Hk. eapply appended_weaken; [exact HQ | now apply H3].
Qed.

(** A step that leaves the batch and the counter alone. *)
Lemma extends_same (Q : string -> Prop) (st st' : State) :
  all_reviews st' = all_reviews st -> counter st' = counter st -> extends Q st st'.
Proof.
  intros H1 H2. exists []. split; [now rewrite app_nil_r|]. split; [simpl; lia|].
  intros k r H. discriminate.
Qed.

Lemma extends_say (Q : string -> Prop) (ev : Event) (st : State) : extends Q st (say ev st).
Proof. now apply extends_same. Qed.

Lemma labelled_named (store : Found) : labelled store -> found_name store <> "".
Proof. unfold labelled. intros H E. rewrite E in H. discriminate. Qed.

Lemma classify_zone_floats (lat lng : float) (region : string) :
  exists zone, classify_zone (Float lat) (Float lng) region = Ok zone
               /\ In zone Zone.labels.
Proof.
  unfold classify_zone. destruct (region_is_idf region).
  - unfold Zone.in_box, between, number. cbn [mbind result_bind].
    destruct (PrimFloat.leb _ lat && PrimFloat.leb lat _); cbn [mbind result_bind].
    + destruct (PrimFloat.leb _ lng && PrimFloat.leb lng _); eexists;
        (split; [reflexivity | simpl; auto]).
    + eexists. split; [reflexivity | simpl; auto].
  - eexists. split; [reflexivity | simpl; auto].
Qed.

Lemma annotate_fields (id name address scity zone region : string) (lat lng : float)
    (city_name : string) (r : review) :
  dom r = list_to_set ["review_text"; "rating"; "date"; "reviewer_name"] ->
  dom (annotate id name address scity zone region lat lng city_name r)
  = list_to_set FIELDS.
Proof.
  intros H. unfold annotate, FIELDS. rewrite !dom_insert_L, H.
  apply set_eq. intros k. set_solver.
Qed.

Lemma annotate_appended (n : Z) (name address scity zone region : string) (lat lng : float)
    (city_name : string) (r : review) :
  parsed r -> name <> "" -> In zone Zone.labels ->
  appended (eq city_name) n
    (annotate (review_id n) name address scity zone region lat lng city_name r).
Proof.
  intros [Hdom (text & rating & Ht & Hlen & Hr & Hrate)] Hname Hzone.
  split; [now apply annotate_fields|]. unfold annotate.
  split; [now rewrite !lookup_insert_ne by discriminate; rewrite lookup_insert|].
  split.
  { exists text, rating. rewrite !lookup_insert_ne by discriminate. auto. }
  split.
  { exists name. split; [|exact Hname].
    rewrite !lookup_insert_ne by discriminate. now rewrite lookup_insert. }
  split.
  { exists zone. split; [|exact Hzone].
    rewrite !lookup_insert_ne by discriminate. now rewrite lookup_insert. }
  split.
  { rewrite !lookup_insert_ne by discriminate. now rewrite lookup_insert. }
  exists city_name. split; [now rewrite lookup_insert | reflexivity].
Qed.

Lemma number_reviews_appended (name address scity zone region : string) (lat lng : float)
    (city_name : string) (reviews : list review) :
  Forall parsed reviews -> name <> "" -> In zone Zone.labels ->
  forall counter : Z,
    let out := number_reviews name address scity zone region lat lng city_name
                 reviews counter in
    length (fst out) = length reviews
    /\ snd out = (counter + Z.of_nat (length reviews))%Z
    /\ forall k r, fst out !! k = Some r ->
                   appended (eq city_name) (counter + 1 + Z.of_nat k) r.
Proof.
  intros Hall Hname Hzone.
  induction Hall as [|r rest Hr Hrest IH]; intros counter; cbn zeta.
  - cbn. split; [reflexivity|]. split; [lia|]. intros k r H. discriminate.
  - cbn [number_reviews length].
    specialize (IH (counter + 1)%Z). cbn zeta in IH.
    destruct (number_reviews _ _ _ _ _ _ _ _ rest _) as [rest' counter'].
    cbn [fst snd] in *. destruct IH as (Hlen & -> & IH).
    split; [simpl; now rewrite Hlen|]. split; [lia|].
    intros [|k] r' Hk; cbn in Hk.
    + injection Hk as <-. replace (counter + 1 + Z.of_nat 0)%Z with (counter + 1)%Z by lia.
      now apply annotate_appended.
    + apply IH in Hk.
      replace (counter + 1 + Z.of_nat (S k))%Z with (counter + 1 + 1 + Z.of_nat k)%Z by lia.
      exact Hk.
Qed.

End ExtendsFacts.

Section AdapterResults.
Import Py Scrape.
Context {W D E : Type} (br : Browser W D E) (lib : Lib).

Lemma collect_link_kept (acc : list Found * gset string) (el : E) :
  kept acc -> ensures (collect_link br acc el) kept.
Proof.
  intros Hacc. destruct acc as [results seen]. unfold collect_link.
  eapply ensures_bind with (P := fun _ => True); [intros ? ? ? _; exact I|]. intros h _.
  eapply ensures_bind with (P := fun _ => True); [intros ? ? ? _; exact I|]. intros a _.
  destruct (_ && _) eqn:Etest; [|now apply ensures_ret].
  apply ensures_ret.
  apply andb_prop in Etest as [Etest Hnew]. apply andb_prop in Etest as [Hlab Hne].
  apply bool_decide_eq_true in Hnew.
  destruct Hacc as (H1 & H2 & H3 & H4). unfold kept. cbn [fst snd] in *.
  split; [apply Forall_app; split; [exact H1 | constructor; [exact Hlab | constructor]]|].
  split.
  { apply Forall_app. split; [exact H2|]. constructor; [|constructor]. cbn.
    intros Eh. rewrite Eh in Hne. discriminate. }
  split.
  { rewrite map_app. cbn. apply NoDup_app. split; [exact H3|]. split.
    - intros x Hx Hx'. apply list_elem_of_In in Hx. apply H4 in Hx.
      apply list_elem_of_singleton in Hx'. now subst.
    - apply NoDup_singleton. }
  intros x. rewrite map_app, in_app_iff, elem_of_union, elem_of_singleton, H4. cbn.
  intuition.
Qed.

Lemma collect_links_kept (els : list E) :
  forall acc, kept acc -> ensures (collect_links br els acc) kept.
Proof.
  induction els as [|el rest IH]; intros acc Hacc; cbn [collect_links].
  - now apply ensures_ret.
  - eapply ensures_bind; [now apply collect_link_kept|]. exact IH.
Qed.

Lemma find_stores_kept (driver : D) (city : string) (lat lng : float) :
  ensures (find_stores br lib driver city lat lng)
          (fun stores => Forall labelled stores
                         /\ Forall (fun s => found_href s <> "") stores
                         /\ NoDup (map found_href stores)).
Proof.
  unfold find_stores.
  eapply ensures_bind with (P := fun _ => True); [intros ? ? ? _; exact I|]. intros _ _.
  eapply ensures_bind with (P := fun _ => True); [intros ? ? ? _; exact I|]. intros _ _.
  eapply ensures_bind with (P := fun _ => True); [intros ? ? ? _; exact I|]. intros _ _.
  eapply ensures_bind with (P := fun _ => True); [intros ? ? ? _; exact I|]. intros els _.
  eapply ensures_bind.
  - apply collect_links_kept. split; [constructor|]. split; [constructor|].
    split; [constructor|]. intros h. cbn. split; [intros Hh; now apply not_elem_of_empty in Hh | tauto].
  - intros acc (H1 & H2 & H3 & _). apply ensures_ret. auto.
Qed.

Lemma scrape_reviews_parsed (driver : D) (href : string) (max_rev : Z) :
  ensures (scrape_reviews br lib driver href max_rev)
          (fun s => Forall parsed (s_reviews s)).
Proof.
  unfold scrape_reviews.
  eapply ensures_bind with (P := fun _ => True); [intros ? ? ? _; exact I|]. intros _ _.
  eapply ensures_bind with (P := fun _ => True); [intros ? ? ? _; exact I|]. intros name _.
  eapply ensures_bind with (P := fun _ => True); [intros ? ? ? _; exact I|]. intros address _.
  eapply ensures_bind with (P := fun _ => True); [intros ? ? ? _; exact I|]. intros gps _.
  eapply ensures_bind with (P := fun _ => True); [intros ? ? ? _; exact I|]. intros opened _.
  destruct (negb opened).
  - apply ensures_ret. cbn. constructor.
  - eapply ensures_bind with (P := fun _ => True); [intros ? ? ? _; exact I|]. intros _ _.
    eapply ensures_bind with (P := fun _ => True); [intros ? ? ? _; exact I|].
    intros scrollable _.
    eapply ensures_bind with (P := fun _ => True); [intros ? ? ? _; exact I|]. intros _ _.
    eapply ensures_bind with (P := fun _ => True); [intros ? ? ? _; exact I|]. intros buttons _.
    eapply ensures_bind with (P := fun _ => True); [intros ? ? ? _; exact I|]. intros _ _.
    eapply ensures_bind with (P := fun _ => True); [intros ? ? ? _; exact I|]. intros html _.
    apply ensures_ret. cbn. apply parse_reviews_all.
Qed.

End AdapterResults.

Section StepsWithResults.
Import Py Scrape.
Context {W : Type} (R : State -> State -> Prop).
Hypothesis R_trans : forall a b c, R a b -> R b c -> R a c.

(** [steps_bind] when the continuation relies on what the first part
    returned. *)
Lemma steps_bind_post {A B} (m : M (W * State) A) (k : A -> M (W * State) B)
    (P : A -> Prop) :
  steps R m -> ensures m P -> (forall a, P a -> steps R (k a)) -> steps R (bind m k).
Proof.
  intros Hm HP Hk ws. unfold bind. specialize (Hm ws). specialize (HP ws).
  destruct (m ws) as [[a|e] ws']; simpl in *; [|exact Hm].
  eapply R_trans; [exact Hm | apply Hk; eapply HP; reflexivity].
Qed.

Lemma up_ensures {A} (m : M W A) (P : A -> Prop) : ensures m P -> ensures (up m) P.
Proof.
  intros H [w st] a ws'. unfold up. cbn [fst snd].
  destruct (m w) as [r w'] eqn:E. intros [= -> _]. eapply H, E.
Qed.

End StepsWithResults.

Ltac extends_step Q :=
  first
    [ apply (steps_bind (extends Q) (extends_trans Q)); [ | intros ? ]
    | apply (steps_catch (extends Q) (extends_trans Q)); [ | intros ? ]
    | apply (steps_finally (extends Q) (extends_trans Q))
    | apply (steps_up (extends Q) (extends_refl Q))
    | apply (steps_ret (extends Q) (extends_refl Q))
    | apply (steps_raise (extends Q) (extends_refl Q))
    | apply (steps_lift (extends Q) (extends_refl Q))
    | apply (steps_current (extends Q) (extends_refl Q))
    | apply steps_update; intros ?; apply extends_say ].

Section RunExtends.
Import Py Scrape.
Context {W D E : Type} (br : Browser W D E) (lib : Lib).

Lemma handle_store_extends (driver : D) (city_name : string) (max_rev : Z) (store : Found) :
  labelled store ->
  steps (extends (eq city_name)) (handle_store br lib driver city_name max_rev store).
Proof.
  intros Hlab. unfold handle_store.
  eapply (steps_bind_post _ (extends_trans _));
    [extends_step (eq city_name) | apply up_ensures, scrape_reviews_parsed |].
  intros s Hs.
  eapply (steps_bind_post _ (extends_trans _) _ _ (fun zone => In zone Zone.labels));
    [extends_step (eq city_name) | |].
  { apply ensures_lift. intros zone Hz.
    destruct (classify_zone_floats (s_lat s) (s_lng s)
                (guess_region (if String.eqb (s_address s) "" then city_name
                               else s_address s))) as (z & Ez & Hin).
    rewrite Ez in Hz. now injection Hz as <-. }
  intros zone Hzone. apply steps_update. intros st.
  set (name := if String.eqb (s_name s) "" then found_name store else s_name s).
  assert (Hname : name <> "").
  { unfold name. destruct (String.eqb_spec (s_name s) ""); [now apply labelled_named | assumption]. }
  pose proof (number_reviews_appended name (s_address s)
                (if String.eqb (s_address s) "" then city_name
                 else extract_city lib (s_address s))
                zone
                (guess_region (if String.eqb (s_address s) "" then city_name
                               else s_address s))
                (s_lat s) (s_lng s) city_name (s_reviews s) Hs Hname Hzone (counter st))
    as Hnum.
  cbn zeta in Hnum.
  destruct (number_reviews _ _ _ _ _ _ _ _ _ _) as [reviews c'].
  cbn [fst snd] in Hnum. destruct Hnum as (Hlen & -> & Happ).
  exists reviews. cbn. split; [reflexivity|]. split; [now rewrite Hlen | exact Happ].
Qed.

Lemma handle_stores_extends (driver : D) (city_name : string) (max_rev : Z)
    (stores : list Found) :
  Forall labelled stores ->
  forall i n, steps (extends (eq city_name))
                    (handle_stores br lib driver city_name max_rev i n stores).
Proof.
  intros Hall. induction Hall as [|store rest Hstore Hrest IH]; intros i n; simpl.
  - extends_step (eq city_name).
  - extends_step (eq city_name); [extends_step (eq city_name)|].
    extends_step (eq city_name).
    + extends_step (eq city_name).
      * extends_step (eq city_name); [now apply handle_store_extends|].
        extends_step (eq city_name).
      * extends_step (eq city_name); [extends_step (eq city_name)|].
        destruct (PyStr.contains _ _); repeat extends_step (eq city_name).
    + destruct a0; [extends_step (eq city_name) | apply IH].
Qed.

Lemma handle_city_extends (headless : bool) (max_rev : Z) (city : string * float * float) :
  steps (extends (eq (fst (fst city)))) (handle_city br lib headless max_rev city).
Proof.
  destruct city as [[city_name city_lat] city_lng]. cbn [fst]. intros ws. unfold handle_city.
  pose proof (steps_up (extends (eq city_name)) (extends_refl _) (make_driver br headless) ws)
    as Hm.
  destruct (up (make_driver br headless) ws) as [[driver|e] ws']; simpl in Hm.
  - eapply extends_trans; [exact Hm|].
    match goal with |- extends _ _ (snd (snd (?c ws'))) =>
      assert (Hc : steps (extends (eq city_name)) c) end.
    { extends_step (eq city_name).
      - extends_step (eq city_name); [|extends_step (eq city_name)].
        eapply (steps_bind_post _ (extends_trans _));
          [extends_step (eq city_name) | apply up_ensures, find_stores_kept |].
        intros stores (Hlab & _). now apply handle_stores_extends.
      - extends_step (eq city_name); extends_step (eq city_name). }
    apply Hc.
  - eapply extends_trans; [exact Hm|]. apply extends_say.
Qed.

Lemma handle_cities_extends (headless : bool) (max_rev : Z) (done_cities : gset string)
    (cities : list (string * float * float)) :
  steps (extends (pending done_cities cities))
        (handle_cities br lib headless max_rev done_cities cities).
Proof.
  induction cities as [|city rest IH]; cbn [handle_cities].
  - extends_step (pending done_cities []).
  - set (Q := pending done_cities (city :: rest)).
    assert (Hrest : forall c, pending done_cities rest c -> Q c).
    { intros c [Hin Hout]. split; [right; exact Hin | exact Hout]. }
    extends_step Q.
    + destruct (decide _) as [Hin|Hout]; [extends_step Q|].
      extends_step Q; [extends_step Q|].
      extends_step Q.
      * intros ws. eapply extends_weaken; [|apply handle_city_extends].
        intros c <-. split; [left; reflexivity | exact Hout].
      * apply steps_update. intros st. now apply extends_same.
    + intros ws. eapply extends_weaken; [exact Hrest | apply IH].
Qed.

Lemma final_stats_extends (Q : string -> Prop) : steps (W := W) (extends Q) final_stats.
Proof.
  unfold final_stats. extends_step Q; [extends_step Q|].
  destruct (all_reviews a); [extends_step Q|].
  destruct (negb _); [extends_step Q|].
  destruct (_ || _); extends_step Q.
Qed.

(** What a whole run does to the batch that was loaded. *)
Lemma main_extends (argv : list string) (file : File) (w : W) :
  extends (pending (snd (load_existing file)) CITIES) (initial file)
          (snd (snd (main br lib argv file w))).
Proof.
  unfold main.
  set (Q := pending (snd (load_existing file)) CITIES).
  assert (H : steps (extends Q)
                (handle_cities br lib (parse_headless argv) (parse_max lib argv 50)
                   (snd (load_existing file)) CITIES ;;; final_stats)).
  { extends_step Q; [apply handle_cities_extends | apply final_stats_extends]. }
  apply (H (w, initial file)).
Qed.

End RunExtends.

Section FileFacts.
Import Py Scrape.

Lemma keeps_file_refl (st : State) : keeps_file st st.
Proof. reflexivity. Qed.

Lemma keeps_file_trans (a b c : State) : keeps_file a b -> keeps_file b c -> keeps_file a c.
Proof. unfold keeps_file. congruence. Qed.

Lemma save_all_empty (str_of : val -> string) (file : File) : save_all str_of [] file = file.
Proof. reflexivity. Qed.

Lemma save_all_twice (str_of : val -> string) (reviews : list review) (f g : File) :
  reviews <> [] -> save_all str_of reviews f = save_all str_of reviews g.
Proof. intros H. now rewrite !save_all_content. Qed.

End FileFacts.

Ltac file_step :=
  first
    [ apply (steps_bind keeps_file keeps_file_trans); [ | intros ? ]
    | apply (steps_catch keeps_file keeps_file_trans); [ | intros ? ]
    | apply (steps_finally keeps_file keeps_file_trans)
    | apply (steps_up keeps_file keeps_file_refl)
    | apply (steps_ret keeps_file keeps_file_refl)
    | apply (steps_raise keeps_file keeps_file_refl)
    | apply (steps_lift keeps_file keeps_file_refl)
    | apply (steps_current keeps_file keeps_file_refl)
    | apply steps_update; intros ?; reflexivity ].

Section RunFile.
Import Py Scrape.
Context {W D E : Type} (br : Browser W D E) (lib : Lib).

Lemma handle_store_keeps_file (driver : D) (city_name : string) (max_rev : Z)
    (store : Found) :
  steps keeps_file (handle_store br lib driver city_name max_rev store).
Proof.
  unfold handle_store. repeat file_step.
  apply steps_update. intros st.
  destruct (number_reviews _ _ _ _ _ _ _ _ _ _) as [reviews c']. reflexivity.
Qed.

Lemma handle_stores_keeps_file (driver : D) (city_name : string) (max_rev : Z)
    (stores : list Found) :
  forall i n, steps keeps_file (handle_stores br lib driver city_name max_rev i n stores).
Proof.
  induction stores as [|store rest IH]; intros i n; simpl.
  - file_step.
  - file_step; [file_step|].
    file_step.
    + file_step; [file_step; [apply handle_store_keeps_file | file_step]|].
      file_step; [file_step|].
      destruct (PyStr.contains _ _); repeat file_step.
    + destruct a0; [file_step | apply IH].
Qed.

Lemma handle_city_keeps_file (headless : bool) (max_rev : Z) (city : string * float * float) :
  steps keeps_file (handle_city br lib headless max_rev city).
Proof.
  destruct city as [[city_name city_lat] city_lng]. intros ws. unfold handle_city.
  pose proof (steps_up keeps_file keeps_file_refl (make_driver br headless) ws) as Hm.
  destruct (up (make_driver br headless) ws) as [[driver|e] ws']; simpl in Hm.
  - eapply keeps_file_trans; [exact Hm|].
    match goal with |- keeps_file _ (snd (snd (?c ws'))) =>
      assert (Hc : steps keeps_file c) end.
    { file_step.
      - file_step; [|file_step].
        file_step; [file_step|]. apply handle_stores_keeps_file.
      - file_step; file_step. }
    apply Hc.
  - eapply keeps_file_trans; [exact Hm|]. reflexivity.
Qed.

(** The loop over the units and the output file. *)
Lemma handle_cities_saved (headless : bool) (max_rev : Z) (done_cities : gset string)
    (cities : list (string * float * float)) :
  forall ws,
    let st' := snd (snd (handle_cities br lib headless max_rev done_cities cities ws)) in
    saved lib (snd ws) st'
    /\ ((forall c, ~ pending done_cities cities c) ->
        file st' = file (snd ws) /\ all_reviews st' = all_reviews (snd ws))
    /\ ((exists c, pending done_cities cities c) ->
        file st' = save_all (str_of lib) (all_reviews st') (file (snd ws))).
Proof.
  induction cities as [|city rest IH]; intros ws; cbn zeta.
  - cbn. split; [split; [tauto | left; split; reflexivity]|].
    split; [intros _; split; reflexivity|]. intros (c & [] & _).
  - destruct (decide (fst (fst city) ∈ done_cities)) as [Hin|Hout].
    + rewrite (handle_cities_skip br lib headless max_rev done_cities city rest ws Hin).
      specialize (IH (fst ws, say (EvSkip (fst (fst city))) (snd ws))).
      cbn zeta in IH. cbn [snd say file all_reviews] in IH.
      destruct IH as (Hs & Hnone & Hsome).
      split; [exact Hs|]. split.
      * intros Hno. apply Hnone. intros c [Hc Hd]. apply (Hno c). split; [right; exact Hc | exact Hd].
      * intros (c & [Hc|Hc] & Hd); [subst c; contradiction|].
        apply Hsome. exists c. split; assumption.
    + set (body := (update (say (EvCity (fst (fst city)))) ;;;
                    handle_city br lib headless max_rev city ;;;
                    update (fun st =>
                      say (EvSaved (length (all_reviews st)))
                        {| all_reviews := all_reviews st; counter := counter st;
                           file := save_all (str_of lib) (all_reviews st) (file st);
                           log := log st |}))).
      assert (Hunfold : handle_cities br lib headless max_rev done_cities (city :: rest) ws
                        = bind body (fun _ => handle_cities br lib headless max_rev
                                                done_cities rest) ws).
      { cbn [handle_cities]. destruct (decide _); [contradiction | reflexivity]. }
      rewrite Hunfold. clear Hunfold.
      assert (Hret : returns body).
      { apply returns_bind; [apply returns_update|]. intros _.
        apply returns_bind; [apply handle_city_returns|]. intros _. apply returns_update. }
      assert (Hbody : (all_reviews (snd (snd (body ws))) = [] -> all_reviews (snd ws) = [])
                      /\ file (snd (snd (body ws)))
                         = save_all (str_of lib) (all_reviews (snd (snd (body ws))))
                             (file (snd ws))).
      { set (ws1 := (fst ws, say (EvCity (fst (fst city))) (snd ws))).
        pose proof (handle_city_keeps_file headless max_rev city ws1) as Hk.
        pose proof (handle_city_extends br lib headless max_rev city ws1) as (new & Hn & _).
        destruct (handle_city_returns br lib headless max_rev city ws1) as [[] Hr].
        change (body ws)
          with (bind (handle_city br lib headless max_rev city)
                  (fun _ => update (fun st =>
                     say (EvSaved (length (all_reviews st)))
                       {| all_reviews := all_reviews st; counter := counter st;
                          file := save_all (str_of lib) (all_reviews st) (file st);
                          log := log st |})) ws1).
        unfold bind. destruct (handle_city br lib headless max_rev city ws1) as [[[]|e] ws2];
          simpl in Hr; [|discriminate].
        cbn [snd] in Hk, Hn. unfold keeps_file in Hk. unfold update.
        cbn [fst snd say file all_reviews]. rewrite Hk, Hn. unfold ws1.
        cbn [snd say file all_reviews]. split; [|reflexivity].
        intros Hnil. now apply app_eq_nil in Hnil. }
      destruct (bind_returns body
                  (fun _ => handle_cities br lib headless max_rev done_cities rest)
                  ws Hret) as [[] Hb].
      rewrite Hb. specialize (IH (snd (body ws))). cbn zeta in IH.
      destruct IH as ((Hmono & Hcase) & _ & _). destruct Hbody as [Hmono0 Hfile0].
      set (st2 := snd (snd (body ws))) in *.
      set (st' := snd (snd (handle_cities br lib headless max_rev done_cities rest
                              (snd (body ws))))) in *.
      assert (Hright : file st' = save_all (str_of lib) (all_reviews st') (file (snd ws))).
      { destruct Hcase as [[Hf Hr]|Hf].
        - rewrite Hf, Hr. exact Hfile0.
        - rewrite Hf, Hfile0. destruct (all_reviews st') as [|r rs] eqn:Er.
          + rewrite (Hmono eq_refl). reflexivity.
          + apply save_all_twice. discriminate. }
      split; [split; [auto | right; exact Hright]|].
      split; [|intros _; exact Hright].
      intros Hno. exfalso. apply (Hno (fst (fst city))). split; [left; reflexivity | exact Hout].
Qed.

Lemma final_stats_same :
  steps (W := W) (fun a b => file b = file a /\ all_reviews b = all_reviews a) final_stats.
Proof.
  intros ws. unfold final_stats, bind, current. cbn [fst snd].
  destruct (all_reviews (snd ws)) eqn:Er; [unfold update; cbn; now rewrite Er|].
  destruct (negb _); [cbn; now rewrite Er|].
  destruct (_ || _); cbn; now rewrite Er.
Qed.

(** What a whole run does to the output file. *)
Lemma main_saved (argv : list string) (file0 : File) (w : W) :
  let st' := snd (snd (main br lib argv file0 w)) in
  ((forall c, ~ pending (snd (load_existing file0)) CITIES c) ->
   file st' = file0 /\ all_reviews st' = fst (load_existing file0))
  /\ ((exists c, pending (snd (load_existing file0)) CITIES c) ->
      file st' = save_all (str_of lib) (all_reviews st') file0).
Proof.
  cbn zeta. unfold main.
  set (loop := handle_cities br lib (parse_headless argv) (parse_max lib argv 50)
                 (snd (load_existing file0)) CITIES).
  pose proof (handle_cities_saved (parse_headless argv) (parse_max lib argv 50)
                (snd (load_existing file0)) CITIES (w, initial file0)) as H.
  cbn zeta in H. fold loop in H.
  destruct (handle_cities_outline br lib (parse_headless argv) (parse_max lib argv 50)
              (snd (load_existing file0)) CITIES (w, initial file0)) as [Hok _].
  fold loop in Hok. unfold bind.
  destruct (loop (w, initial file0)) as [[[]|e] ws']; simpl in Hok; [|discriminate].
  destruct (final_stats_same ws') as [Hf Hr]. rewrite Hf, Hr.
  cbn [snd] in H.
  assert (Hi : file (initial file0) = file0 /\ all_reviews (initial file0) = fst (load_existing file0)).
  { unfold initial. destruct (load_existing file0) as [existing d]. split; reflexivity. }
  destruct Hi as [Hi1 Hi2]. rewrite Hi1, Hi2 in H. destruct H as (_ & Hnone & Hsome).
  split; assumption.
Qed.

End RunFile.

Section RoundTrip.
Import Py Scrape.
Variable str_of : val -> string.

Lemma reloaded_lookup (r : review) (f : string) :
  In f FIELDS ->
  reloaded str_of r !! f = Some (Str (cell str_of (default (Str "") (r !! f)))).
Proof.
  intros Hf. unfold reloaded, row_dict, row_of, FIELDS in *.
  cbn [map length Nat.sub repeat app zip zip_with fold_left fst snd].
  cbn [In] in Hf.
  repeat (destruct Hf as [<-|Hf];
          [now rewrite ?lookup_insert_ne by discriminate; rewrite lookup_insert|]).
  contradiction.
Qed.

Lemma reloaded_fields (r : review) : dom (reloaded str_of r) = list_to_set FIELDS.
Proof.
  unfold reloaded, row_dict, row_of, FIELDS.
  cbn [map length Nat.sub repeat app zip zip_with fold_left fst snd].
  rewrite !dom_insert_L, dom_empty_L. apply set_eq. intros k. set_solver.
Qed.

Lemma cell_str (s : string) : cell str_of (Str s) = s.
Proof. reflexivity. Qed.

(** Writing what was read back writes the same row. *)
Lemma row_of_reloaded (r : review) :
  row_of str_of (reloaded str_of r) = row_of str_of r.
Proof.
  unfold row_of. apply map_ext_in. intros f Hf.
  now rewrite (reloaded_lookup r f Hf).
Qed.

Lemma row_of_cons (r : review) : exists c row, row_of str_of r = c :: row.
Proof. unfold row_of, FIELDS. cbn [map]. eexists _, _. reflexivity. Qed.

Lemma read_rows_saved (reviews : list review) :
  forall (existing : list review) (done_cities : gset string),
    fst (read_rows FIELDS (map (row_of str_of) reviews) existing done_cities)
    = existing ++ map (reloaded str_of) reviews
    /\ forall c,
         c ∈ snd (read_rows FIELDS (map (row_of str_of) reviews) existing done_cities)
         <-> (c ∈ done_cities
              \/ exists r, In r reviews
                           /\ cell str_of (default (Str "") (r !! "search_city")) = c).
Proof.
  induction reviews as [|r rest IH]; intros existing done_cities.
  - cbn. split; [now rewrite app_nil_r|]. intros c. split; [auto | intros [H|(r & [] & _)]; exact H].
  - cbn [map]. destruct (row_of_cons r) as (c0 & row & Erow).
    assert (Hstep : read_rows FIELDS (row_of str_of r :: map (row_of str_of) rest)
                      existing done_cities
                    = read_rows FIELDS (map (row_of str_of) rest)
                        (existing ++ [reloaded str_of r])
                        ({[cell str_of (default (Str "") (r !! "search_city"))]}
                         ∪ done_cities)).
    { unfold reloaded. rewrite Erow. cbn [read_rows]. rewrite <- Erow.
      fold (reloaded str_of r).
      rewrite (reloaded_lookup r "search_city") by (unfold FIELDS; simpl; tauto).
      reflexivity. }
    rewrite Hstep. destruct (IH (existing ++ [reloaded str_of r])
                               ({[cell str_of (default (Str "") (r !! "search_city"))]}
                                ∪ done_cities)) as [H1 H2].
    split; [rewrite H1, <- app_assoc; reflexivity|].
    intros c. rewrite H2, elem_of_union, elem_of_singleton. split.
    + intros [[->|H]|(r' & Hr' & Hc)]; [right; exists r; split; [left|]; reflexivity
                                        | left; exact H
                                        | right; exists r'; split; [right|]; assumption].
    + intros [H|(r' & [<-|Hr'] & Hc)]; [left; right; exact H
                                        | left; left; now symmetry
                                        | right; exists r'; split; assumption].
Qed.

Lemma load_existing_saved (reviews : list review) :
  fst (load_existing (Some (FIELDS :: map (row_of str_of) reviews)))
  = map (reloaded str_of) reviews
  /\ forall c,
       c ∈ snd (load_existing (Some (FIELDS :: map (row_of str_of) reviews)))
       <-> exists r, In r reviews
                     /\ cell str_of (default (Str "") (r !! "search_city")) = c.
Proof.
  unfold load_existing. destruct (read_rows_saved reviews [] ∅) as [H1 H2].
  split; [exact H1|]. intros c. rewrite H2. split; [|auto].
  intros [H|H]; [now apply not_elem_of_empty in H | exact H].
Qed.

End RoundTrip.

Section NumberedFacts.
Import Py Scrape.

Lemma numbered_ids (reviews : list review) :
  numbered reviews ->
  map (fun r : review => r !! "review_id") reviews
  = map (fun k => Some (Str (review_id (Z.of_nat k + 1)))) (seq 0 (length reviews)).
Proof.
  intros H. apply list_eq. intros k. rewrite !list_lookup_fmap.
  destruct (reviews !! k) as [r|] eqn:Er.
  - rewrite (lookup_seq_lt _ _ _ (lookup_lt_Some _ _ _ Er)). cbn. f_equal.
    now apply H.
  - rewrite lookup_seq_ge by (now apply lookup_ge_None). reflexivity.
Qed.

Lemma numbered_distinct (reviews : list review) :
  numbered reviews -> NoDup (map (fun r : review => r !! "review_id") reviews).
Proof.
  intros H. rewrite (numbered_ids reviews H).
  apply NoDup_fmap_2_strong; [|apply NoDup_seq].
  intros i j _ _ [= Hij]. apply fmt_d_inj in Hij; lia.
Qed.

Lemma numbered_reloaded (str_of : val -> string) (reviews : list review) :
  numbered reviews -> numbered (map (reloaded str_of) reviews).
Proof.
  intros H k r Hk. rewrite list_lookup_fmap in Hk.
  destruct (reviews !! k) as [r0|] eqn:E; [|discriminate]. injection Hk as <-.
  rewrite reloaded_lookup by (unfold FIELDS; simpl; tauto).
  now rewrite (H k r0 E).
Qed.

Lemma extends_numbered (Q : string -> Prop) (st st' : State) :
  counter st = Z.of_nat (length (all_reviews st)) ->
  extends Q st st' ->
  counter st' = Z.of_nat (length (all_reviews st'))
  /\ (numbered (all_reviews st) -> numbered (all_reviews st')).
Proof.
  intros Hc (new & Hn & Hc' & Hnew). split; [rewrite Hc', Hc, Hn, length_app; lia|].
  intros Hnum k r Hk. rewrite Hn in Hk. apply lookup_app_Some in Hk as [Hk|[Hlen Hk]].
  - now apply Hnum.
  - apply Hnew in Hk as (_ & Hid & _). rewrite Hid, Hc. do 3 f_equal. lia.
Qed.

Lemma initial_counter (file : File) :
  counter (initial file) = Z.of_nat (length (all_reviews (initial file)))
  /\ all_reviews (initial file) = fst (load_existing file)
  /\ Scrape.file (initial file) = file.
Proof. unfold initial. destruct (load_existing file) as [existing d]. auto. Qed.

End NumberedFacts.

(* ===================================================================== *)
(** ** Orchestrator of [scrape_google_maps.py]: one unit, one store *)
(* ===================================================================== *)

Section UnitFacts.
Import Py Scrape.
Context {W D E : Type} (br : Browser W D E) (lib : Lib).

(** A unit that is not done is visited, then the batch is saved, then the
    loop goes on. *)
Lemma handle_cities_pending (headless : bool) (max_rev : Z) (done_cities : gset string)
    (city : string * float * float) (rest : list (string * float * float)) (ws : W * State) :
  fst (fst city) ∉ done_cities ->
  let ws2 := snd (handle_city br lib headless max_rev city
                    (fst ws, say (EvCity (fst (fst city))) (snd ws))) in
  handle_cities br lib headless max_rev done_cities (city :: rest) ws
  = handle_cities br lib headless max_rev done_cities rest
      (fst ws2,
       say (EvSaved (length (all_reviews (snd ws2))))
         {| all_reviews := all_reviews (snd ws2); counter := counter (snd ws2);
            file := save_all (str_of lib) (all_reviews (snd ws2)) (file (snd ws2));
            log := log (snd ws2) |}).
Proof.
  intros Hout ws2. cbn [handle_cities]. destruct (decide _); [contradiction|].
  unfold bind at 1. unfold bind at 1. unfold update at 1. cbn [fst snd].
  unfold bind at 1. subst ws2.
  destruct (handle_city_returns br lib headless max_rev city
              (fst ws, say (EvCity (fst (fst city))) (snd ws))) as [[] Hr].
  destruct (handle_city br lib headless max_rev city
              (fst ws, say (EvCity (fst (fst city))) (snd ws))) as [[[]|e] ws2];
    simpl in Hr; [|discriminate].
  reflexivity.
Qed.



(** The search of the unit returned: every store is handled, then the
    driver is quit. *)
Lemma handle_city_found (headless : bool) (max_rev : Z) (name : string)
    (lat lng : float) (ws : W * State) (driver : D) (w1 w2 : W) (stores : list Found) :
  make_driver br headless (fst ws) = (Ok driver, w1) ->
  find_stores br lib driver name lat lng w1 = (Ok stores, w2) ->
  let ws3 := snd (handle_stores br lib driver name max_rev 0 (length stores) stores
                    (w2, snd ws)) in
  handle_city br lib headless max_rev (name, lat, lng) ws
  = (Ok tt, (snd (quit br driver (fst ws3)), snd ws3)).
Proof.
  intros Hm Hf ws3. unfold handle_city, up at 1. rewrite Hm.
  unfold finally, catch at 1, bind at 1, up at 1. cbn [fst snd]. rewrite Hf.
  subst ws3.
  destruct (handle_stores_returns br lib driver name max_rev stores 0 (length stores)
              (w2, snd ws)) as [[] Hr].
  destruct (handle_stores br lib driver name max_rev 0 (length stores) stores (w2, snd ws))
    as [[[]|e] ws3]; simpl in Hr; [|discriminate].
  unfold catch, up. cbn [fst snd].
  destruct (quit br driver (fst ws3)) as [[[]|e'] w4]; reflexivity.
Qed.

(** The reviews of a store that was scraped are numbered from the counter
    on, annotated and appended to the batch. *)
Lemma handle_store_appends (driver : D) (city_name : string) (max_rev : Z) (store : Found)
    (ws : W * State) (w' : W) (s : Scraped) :
  scrape_reviews br lib driver (found_href store) max_rev (fst ws) = (Ok s, w') ->
  let name := if String.eqb (s_name s) "" then found_name store else s_name s in
  let region := guess_region (if String.eqb (s_address s) "" then city_name
                              else s_address s) in
  let scity := if String.eqb (s_address s) "" then city_name
               else extract_city lib (s_address s) in
  exists zone : string,
    classify_zone (Float (s_lat s)) (Float (s_lng s)) region = Ok zone
    /\ let new := fst (number_reviews name (s_address s) scity zone region (s_lat s)
                         (s_lng s) city_name (s_reviews s) (counter (snd ws))) in
       length new = length (s_reviews s)
       /\ handle_store br lib driver city_name max_rev store ws
          = (Ok tt,
             (w', say (EvReviews (length new))
                    {| all_reviews := all_reviews (snd ws) ++ new;
                       counter := (counter (snd ws) + Z.of_nat (length new))%Z;
                       file := file (snd ws); log := log (snd ws) |})).
Proof.
  intros Hs name region scity.
  destruct (classify_zone_floats (s_lat s) (s_lng s) region) as (zone & Hz & _).
  exists zone. split; [exact Hz|]. cbn zeta.
  assert (Hnum : forall (reviews : list review) (c : Z),
            length (fst (number_reviews name (s_address s) scity zone region (s_lat s)
                           (s_lng s) city_name reviews c)) = length reviews
            /\ snd (number_reviews name (s_address s) scity zone region (s_lat s)
                      (s_lng s) city_name reviews c) = (c + Z.of_nat (length reviews))%Z).
  { induction reviews as [|r reviews IH]; intros c; cbn [number_reviews].
    - cbn. split; [reflexivity | lia].
    - specialize (IH (c + 1)%Z).
      destruct (number_reviews name (s_address s) scity zone region (s_lat s) (s_lng s)
                  city_name reviews (c + 1)) as [rest' c'].
      cbn [fst snd length] in *. destruct IH as [-> ->]. split; [reflexivity | lia]. }
  destruct (Hnum (s_reviews s) (counter (snd ws))) as [Hlen Hcnt].
  split; [exact Hlen|].
  unfold handle_store, bind at 1, up at 1. rewrite Hs.
  fold name. fold region. unfold bind at 1, lift at 1. rewrite Hz. fold scity.
  unfold update. cbn [fst snd].
  destruct (number_reviews name (s_address s) scity zone region (s_lat s) (s_lng s)
              city_name (s_reviews s) (counter (snd ws))) as [new c'] eqn:En.
  cbn [fst snd] in *. rewrite Hcnt, Hlen. reflexivity.
Qed.

(** A store that was scraped: the loop goes on with the next one. *)
Lemma handle_stores_next (driver : D) (city_name : string) (max_rev : Z) (i n : nat)
    (store : Found) (rest : list Found) (ws : W * State) (ws' : W * State) :
  handle_store br lib driver city_name max_rev store
    (fst ws, say (EvStore (S i) n (found_name store)) (snd ws)) = (Ok tt, ws') ->
  handle_stores br lib driver city_name max_rev i n (store :: rest) ws
  = handle_stores br lib driver city_name max_rev (S i) n rest ws'.
Proof.
  intros H. cbn [handle_stores].
  unfold bind at 1, update at 1. cbn [fst snd].
  unfold bind at 1, catch at 1, bind at 1. rewrite H. reflexivity.
Qed.


End UnitFacts.

(* ===================================================================== *)
(** ** Orchestrator of [scrape_google_maps.py]: the done set of the next run *)
(* ===================================================================== *)

Section LoadedFacts.
Import Py Scrape.

Lemma fold_insert_cells (kvs : list (string * val)) :
  forall m : review,
    text_cells m -> Forall (fun kv => text_cell (snd kv)) kvs ->
    text_cells (fold_left (fun m kv => <[fst kv := snd kv]> m) kvs m).
Proof.
  induction kvs as [|[k0 v0] kvs IH]; intros m Hm Hall; cbn [fold_left]; [exact Hm|].
  inversion Hall as [|? ? H0 Hrest]; subst. apply IH; [|exact Hrest].
  intros k v H. cbn [fst snd] in H.
  apply lookup_insert_Some in H as [[_ <-]|[_ H]]; [exact H0 | eapply Hm, H].
Qed.

Lemma zip_cells (header : list string) :
  forall cells : list val,
    Forall text_cell cells -> Forall (fun kv : string * val => text_cell (snd kv))
                                     (zip header cells).
Proof.
  induction header as [|h header IH]; intros [|c cells] H; cbn; try constructor.
  - now inversion H.
  - apply IH. now inversion H.
Qed.

(** A row read by [csv.DictReader] holds strings, and [None] where the row
    was short. *)
Lemma row_dict_cells (header row : list string) : text_cells (row_dict header row).
Proof.
  unfold row_dict. apply fold_insert_cells.
  - intros k v H. rewrite lookup_empty in H. discriminate.
  - apply zip_cells. apply Forall_app. split.
    + apply Forall_forall. intros v Hv. apply list_elem_of_In, in_map_iff in Hv as (s & <- & _).
      right. now exists s.
    + apply Forall_forall. intros v Hv. apply list_elem_of_In, repeat_spec in Hv. now left.
Qed.

Lemma read_rows_cells (header : list string) (rows : list (list string)) :
  forall existing done_cities,
    Forall text_cells existing ->
    Forall text_cells (fst (read_rows header rows existing done_cities)).
Proof.
  induction rows as [|row rows IH]; intros existing done_cities H; [exact H|].
  destruct row as [|c row]; [apply IH, H|].
  cbn [read_rows]. apply IH. apply Forall_app. split; [exact H|].
  constructor; [apply row_dict_cells | constructor].
Qed.

Lemma load_existing_cells (file : File) : Forall text_cells (fst (load_existing file)).
Proof.
  destruct file as [[|header rows]|]; cbn; try constructor.
  apply read_rows_cells. constructor.
Qed.

End LoadedFacts.

Section NextRun.
Import Py Scrape.
Context {W D E : Type} (br : Browser W D E) (lib : Lib).

(** Every unit is done, or some unit is pending. *)
Lemma pending_or_not (done_cities : gset string) (cities : list (string * float * float)) :
  (exists c, pending done_cities cities c) \/ (forall c, ~ pending done_cities cities c).
Proof.
  destruct (decide (Exists (fun city : string * float * float =>
                              fst (fst city) ∉ done_cities) cities)) as [Hex|Hno].
  - left. apply Exists_exists in Hex as (city & Hin & Hout).
    exists (fst (fst city)). split; [|exact Hout].
    apply in_map_iff. exists city. split; [reflexivity | now apply list_elem_of_In].
  - right. intros c [Hin Hout]. apply Hno. apply Exists_exists.
    apply in_map_iff in Hin as (city & <- & Hin). exists city.
    split; [now apply list_elem_of_In | exact Hout].
Qed.

(** The units have names. *)
Lemma cities_named (c : string) :
  In c (map (fun city : string * float * float => fst (fst city)) CITIES) -> c <> "".
Proof. intros Hin ->. cbn in Hin. intuition discriminate. Qed.

(** The done set the next run reads: the done set of this run and the units
    of the reviews this run appended. *)
Lemma main_next_done (argv : list string) (file0 : File) (w : W) :
  let st' := snd (snd (main br lib argv file0 w)) in
  exists new : list review,
    all_reviews st' = fst (load_existing file0) ++ new
    /\ (forall r, In r new ->
          exists c, r !! "search_city" = Some (Str c)
                    /\ pending (snd (load_existing file0)) CITIES c)
    /\ (forall c, c <> "" ->
          (c ∈ snd (load_existing (file st'))
           <-> (c ∈ snd (load_existing file0)
                \/ exists r, In r new /\ r !! "search_city" = Some (Str c))))
    /\ (forall c, pending (snd (load_existing file0)) CITIES c ->
          (c ∈ snd (load_existing (file st'))
           <-> exists r, In r new /\ r !! "search_city" = Some (Str c))).
Proof.
  intros st'.
  destruct (initial_counter file0) as (_ & Hr & _).
  destruct (main_extends br lib argv file0 w) as (new & Hn & _ & Hnew). fold st' in Hn.
  rewrite Hr in Hn. exists new. split; [exact Hn|].
  assert (Hcity : forall r, In r new ->
            exists c, r !! "search_city" = Some (Str c)
                      /\ pending (snd (load_existing file0)) CITIES c).
  { intros r Hin. apply list_elem_of_In, list_elem_of_lookup in Hin as [k Hk].
    destruct (Hnew k r Hk) as (_ & _ & _ & _ & _ & _ & Hc). exact Hc. }
  split; [exact Hcity|].
  assert (Hnext : forall c, c <> "" ->
            (c ∈ snd (load_existing (file st'))
             <-> (c ∈ snd (load_existing file0)
                  \/ exists r, In r new /\ r !! "search_city" = Some (Str c)))).
  2:{ split; [exact Hnext|]. intros c [Hin Hout].
      rewrite (Hnext c (cities_named c Hin)). split; [|auto].
      intros [Hd|H]; [contradiction | exact H]. }
  intros c Hc.
  destruct (main_saved br lib argv file0 w) as [Hnone Hsome]. fold st' in Hnone, Hsome.
  assert (Hsame : file st' = file0 -> new = [] ->
            (c ∈ snd (load_existing (file st'))
             <-> (c ∈ snd (load_existing file0)
                  \/ exists r, In r new /\ r !! "search_city" = Some (Str c)))).
  { intros -> ->. split; [auto | intros [H|(r & [] & _)]; exact H]. }
  destruct (pending_or_not (snd (load_existing file0)) CITIES) as [Hex|Hno].
  - specialize (Hsome Hex). destruct (all_reviews st') as [|r0 rs] eqn:Er.
    + symmetry in Hn. apply app_eq_nil in Hn as [_ Hn0].
      apply Hsame; [|exact Hn0]. rewrite Hsome. reflexivity.
    + rewrite Hsome, save_all_content by discriminate.
      rewrite (proj2 (load_existing_saved (str_of lib) (r0 :: rs)) c). rewrite Hn.
      split.
      * intros (r & Hin & Hcell). apply in_app_or in Hin as [Hin|Hin].
        -- left. apply load_existing_names. exists r.
           split; [now apply list_elem_of_In|].
           pose proof (load_existing_cells file0) as Hall. rewrite Forall_forall in Hall.
           specialize (Hall r (proj2 (list_elem_of_In _ _) Hin)).
           destruct (r !! "search_city") as [v|] eqn:Ev; cbn in Hcell;
             [|now contradiction Hc].
           destruct (Hall _ _ Ev) as [->|[s ->]]; cbn in Hcell;
             [now contradiction Hc | now subst s].
        -- right. exists r. split; [exact Hin|].
           destruct (Hcity r Hin) as (c' & Hc' & _). rewrite Hc' in Hcell. cbn in Hcell.
           now subst c'.
      * intros [Hd|(r & Hin & Hs)].
        -- apply load_existing_names in Hd as (r & Hin & Hs). exists r.
           split; [apply in_or_app; left; now apply list_elem_of_In|].
           now rewrite Hs.
        -- exists r. split; [apply in_or_app; now right|]. now rewrite Hs.
  - destruct (Hnone Hno) as [Hf Ha]. apply Hsame; [exact Hf|].
    rewrite Ha in Hn. rewrite <- (app_nil_r (fst (load_existing file0))) in Hn at 1.
    apply app_inv_head in Hn. now symmetry.
Qed.

End NextRun.

(* ===================================================================== *)
(** ** Remote-API adapter: what is caught and what is not *)
(* ===================================================================== *)

Section RemoteAborts.
Import Py Collect.
Context {W : Type} (http : Http W) (key : string) (re_city : string -> option string).






End RemoteAborts.

Section RemoteMain.
Import Py Collect.
Context {W : Type} (http : Http W) (re_city : string -> option string) (rng : Rng).


End RemoteMain.

(* ===================================================================== *)
(** ** Resuming a run, and failures during a run *)
(* ===================================================================== *)

Section AnnotatedUnit.
Import Py Scrape.

(** Every review numbered for a store carries the unit that was searched. *)
Lemma number_reviews_unit (name address scity zone region : string) (lat lng : float)
    (city_name : string) (reviews : list review) :
  forall counter : Z,
    Forall (fun r : review => r !! "search_city" = Some (Str city_name))
           (fst (number_reviews name address scity zone region lat lng city_name
                   reviews counter)).
Proof.
  induction reviews as [|r reviews IH]; intros counter; cbn [number_reviews].
  - constructor.
  - specialize (IH (counter + 1)%Z).
    destruct (number_reviews name address scity zone region lat lng city_name reviews
                (counter + 1)) as [rest' c'].
    cbn [fst] in *. constructor; [|exact IH].
    unfold annotate. apply lookup_insert_Some. left. split; reflexivity.
Qed.

End AnnotatedUnit.



(** C2, as the code has it.  The done set read on restart holds exactly the
    units named by the [search_city] field of at least one record read from
    the output file.  [main] visits the units in order.  A unit of the done
    set is skipped: nothing but the log changes.  Any other unit is
    processed: a driver is made, the stores of the unit are searched, every
    store found is scraped and its reviews are appended to the batch with
    the unit as [search_city], the driver is quit; then the whole batch is
    saved.  At the end of a run with a pending unit the file is what
    [save_all] writes for the batch, and the done set of the next run holds
    the done set of this run and the units of the reviews this run appended,
    and no other unit: a unit that was searched and gave no review is
    pending again. *)
Theorem resume_skips_exactly_the_recorded_units :
  (forall (file : Scrape.File) (c : string),
     (c ∈ snd (Scrape.load_existing file))
     <-> (exists r : gmap string Py.val,
            r ∈ fst (Scrape.load_existing file) /\ r !! "search_city" = Some (Py.Str c)))
  /\ (forall (W D E : Type) (br : Scrape.Browser W D E) (lib : Scrape.Lib)
             (argv : list string) (file : Scrape.File) (w : W),
        outline (Scrape.log (snd (snd (Scrape.main br lib argv file w))))
        = expected_outline (snd (Scrape.load_existing file)) Scrape.CITIES)
  /\ (forall (W D E : Type) (br : Scrape.Browser W D E) (lib : Scrape.Lib)
             (headless : bool) (max_rev : Z) (done_cities : gset string)
             (city : string * float * float) (rest : list (string * float * float))
             (ws : W * Scrape.State),
        fst (fst city) ∈ done_cities ->
        Scrape.handle_cities br lib headless max_rev done_cities (city :: rest) ws
        = Scrape.handle_cities br lib headless max_rev done_cities rest
            (fst ws, Scrape.say (Scrape.EvSkip (fst (fst city))) (snd ws)))
  /\ (forall (W D E : Type) (br : Scrape.Browser W D E) (lib : Scrape.Lib)
             (headless : bool) (max_rev : Z) (done_cities : gset string)
             (city : string * float * float) (rest : list (string * float * float))
             (ws : W * Scrape.State),
        fst (fst city) ∉ done_cities ->
        let ws2 := snd (Scrape.handle_city br lib headless max_rev city
                          (fst ws, Scrape.say (Scrape.EvCity (fst (fst city))) (snd ws))) in
        Scrape.handle_cities br lib headless max_rev done_cities (city :: rest) ws
        = Scrape.handle_cities br lib headless max_rev done_cities rest
            (fst ws2,
             Scrape.say (Scrape.EvSaved (length (Scrape.all_reviews (snd ws2))))
               {| Scrape.all_reviews := Scrape.all_reviews (snd ws2);
                  Scrape.counter := Scrape.counter (snd ws2);
                  Scrape.file := Scrape.save_all (Scrape.str_of lib)
                                   (Scrape.all_reviews (snd ws2)) (Scrape.file (snd ws2));
                  Scrape.log := Scrape.log (snd ws2) |}))
  /\ (forall (W D E : Type) (br : Scrape.Browser W D E) (lib : Scrape.Lib)
             (headless : bool) (max_rev : Z) (name : string) (lat lng : float)
             (ws : W * Scrape.State) (driver : D) (w1 w2 : W) (stores : list Scrape.Found),
        Scrape.make_driver br headless (fst ws) = (Py.Ok driver, w1) ->
        Scrape.find_stores br lib driver name lat lng w1 = (Py.Ok stores, w2) ->
        let ws3 := snd (Scrape.handle_stores br lib driver name max_rev 0 (length stores)
                          stores (w2, snd ws)) in
        Scrape.handle_city br lib headless max_rev (name, lat, lng) ws
        = (Py.Ok tt, (snd (Scrape.quit br driver (fst ws3)), snd ws3)))
  /\ (forall (W D E : Type) (br : Scrape.Browser W D E) (lib : Scrape.Lib) (driver : D)
             (city_name : string) (max_rev : Z) (i n : nat) (store : Scrape.Found)
             (rest : list Scrape.Found) (ws : W * Scrape.State) (w' : W)
             (s : Scrape.Scraped),
        Scrape.scrape_reviews br lib driver (Scrape.found_href store) max_rev (fst ws)
        = (Py.Ok s, w') ->
        exists new : list (gmap string Py.val),
          length new = length (Scrape.s_reviews s)
          /\ Forall (fun r : gmap string Py.val =>
                       r !! "search_city" = Some (Py.Str city_name)) new
          /\ Scrape.handle_stores br lib driver city_name max_rev i n (store :: rest) ws
             = Scrape.handle_stores br lib driver city_name max_rev (S i) n rest
                 (w', Scrape.say (Scrape.EvReviews (length new))
                        {| Scrape.all_reviews := Scrape.all_reviews (snd ws) ++ new;
                           Scrape.counter :=
                             (Scrape.counter (snd ws) + Z.of_nat (length new))%Z;
                           Scrape.file := Scrape.file (snd ws);
                           Scrape.log :=
                             Scrape.log (snd ws)
                             ++ [Scrape.EvStore (S i) n (Scrape.found_name store)] |}))
  /\ (forall (W D E : Type) (br : Scrape.Browser W D E) (lib : Scrape.Lib)
             (argv : list string) (file : Scrape.File) (w : W),
        let st' := snd (snd (Scrape.main br lib argv file w)) in
        ((exists c, pending (snd (Scrape.load_existing file)) Scrape.CITIES c) ->
         Scrape.file st'
         = Scrape.save_all (Scrape.str_of lib) (Scrape.all_reviews st') file)
        /\ ((forall c, ~ pending (snd (Scrape.load_existing file)) Scrape.CITIES c) ->
            Scrape.file st' = file
            /\ Scrape.all_reviews st' = fst (Scrape.load_existing file))
        /\ exists new : list (gmap string Py.val),
             Scrape.all_reviews st' = fst (Scrape.load_existing file) ++ new
             /\ (forall r, In r new ->
                   exists c, r !! "search_city" = Some (Py.Str c)
                             /\ pending (snd (Scrape.load_existing file)) Scrape.CITIES c)
             /\ (forall c, c <> "" ->
                   (c ∈ snd (Scrape.load_existing (Scrape.file st'))
                    <-> (c ∈ snd (Scrape.load_existing file)
                         \/ exists r, In r new
                                      /\ r !! "search_city" = Some (Py.Str c))))
             /\ (forall c, pending (snd (Scrape.load_existing file)) Scrape.CITIES c ->
                   (c ∈ snd (Scrape.load_existing (Scrape.file st'))
                    <-> exists r, In r new
                                  /\ r !! "search_city" = Some (Py.Str c)))).
Proof.
  split; [|split; [|split; [|split; [|split; [|split]]]]].
  - intros file c. apply load_existing_names.
  - intros. apply main_outline.
  - intros. now apply handle_cities_skip.
  - intros. now apply handle_cities_pending.
  - intros. eapply handle_city_found; eassumption.
  - intros W D E br lib driver city_name max_rev i n store rest ws w' s Hs.
    destruct (handle_store_appends br lib driver city_name max_rev store
                (fst ws, Scrape.say (Scrape.EvStore (S i) n (Scrape.found_name store))
                           (snd ws)) w' s Hs) as (zone & _ & Hlen & Hstore).
    cbn zeta in Hlen, Hstore. cbn [fst snd] in Hlen, Hstore.
    eexists. split; [exact Hlen|]. split; [apply number_reviews_unit|].
    apply handle_stores_next. exact Hstore.
  - intros W D E br lib argv file w st'.
    destruct (main_saved br lib argv file w) as [Hnone Hsome]. fold st' in Hnone, Hsome.
    split; [exact Hsome|]. split; [exact Hnone|].
    apply (main_next_done br lib argv file w).
Qed.

(** C2 fails as stated: a unit that was searched and gave no result leaves
    no record, so it is not in the done set of the next run, which searches
    it again. *)
Lemma unit_without_results_is_searched_again :
  let first_run := snd (snd (Scrape.main blank_browser plain_lib [] None tt)) in
  let second_run := snd (snd (Scrape.main blank_browser plain_lib [] (Scrape.file first_run) tt)) in
  In (Scrape.EvCity "Paris") (Scrape.log first_run)
  /\ Scrape.all_reviews first_run = []
  /\ Scrape.file first_run = None
  /\ ("Paris" ∉ snd (Scrape.load_existing (Scrape.file first_run)))
  /\ In (Scrape.EvCity "Paris") (Scrape.log second_run).
Proof.
  cbv zeta.
  assert (Hf : Scrape.file (snd (snd (Scrape.main blank_browser plain_lib [] None tt))) = None)
    by (vm_compute; reflexivity).
  split; [vm_compute; left; reflexivity|].
  split; [vm_compute; reflexivity|].
  split; [exact Hf|].
  split.
  - replace (Scrape.file (snd (snd (Scrape.main blank_browser plain_lib [] None tt))))
      with (@None (list (list string))).
    apply not_elem_of_empty.
  - replace (Scrape.file (snd (snd (Scrape.main blank_browser plain_lib [] None tt))))
      with (@None (list (list string))).
    vm_compute. left. reflexivity.
Qed.

(* ===================================================================== *)
(** ** [01_collect_data.py]: further properties *)
(* ===================================================================== *)

(** X1: whenever the deduplicator returns, its output has fingerprints that
    all differ, is not longer than its input, is not empty unless the input
    is, and passes through the deduplicator unchanged. *)
Theorem dedup_output_has_distinct_fingerprints
    (reviews out : list (gmap string Py.val)) :
  Collect.dedup reviews = Py.Ok out ->
  distinct_fingerprints out
  /\ length out <= length reviews
  /\ (reviews <> [] -> out <> [])
  /\ Collect.dedup out = Py.Ok out.
Proof.
  intros H.
  destruct (dedup_loop_distinct reviews ∅ [] [] out) as [Hd Hl];
    [constructor | constructor | | exact H |].
  { intros h. split; [intros Hh; now apply not_elem_of_empty in Hh | intros []]. }
  split; [exact Hd|]. split; [exact Hl|]. split.
  - intros Hne. destruct reviews as [|r reviews]; [contradiction|].
    destruct (dedup_loop_fingerprints _ _ _ _ H) as [fps Hfps].
    rewrite (dedup_spec _ _ Hfps) in H. injection H as <-.
    destruct (dedup_keeps_head r reviews fps Hfps) as [tail ->]. discriminate.
  - destruct Hd as (fps & Hf & Hn). unfold Collect.dedup.
    rewrite (dedup_loop_fresh out fps ∅ [] Hf Hn); [reflexivity|].
    intros h _ Hh. now apply not_elem_of_empty in Hh.
Qed.

Lemma dedup_output_has_distinct_fingerprints_witness :
  let r := two_fields "Tres bon accueil du personnel" "Intersport Rivoli" in
  Collect.dedup [r; r] = Py.Ok [r]
  /\ Collect.dedup [r] = Py.Ok [r].
Proof.
  intros r.
  assert (H : Collect.dedup [r; r] = Py.Ok [r]).
  { rewrite (dedup_pair r r _ _ (two_fields_fingerprint _ _) (two_fields_fingerprint _ _)).
    destruct (decide _) as [_|Hne]; [reflexivity | now contradiction Hne]. }
  split; [exact H|].
  exact (proj2 (proj2 (proj2 (dedup_output_has_distinct_fingerprints [r; r] [r] H)))).
Defined.

(** X2: the deduplicator concatenates the text and the store name of every
    record.  If, for some record of the batch, one of the two is present
    and is not a [str], it raises [TypeError], wherever the record is. *)
Theorem dedup_raises_on_a_field_that_is_no_string
    (reviews : list (gmap string Py.val)) (r : gmap string Py.val) :
  In r reviews ->
  (forall s, Collect.field r "review_text" <> Py.Str s)
  \/ (forall s, Collect.field r "store_name" <> Py.Str s) ->
  exists e : Py.Exn,
    Collect.dedup reviews = Py.Raise e /\ PyStr.starts_with "TypeError" e = true.
Proof.
  intros Hin Hbad. exists "TypeError: can only concatenate str". split; [|reflexivity].
  unfold Collect.dedup.
  apply (dedup_loop_raises reviews r "TypeError: can only concatenate str" Hin).
  unfold Collect.fingerprint, Collect.dedup_key.
  destruct (Collect.field r "review_text") as [| | | |text| |] eqn:Et; try reflexivity.
  destruct (Collect.field r "store_name") as [| | | |store| |] eqn:Es; try reflexivity.
  destruct Hbad as [Hbad|Hbad]; [now contradiction (Hbad text) | now contradiction (Hbad store)].
Qed.

Lemma dedup_raises_on_a_field_that_is_no_string_witness :
  let good := two_fields "Tres bon accueil du personnel" "Intersport Rivoli" in
  let bad : gmap string Py.val := {[ "review_text" := Py.None_ ]} in
  In bad [good; bad]
  /\ exists e : Py.Exn,
       Collect.dedup [good; bad] = Py.Raise e /\ PyStr.starts_with "TypeError" e = true.
Proof.
  intros good bad.
  assert (Hin : In bad [good; bad]) by (right; left; reflexivity).
  split; [exact Hin|].
  apply (dedup_raises_on_a_field_that_is_no_string [good; bad] bad Hin).
  left. intros s. discriminate.
Defined.

(** X3: [find_stores] of the remote-API adapter always returns, and every
    store it returns has a name that mentions Intersport, in any case. *)
Theorem outscraper_find_stores_keeps_intersport {W : Type} (http : Collect.Http W)
    (key query location : string) (limit : Z) (w : W) :
  exists (stores : list Collect.Store) (w' : W),
    Collect.find_stores http key query location limit w = (Py.Ok stores, w')
    /\ Forall listed stores.
Proof.
  destruct (find_stores_listed http key query location limit w) as (stores & w' & E & H).
  exists stores, w'. split; assumption.
Qed.

(** X4: every review [scrape_area] returns has the twelve fields of the
    adapter and no [review_id], a text of at least ten characters, the name
    of a store that mentions Intersport, one of the three zone labels, a
    region of the table of [_region] or [France], and the source
    [outscraper]; and the fingerprints of the reviews it returns all
    differ. *)
Theorem scrape_area_returns_annotated_reviews {W : Type} (http : Collect.Http W)
    (key : string) (re_city : string -> option string) (area : string) (per_store : Z)
    (w w' : W) (revs : list (gmap string Py.val)) :
  Collect.scrape_area http key re_city area per_store w = (Py.Ok revs, w') ->
  Forall area_review revs /\ distinct_fingerprints revs.
Proof. intros H. exact (scrape_area_reviews http key re_city area per_store w revs w' H). Qed.

Lemma scrape_area_returns_annotated_reviews_witness :
  exists (r : gmap string Py.val) (revs : list (gmap string Py.val)),
    Collect.scrape_area (canned_http rated_payload) "secret" (fun _ => None)
      "Paris France" 50 tt = (Py.Ok (r :: revs), tt)
    /\ area_review r.
Proof.
  assert (E : returned_some
                (Collect.scrape_area (canned_http rated_payload) "secret" (fun _ => None)
                   "Paris France" 50 tt) = true) by (vm_compute; reflexivity).
  apply returned_some_spec in E as (r & revs & E). destruct (snd _) in E.
  exists r, revs. split; [exact E|].
  destruct (scrape_area_returns_annotated_reviews _ _ _ _ _ _ _ _ E) as [Hall _].
  now inversion Hall.
Defined.

Section MainRows.
Import Py Collect.
Context {W : Type} (http : Http W) (re_city : string -> option string) (rng : Rng).

(** What [finish] writes after an empty batch is the synthetic batch. *)
Lemma finish_empty_saved (modes modes' : list Mode) (revs : list review) :
  finish rng modes [] = Ok (Saved modes' revs) ->
  modes' = modes ++ [MODE_Simulated]
  /\ generate_simulated rng 25 = Ok revs
  /\ revs <> []
  /\ Forall (fun r : review => dom r = SIMULATED_KEYS) revs.
Proof.
  intros H. destruct (generate_simulated_batch rng) as (sim & Hg & Hne & Hall).
  unfold finish in H. rewrite Hg in H. cbn [mbind result_bind] in H.
  apply write_csv_saved in H as [-> ->].
  split; [reflexivity|]. split; [exact Hg|]. split; [exact Hne|].
  eapply Forall_impl; [exact Hall|]. intros r Hr. apply Hr.
Qed.

(** The rows [main] writes: those of the remote API alone, or the synthetic
    batch. *)
Lemma main_saved_rows (cfg : Config) (w w' : W) (modes : list Mode) (revs : list review) :
  main http re_city rng cfg w = (Ok (Saved modes revs), w') ->
  revs <> []
  /\ ((modes = [MODE_Outscraper] /\ Forall (fun r : review => dom r = OUTSCRAPER_KEYS) revs)
      \/ (last modes = Some MODE_Simulated
          /\ generate_simulated rng 25 = Ok revs
          /\ Forall (fun r : review => dom r = SIMULATED_KEYS) revs)).
Proof.
  unfold main. destruct (PyStr.in_tuple _ _).
  - destruct (import_GoogleMapsScraper _); [|intros [=]].
    unfold lift. intros [= H _].
    apply (finish_empty_saved [MODE_Selenium]) in H as (-> & Hg & Hne & Hall).
    split; [exact Hne|]. right. split; [reflexivity|]. split; assumption.
  - destruct (_ && _).
    + unfold bind.
      destruct (scrape_areas _ _ _ _ _ _) as [[rs|e] w1] eqn:Hrun; [|discriminate].
      unfold lift. intros [= H _].
      destruct rs as [|r rs].
      * apply (finish_empty_saved [MODE_Outscraper]) in H as (-> & Hg & Hne & Hall).
        split; [exact Hne|]. right. split; [reflexivity|]. split; assumption.
      * apply (finish_saved rng [MODE_Outscraper] _ (r :: rs) _) in H
          as [(Hne & -> & ->)|([=] & _)].
        split; [exact Hne|]. left. split; [reflexivity|].
        exact (scrape_areas_shaped http _ re_city AREAS [] (List.Forall_nil _) w _ _ Hrun).
    + unfold lift. intros [= H _].
      apply (finish_empty_saved []) in H as (-> & Hg & Hne & Hall).
      split; [exact Hne|]. right. split; [reflexivity|]. split; assumption.
Qed.

End MainRows.

(** X5: the rows of the file.  Whenever [main] writes its file, the batch
    is not empty and every row has exactly the fields of the first row,
    from which the header is taken: the twelve fields of the remote-API
    adapter when that adapter alone gave the batch, the fourteen fields of
    a synthetic review otherwise.  So [reviews[0]] exists and no row has a
    field outside the header or lacks one of its fields. *)
Theorem main_writes_rows_with_the_fields_of_the_header {W : Type} (http : Collect.Http W)
    (re_city : string -> option string) (rng : Collect.Rng) (cfg : Collect.Config)
    (w w' : W) (modes : list Collect.Mode) (revs : list (gmap string Py.val)) :
  Collect.main http re_city rng cfg w = (Py.Ok (Collect.Saved modes revs), w') ->
  (exists (first : gmap string Py.val) (rest : list (gmap string Py.val)),
     revs = first :: rest
     /\ Forall (fun r : gmap string Py.val => dom r = dom first) revs)
  /\ ((modes = [Collect.MODE_Outscraper]
       /\ Forall (fun r : gmap string Py.val => dom r = OUTSCRAPER_KEYS) revs)
      \/ (last modes = Some Collect.MODE_Simulated
          /\ Collect.generate_simulated rng 25 = Py.Ok revs
          /\ Forall (fun r : gmap string Py.val => dom r = SIMULATED_KEYS) revs)).
Proof.
  intros H. apply main_saved_rows in H as [Hne Hshape].
  split; [|exact Hshape].
  destruct revs as [|first rest]; [contradiction|].
  exists first, rest. split; [reflexivity|].
  assert (Hk : exists keys : gset string,
             Forall (fun r : gmap string Py.val => dom r = keys) (first :: rest)).
  { destruct Hshape as [[_ Hall]|(_ & _ & Hall)]; eexists; exact Hall. }
  destruct Hk as [keys Hall].
  pose proof (Forall_inv Hall) as Hf. cbv beta in Hf.
  eapply Forall_impl; [exact Hall|]. intros r Hr. cbv beta in Hr. congruence.
Qed.

Lemma main_writes_rows_with_the_fields_of_the_header_witness :
  exists revs : list (gmap string Py.val),
    Collect.main (canned_http rated_payload) (fun _ => None) constant_rng
      outscraper_config tt
    = (Py.Ok (Collect.Saved [Collect.MODE_Outscraper] revs), tt)
    /\ length revs = 6
    /\ Forall (fun r : gmap string Py.val => dom r = OUTSCRAPER_KEYS) revs.
Proof.
  assert (H : saved_all (fun _ => true) [Collect.MODE_Outscraper] 6
                (Collect.main (canned_http rated_payload) (fun _ => None) constant_rng
                   outscraper_config tt) = true)
    by (vm_compute; reflexivity).
  apply saved_all_spec in H as (revs & Hm & Hn & _).
  destruct (snd _) in Hm. exists revs. split; [exact Hm|]. split; [exact Hn|].
  destruct (main_writes_rows_with_the_fields_of_the_header _ _ _ _ _ _ _ _ Hm)
    as [_ [[_ Hall]|(Hl & _)]]; [exact Hall | discriminate Hl].
Defined.

(** X6: with at least seven reviews per store asked for, the synthetic
    generator returns, for every random generator, a batch that is not
    empty and holds at most [per_store + 8] reviews for each of the
    twenty-seven stores; every review has the fourteen fields, a text that
    is not empty, a rating between one and five, one of the three zone
    labels and the source [simulated]; the fingerprints all differ. *)
Theorem generate_simulated_returns_complete_reviews (rng : Collect.Rng) (per_store : Z) :
  (7 <= per_store)%Z ->
  exists out : list (gmap string Py.val),
    Collect.generate_simulated rng per_store = Py.Ok out
    /\ out <> []
    /\ (Z.of_nat (length out) <= 27 * (per_store + 8))%Z
    /\ Forall (fun r => exists n, simulated_at n r) out
    /\ distinct_fingerprints out.
Proof.
  intros Hp. unfold Collect.generate_simulated.
  assert (H0 : counted [] 0) by (split; [reflexivity | intros k r Hk; discriminate]).
  destruct (simulate_stores_counted rng per_store Collect.STORES Hp 0 [] 0 H0
              (Collect.seed rng 42)) as (all & g & E & (cnt & Hcnt) & Hlen).
  rewrite E.
  assert (Hall : Forall (fun r => exists n, simulated_at n r) all).
  { apply Forall_lookup. intros k r Hk. eexists. apply (proj2 Hcnt k r Hk). }
  assert (Hsim : Forall simulated_review all).
  { eapply Forall_impl; [exact Hall|]. intros r [n Hn]. apply Hn. }
  destruct (dedup_batch simulated_review all simulated_review_fingerprint Hsim)
    as (out & Hout & _ & Hne).
  exists out. split; [exact Hout|].
  destruct (dedup_loop_distinct all ∅ [] [] out) as [Hd Hl];
    [constructor | constructor | | exact Hout |].
  { intros h. split; [intros Hh; now apply not_elem_of_empty in Hh | intros []]. }
  split.
  { apply Hne. intros ->. cbn in Hlen. lia. }
  split.
  { cbn [length] in Hl, Hlen. change (Z.of_nat (length Collect.STORES)) with 27%Z in Hlen.
    lia. }
  split; [|exact Hd].
  eapply Forall_sublist; [apply dedup_sublist, Hout | exact Hall].
Qed.

Lemma generate_simulated_returns_complete_reviews_witness :
  (7 <= 25)%Z
  /\ exists out : list (gmap string Py.val),
       Collect.generate_simulated constant_rng 25 = Py.Ok out /\ out <> [].
Proof.
  assert (H : (7 <= 25)%Z) by lia.
  split; [exact H|].
  destruct (generate_simulated_returns_complete_reviews constant_rng 25 H)
    as (out & Ho & Hne & _).
  exists out. split; assumption.
Defined.

(** X7: with fewer than seven reviews per store asked for, the range
    [randint(max(15, per_store-8), per_store+8)] is empty and the generator
    raises [ValueError] at the first store. *)
Theorem generate_simulated_needs_seven_per_store (rng : Collect.Rng) (per_store : Z) :
  (per_store < 7)%Z ->
  Collect.generate_simulated rng per_store
  = Py.Raise "ValueError: empty range for randrange()".
Proof.
  intros Hp. unfold Collect.generate_simulated, Collect.STORES.
  now rewrite simulate_stores_empty_range.
Qed.

Lemma generate_simulated_needs_seven_per_store_witness :
  (6 < 7)%Z
  /\ Collect.generate_simulated constant_rng 6
     = Py.Raise "ValueError: empty range for randrange()".
Proof.
  assert (H : (6 < 7)%Z) by lia.
  split; [exact H | exact (generate_simulated_needs_seven_per_store constant_rng 6 H)].
Defined.

(** With a random generator that always draws zero, every store gets
    seventeen reviews with the same text, of which the deduplicator keeps
    the first. *)
Lemma constant_rng_batch_skips :
  match Collect.generate_simulated constant_rng 25 with
  | Py.Ok (r1 :: r2 :: _) =>
      field_is_str "review_id" "REV-00001" r1 && field_is_str "review_id" "REV-00018" r2
  | _ => false
  end = true.
Proof. vm_compute. reflexivity. Qed.

(** X8: the generator numbers the reviews before it deduplicates them.  The
    identifiers of the batch it returns are those of positions that grow
    strictly, the first being [REV-00001]; so they all differ.  They are
    not consecutive in general: with a random generator that always draws
    zero the second identifier of the batch is [REV-00018]. *)
Theorem generate_simulated_identifiers_increase (rng : Collect.Rng) (per_store : Z) :
  (7 <= per_store)%Z ->
  exists (out : list (gmap string Py.val)) (ns : list nat),
    Collect.generate_simulated rng per_store = Py.Ok out
    /\ Forall2 (fun (r : gmap string Py.val) n =>
                  r !! "review_id" = Some (Py.Str (Collect.review_id (Z.of_nat n + 1))))
               out ns
    /\ increasing ns
    /\ head ns = Some 0
    /\ NoDup (map (fun r : gmap string Py.val => r !! "review_id") out).
Proof.
  intros Hp. unfold Collect.generate_simulated.
  assert (H0 : counted [] 0) by (split; [reflexivity | intros k r Hk; discriminate]).
  destruct (simulate_stores_counted rng per_store Collect.STORES Hp 0 [] 0 H0
              (Collect.seed rng 42)) as (all & g & E & (cnt & Hcnt) & Hlen).
  rewrite E.
  assert (Hsim : Forall simulated_review all).
  { apply Forall_lookup. intros k r Hk. apply (proj2 Hcnt k r Hk). }
  destruct (fingerprints_exist simulated_review all simulated_review_fingerprint Hsim)
    as [fps Hfps].
  exists (first_seen_subsequence all fps).
  destruct (sublist_positions _ _ (first_seen_subsequence_sublist all fps))
    as (ns & Hinc & Hpos).
  exists ns. split; [now apply dedup_spec|].
  assert (Hids : Forall2 (fun (r : gmap string Py.val) n =>
                   r !! "review_id" = Some (Py.Str (Collect.review_id (Z.of_nat n + 1))))
                   (first_seen_subsequence all fps) ns).
  { eapply Forall2_impl; [exact Hpos|]. intros r n Hn. cbv beta in Hn.
    apply (proj2 Hcnt n r Hn). }
  split; [exact Hids|]. split; [exact Hinc|]. split.
  - destruct all as [|r0 all]; [cbn in Hlen; lia|].
    destruct (dedup_keeps_head r0 all fps Hfps) as [tail Ht]. rewrite Ht in Hpos, Hids.
    inversion Hids as [|? n ? ns' Hid _]; subst. cbn. f_equal.
    destruct (proj2 Hcnt 0 r0 eq_refl) as (_ & Hid0 & _). rewrite Hid0 in Hid.
    injection Hid as Hid. apply fmt_d_inj in Hid; lia.
  - assert (Hmap : map (fun r : gmap string Py.val => r !! "review_id")
                       (first_seen_subsequence all fps)
                   = map (fun n => Some (Py.Str (Collect.review_id (Z.of_nat n + 1)))) ns).
    { clear -Hids. induction Hids as [|r n out ns Hr _ IH]; [reflexivity|].
      cbn. now rewrite Hr, IH. }
    rewrite Hmap. apply NoDup_fmap_2_strong; [|now apply increasing_NoDup].
    intros i j _ _ [= Hij]. apply fmt_d_inj in Hij; lia.
Qed.

Lemma generate_simulated_identifiers_increase_witness :
  (7 <= 25)%Z
  /\ exists (r1 r2 : gmap string Py.val) (rest : list (gmap string Py.val)),
       Collect.generate_simulated constant_rng 25 = Py.Ok (r1 :: r2 :: rest)
       /\ r1 !! "review_id" = Some (Py.Str "REV-00001")
       /\ r2 !! "review_id" = Some (Py.Str "REV-00018")
       /\ NoDup (map (fun r : gmap string Py.val => r !! "review_id") (r1 :: r2 :: rest)).
Proof.
  assert (H : (7 <= 25)%Z) by lia.
  split; [exact H|].
  destruct (generate_simulated_identifiers_increase constant_rng 25 H)
    as (out & ns & Ho & _ & _ & _ & Hn).
  pose proof constant_rng_batch_skips as Hskip. rewrite Ho in Hskip.
  destruct out as [|r1 [|r2 rest]]; [discriminate Hskip..|].
  apply andb_prop in Hskip as [H1 H2].
  exists r1, r2, rest. split; [exact Ho|].
  split; [now apply field_is_str_spec|]. split; [now apply field_is_str_spec | exact Hn].
Defined.

(** X9: the region of an address.  Both keyword tables are read in order
    and their first six keys give Ile-de-France: an address that contains,
    in any case, [paris], [75], [92], [93], [94] or [78] is in
    Ile-de-France for [_region] and for [guess_region], whatever else it
    contains, and both classifiers then answer one of the two Paris
    zones. *)
Theorem ile_de_france_keywords_come_first (addr k : string) :
  In k ["paris"; "75"; "92"; "93"; "94"; "78"] ->
  PyStr.contains k (PyStr.lower addr) = true ->
  Collect._region addr = "Ile-de-France"
  /\ Scrape.guess_region addr = "Ile-de-France"
  /\ Collect.region_is_idf (Collect._region addr) = true
  /\ Scrape.region_is_idf (Scrape.guess_region addr) = true.
Proof.
  intros Hk Hc.
  assert (H1 : Collect._region addr = "Ile-de-France").
  { unfold Collect._region, Collect.REGION_TABLE. cbn [Zone.first_keyword].
    destruct (PyStr.contains "paris" _) eqn:E1; [reflexivity|].
    destruct (PyStr.contains "75" _) eqn:E2; [reflexivity|].
    destruct (PyStr.contains "92" _) eqn:E3; [reflexivity|].
    destruct (PyStr.contains "93" _) eqn:E4; [reflexivity|].
    destruct (PyStr.contains "94" _) eqn:E5; [reflexivity|].
    destruct (PyStr.contains "78" _) eqn:E6; [reflexivity|].
    cbn [In] in Hk. intuition (subst; congruence). }
  assert (H2 : Scrape.guess_region addr = "Ile-de-France").
  { unfold Scrape.guess_region, Scrape.REGION_TABLE. cbn [Zone.first_keyword].
    destruct (PyStr.contains "paris" _) eqn:E1; [reflexivity|].
    destruct (PyStr.contains "75" _) eqn:E2; [reflexivity|].
    destruct (PyStr.contains "92" _) eqn:E3; [reflexivity|].
    destruct (PyStr.contains "93" _) eqn:E4; [reflexivity|].
    destruct (PyStr.contains "94" _) eqn:E5; [reflexivity|].
    destruct (PyStr.contains "78" _) eqn:E6; [reflexivity|].
    cbn [In] in Hk. intuition (subst; congruence). }
  rewrite H1, H2. repeat split; reflexivity.
Qed.

Lemma ile_de_france_keywords_come_first_witness :
  In "75" ["paris"; "75"; "92"; "93"; "94"; "78"]
  /\ PyStr.contains "75" (PyStr.lower "75 Cours Lafayette, 69003 Lyon") = true
  /\ Collect._region "75 Cours Lafayette, 69003 Lyon" = "Ile-de-France".
Proof.
  assert (H1 : In "75" ["paris"; "75"; "92"; "93"; "94"; "78"]) by (right; left; reflexivity).
  assert (H2 : PyStr.contains "75" (PyStr.lower "75 Cours Lafayette, 69003 Lyon") = true)
    by reflexivity.
  split; [exact H1|]. split; [exact H2|].
  exact (proj1 (ile_de_france_keywords_come_first "75 Cours Lafayette, 69003 Lyon" "75" H1 H2)).
Defined.

(** X10: the coordinates are read only when the region test holds, and the
    longitude only when the latitude is inside the box.  On a region that
    fails the test both classifiers answer [Province] for any two values;
    on a region that passes it, a latitude that is no number raises
    [TypeError], and a latitude outside the box (a NaN, or the [0] that
    stands for a missing coordinate) gives [Paris Extra Muros] whatever the
    longitude is. *)
Theorem classify_zone_reads_coordinates_lazily (lat lng : Py.val) (region : string) :
  (Collect.region_is_idf region = false ->
   Collect.classify_zone lat lng region = Py.Ok Zone.PROVINCE)
  /\ (Scrape.region_is_idf region = false ->
      Scrape.classify_zone lat lng region = Py.Ok Zone.PROVINCE)
  /\ (forall e, Py.number lat = Py.Raise e ->
        (Collect.region_is_idf region = true ->
         Collect.classify_zone lat lng region = Py.Raise e)
        /\ (Scrape.region_is_idf region = true ->
            Scrape.classify_zone lat lng region = Py.Raise e))
  /\ (Py.between (fst Zone.PARIS_LAT) (snd Zone.PARIS_LAT) lat = Py.Ok false ->
      (Collect.region_is_idf region = true ->
       Collect.classify_zone lat lng region = Py.Ok Zone.EXTRA)
      /\ (Scrape.region_is_idf region = true ->
          Scrape.classify_zone lat lng region = Py.Ok Zone.EXTRA))
  /\ Py.between (fst Zone.PARIS_LAT) (snd Zone.PARIS_LAT) (Py.Int 0) = Py.Ok false
  /\ Py.between (fst Zone.PARIS_LAT) (snd Zone.PARIS_LAT) (Py.Float PrimFloat.nan)
     = Py.Ok false.
Proof.
  split; [intros H; unfold Collect.classify_zone; now rewrite H|].
  split; [intros H; unfold Scrape.classify_zone; now rewrite H|].
  split.
  { intros e He. split; intros H.
    - unfold Collect.classify_zone, Collect.is_paris_intra, Zone.in_box, Py.between.
      now rewrite H, He.
    - unfold Scrape.classify_zone, Zone.in_box, Py.between. now rewrite H, He. }
  split.
  { intros Hb. split; intros H.
    - unfold Collect.classify_zone, Collect.is_paris_intra, Zone.in_box.
      now rewrite H, Hb.
    - unfold Scrape.classify_zone, Zone.in_box. now rewrite H, Hb. }
  split; vm_compute; reflexivity.
Qed.

(* ===================================================================== *)
(** ** [scrape_google_maps.py]: further properties *)
(* ===================================================================== *)

(** X11: what [save_all] writes, [load_existing] reads back.  After a save
    of a batch that is not empty and has no carriage return in its cells,
    the file holds one record per review, in order; each record has the
    fourteen fields of the header, every value the string [save_all] wrote
    for it (a missing field is the empty string); the done set is the set
    of their [search_city] cells; and saving what was read back writes the
    same file again. *)
Theorem save_all_then_load_existing
    (str_of : Py.val -> string) (reviews : list (gmap string Py.val)) (file : Scrape.File) :
  reviews <> [] ->
  plain_cells str_of reviews = true ->
  let written := Scrape.save_all str_of reviews file in
  fst (Scrape.load_existing written) = map (reloaded str_of) reviews
  /\ (forall r f, In f Scrape.FIELDS ->
        reloaded str_of r !! f
        = Some (Py.Str (Scrape.cell str_of (default (Py.Str "") (r !! f)))))
  /\ (forall r, dom (reloaded str_of r) = list_to_set Scrape.FIELDS)
  /\ (forall c, c ∈ snd (Scrape.load_existing written)
                <-> exists r, In r reviews
                              /\ Scrape.cell str_of (default (Py.Str "") (r !! "search_city")) = c)
  /\ Scrape.save_all str_of (fst (Scrape.load_existing written)) written = written.
Proof.
  intros Hne _ written.
  assert (Hw : written = Some (Scrape.FIELDS :: map (Scrape.row_of str_of) reviews))
    by (apply save_all_content, Hne).
  destruct (load_existing_saved str_of reviews) as [Hl Hd]. rewrite <- Hw in Hl, Hd.
  split; [exact Hl|]. split; [intros r f; apply reloaded_lookup|].
  split; [apply reloaded_fields|]. split; [exact Hd|].
  rewrite Hl, save_all_content.
  - rewrite Hw, map_map.
    rewrite (map_ext _ (Scrape.row_of str_of) (row_of_reloaded str_of)). reflexivity.
  - destruct reviews; [contradiction | discriminate].
Qed.

Lemma save_all_then_load_existing_witness :
  two_reviews <> []
  /\ plain_cells (Scrape.str_of plain_lib) two_reviews = true
  /\ length (fst (Scrape.load_existing
                    (Scrape.save_all (Scrape.str_of plain_lib) two_reviews paris_file))) = 2
  /\ ("Lyon" ∈ snd (Scrape.load_existing
                      (Scrape.save_all (Scrape.str_of plain_lib) two_reviews paris_file))).
Proof.
  assert (Hne : two_reviews <> []) by discriminate.
  assert (Hplain : plain_cells (Scrape.str_of plain_lib) two_reviews = true)
    by (vm_compute; reflexivity).
  destruct (save_all_then_load_existing (Scrape.str_of plain_lib) two_reviews paris_file
              Hne Hplain) as (Hl & _ & _ & Hd & _).
  split; [exact Hne|]. split; [exact Hplain|]. split; [rewrite Hl; reflexivity|].
  apply Hd. eexists. split; [right; left; reflexivity | reflexivity].
Defined.

(** X12: the review parser of [scrape_reviews] keeps a [div] only with a text
    of at least five characters and a rating between one and nine; what it
    keeps has exactly the four fields text, rating, date and reviewer name;
    it keeps at most one review per [div], and a [div] whose date cannot be
    parsed is skipped. *)
Theorem parse_reviews_keeps_rated_texts (lib : Scrape.Lib) (html : string) :
  Forall parsed (Scrape.parse_reviews lib html)
  /\ length (Scrape.parse_reviews lib html) <= length (Scrape.soup_reviews lib html)
  /\ (forall (reviews : list (gmap string Py.val)) (div : Scrape.ReviewDiv) (t : string)
             (e : Py.Exn),
        Scrape.rsqaWe div = Some t -> Scrape.parse_date lib t = Py.Raise e ->
        Scrape.parse_div lib reviews div = reviews).
Proof.
  split; [apply parse_reviews_all|]. split; [apply parse_reviews_length|].
  intros reviews div t e Ht He. unfold Scrape.parse_div. now rewrite Ht, He.
Qed.

(** X13: the stores [find_stores] returns all have a label that mentions
    Intersport (in any case), an [href] that is not empty, and [href]s that
    differ from one another. *)
Theorem find_stores_distinct_intersport_links {W D E : Type}
    (br : Scrape.Browser W D E) (lib : Scrape.Lib) (driver : D) (city : string)
    (lat lng : float) (w w' : W) (stores : list Scrape.Found) :
  Scrape.find_stores br lib driver city lat lng w = (Py.Ok stores, w') ->
  Forall labelled stores
  /\ Forall (fun s => Scrape.found_href s <> "") stores
  /\ NoDup (map Scrape.found_href stores).
Proof. intros H. exact (find_stores_kept br lib driver city lat lng w stores w' H). Qed.

Lemma find_stores_distinct_intersport_links_witness :
  Scrape.find_stores listing_browser plain_lib tt "Paris" 48.8566 2.3522 tt
  = (Py.Ok [ {| Scrape.found_name := "Intersport Rivoli";
                Scrape.found_href := "https://maps.google.com/?cid=1" |} ], tt)
  /\ NoDup (map Scrape.found_href
              [ {| Scrape.found_name := "Intersport Rivoli";
                   Scrape.found_href := "https://maps.google.com/?cid=1" |} ]).
Proof.
  assert (H : Scrape.find_stores listing_browser plain_lib tt "Paris" 48.8566 2.3522 tt
              = (Py.Ok [ {| Scrape.found_name := "Intersport Rivoli";
                            Scrape.found_href := "https://maps.google.com/?cid=1" |} ], tt))
    by (vm_compute; reflexivity).
  split; [exact H|].
  exact (proj2 (proj2 (find_stores_distinct_intersport_links listing_browser plain_lib tt
                         "Paris" 48.8566 2.3522 tt tt _ H))).
Defined.

(** X14: whatever the browser does, a run keeps the reviews it loaded, in
    order, and appends to them; its counter ends as the size of the batch;
    and every review it appends is complete: the fourteen fields of the
    output, the identifier of its position in the batch, a text of at least
    five characters, a rating between one and nine, a store name that is not
    empty, one of the three zone labels, the source [google_maps] and, as
    [search_city], a unit of [CITIES] that was not done. *)
Theorem run_appends_complete_reviews {W D E : Type}
    (br : Scrape.Browser W D E) (lib : Scrape.Lib) (argv : list string)
    (file : Scrape.File) (w : W) :
  let existing := fst (Scrape.load_existing file) in
  let st' := snd (snd (Scrape.main br lib argv file w)) in
  exists new : list (gmap string Py.val),
    Scrape.all_reviews st' = existing ++ new
    /\ Scrape.counter st' = Z.of_nat (length (Scrape.all_reviews st'))
    /\ forall k r, new !! k = Some r ->
         appended (pending (snd (Scrape.load_existing file)) Scrape.CITIES)
                  (Z.of_nat (length existing + k) + 1) r.
Proof.
  intros existing st'.
  destruct (initial_counter file) as (Hc & Hr & _).
  pose proof (main_extends br lib argv file w) as Hext.
  destruct (extends_numbered _ _ _ Hc Hext) as [Hc' _].
  destruct Hext as (new & Hn & _ & Hnew). exists new. fold st' in Hn, Hc'.
  split; [now rewrite Hn, Hr|]. split; [exact Hc'|].
  intros k r Hk. specialize (Hnew k r Hk). rewrite Hc, Hr in Hnew.
  replace (Z.of_nat (length existing + k) + 1)%Z
    with (Z.of_nat (length (fst (Scrape.load_existing file))) + 1 + Z.of_nat k)%Z
    by (unfold existing; lia).
  exact Hnew.
Qed.

(** X15: identifiers stay the positions in the batch.  If the reviews loaded
    from the output file carry the identifiers of their positions (as in a
    file this script wrote, or no file), then so do the reviews of the batch
    at the end of the run, all identifiers of the batch differ, and the
    reviews the next run loads from the file carry the identifiers of their
    positions again. *)
Theorem run_keeps_identifiers_numbered {W D E : Type}
    (br : Scrape.Browser W D E) (lib : Scrape.Lib) (argv : list string)
    (file : Scrape.File) (w : W) :
  numbered (fst (Scrape.load_existing file)) ->
  let st' := snd (snd (Scrape.main br lib argv file w)) in
  numbered (Scrape.all_reviews st')
  /\ NoDup (map (fun r : gmap string Py.val => r !! "review_id") (Scrape.all_reviews st'))
  /\ numbered (fst (Scrape.load_existing (Scrape.file st'))).
Proof.
  intros Hnum st'.
  destruct (initial_counter file) as (Hc & Hr & _).
  pose proof (main_extends br lib argv file w) as Hext.
  destruct (extends_numbered _ _ _ Hc Hext) as [_ Hkeep]. fold st' in Hkeep.
  rewrite Hr in Hkeep. specialize (Hkeep Hnum).
  split; [exact Hkeep|]. split; [now apply numbered_distinct|].
  destruct (main_saved br lib argv file w) as [Hnone Hsome]. fold st' in Hnone, Hsome.
  destruct (decide (Exists (fun city : string * float * float =>
                              fst (fst city) ∉ snd (Scrape.load_existing file))
                           Scrape.CITIES)) as [Hex|Hno].
  - assert (Hf : Scrape.file st'
                 = Scrape.save_all (Scrape.str_of lib) (Scrape.all_reviews st') file).
    { apply Hsome. apply Exists_exists in Hex as (city & Hin & Hout).
      exists (fst (fst city)). split; [|exact Hout].
      apply in_map_iff. exists city. split; [reflexivity | now apply list_elem_of_In]. }
    rewrite Hf. destruct (Scrape.all_reviews st') as [|r rs] eqn:Er.
    + destruct Hext as (new & Hn & _). fold st' in Hn. rewrite Er, Hr in Hn.
      symmetry in Hn. apply app_eq_nil in Hn as [Hn _]. cbn. now rewrite Hn.
    + rewrite save_all_content by discriminate.
      rewrite (proj1 (load_existing_saved (Scrape.str_of lib) (r :: rs))).
      now apply numbered_reloaded.
  - assert (Hf : Scrape.file st' = file).
    { apply Hnone. intros c [Hin Hout]. apply Hno. apply Exists_exists.
      apply in_map_iff in Hin as (city & <- & Hin). exists city.
      split; [now apply list_elem_of_In | exact Hout]. }
    now rewrite Hf.
Qed.

Lemma run_keeps_identifiers_numbered_witness :
  numbered (fst (Scrape.load_existing paris_file))
  /\ NoDup (map (fun r : gmap string Py.val => r !! "review_id")
              (Scrape.all_reviews
                 (snd (snd (Scrape.main blank_browser plain_lib [] paris_file tt))))).
Proof.
  assert (H : numbered (fst (Scrape.load_existing paris_file))).
  { intros [|[|k]] r Hk; [|discriminate..]. cbn in Hk. injection Hk as <-. reflexivity. }
  split; [exact H|].
  exact (proj1 (proj2 (run_keeps_identifiers_numbered blank_browser plain_lib [] paris_file
                         tt H))).
Defined.

(** X16: the output file at the end of a run.  If every unit was done, the
    run leaves the file and the batch as it found them.  Otherwise the file
    is what [save_all] writes for the whole batch at the end of the run,
    that is, the header and one row per review, or the file as it was found
    when the batch is empty. *)
Theorem run_leaves_the_batch_saved {W D E : Type}
    (br : Scrape.Browser W D E) (lib : Scrape.Lib) (argv : list string)
    (file : Scrape.File) (w : W) :
  let st' := snd (snd (Scrape.main br lib argv file w)) in
  ((forall c, ~ pending (snd (Scrape.load_existing file)) Scrape.CITIES c) ->
   Scrape.file st' = file /\ Scrape.all_reviews st' = fst (Scrape.load_existing file))
  /\ ((exists c, pending (snd (Scrape.load_existing file)) Scrape.CITIES c) ->
      Scrape.file st'
      = Scrape.save_all (Scrape.str_of lib) (Scrape.all_reviews st') file
      /\ (Scrape.all_reviews st' <> [] ->
          Scrape.file st'
          = Some (Scrape.FIELDS
                  :: map (Scrape.row_of (Scrape.str_of lib)) (Scrape.all_reviews st')))
      /\ (Scrape.all_reviews st' = [] -> Scrape.file st' = file)).
Proof.
  intros st'. destruct (main_saved br lib argv file w) as [Hnone Hsome].
  fold st' in Hnone, Hsome. split; [exact Hnone|].
  intros Hex. specialize (Hsome Hex). split; [exact Hsome|]. split.
  - intros Hne. rewrite Hsome. now apply save_all_content.
  - intros Hnil. rewrite Hsome, Hnil. reflexivity.
Qed.

(** X17: a unit never becomes pending again.  The done set the next run
    reads from the output file contains the done set of this run and the
    [search_city] of every review of the batch, so every unit that yielded
    a review is skipped by the next run. *)
Theorem units_with_reviews_stay_done {W D E : Type}
    (br : Scrape.Browser W D E) (lib : Scrape.Lib) (argv : list string)
    (file : Scrape.File) (w : W) :
  let st' := snd (snd (Scrape.main br lib argv file w)) in
  let next := snd (Scrape.load_existing (Scrape.file st')) in
  (forall c, c ∈ snd (Scrape.load_existing file) -> c ∈ next)
  /\ (forall r c, In r (Scrape.all_reviews st') ->
                  r !! "search_city" = Some (Py.Str c) -> c ∈ next).
Proof.
  intros st' next.
  assert (Hbatch : forall r c, In r (Scrape.all_reviews st') ->
                     r !! "search_city" = Some (Py.Str c) -> c ∈ next).
  { intros r c Hr Hc. unfold next.
    destruct (main_saved br lib argv file w) as [Hnone Hsome]. fold st' in Hnone, Hsome.
    destruct (decide (Exists (fun city : string * float * float =>
                                fst (fst city) ∉ snd (Scrape.load_existing file))
                             Scrape.CITIES)) as [Hex|Hno].
    - assert (Hf : Scrape.file st'
                   = Scrape.save_all (Scrape.str_of lib) (Scrape.all_reviews st') file).
      { apply Hsome. apply Exists_exists in Hex as (city & Hin & Hout).
        exists (fst (fst city)). split; [|exact Hout].
        apply in_map_iff. exists city. split; [reflexivity | now apply list_elem_of_In]. }
      rewrite Hf, save_all_content by (intros E0; rewrite E0 in Hr; exact Hr).
      apply (proj2 (load_existing_saved (Scrape.str_of lib) (Scrape.all_reviews st'))).
      exists r. split; [exact Hr|]. now rewrite Hc.
    - assert (Hf : Scrape.file st' = file
                   /\ Scrape.all_reviews st' = fst (Scrape.load_existing file)).
      { apply Hnone. intros c' [Hin Hout]. apply Hno. apply Exists_exists.
        apply in_map_iff in Hin as (city & <- & Hin). exists city.
        split; [now apply list_elem_of_In | exact Hout]. }
      destruct Hf as [Hf Hr']. rewrite Hf. apply load_existing_names.
      exists r. split; [|exact Hc]. rewrite Hr' in Hr. now apply list_elem_of_In. }
  split; [|exact Hbatch].
  intros c Hc. apply load_existing_names in Hc as (r & Hr & Hsc).
  apply (Hbatch r c); [|exact Hsc].
  destruct (main_extends br lib argv file w) as (new & Hn & _). fold st' in Hn.
  rewrite Hn, (proj1 (proj2 (initial_counter file))).
  apply in_or_app. left. now apply list_elem_of_In.
Qed.

(** X18: the final statistics read [r["store_name"]] of every review of the
    batch.  When a record loaded from the output file has no [store_name]
    (a file with another header), the run still visits and saves every
    unit, and then ends with [KeyError]. *)
Theorem resumed_record_without_store_name {W D E : Type}
    (br : Scrape.Browser W D E) (lib : Scrape.Lib) (argv : list string)
    (file : Scrape.File) (w : W) :
  (exists r, In r (fst (Scrape.load_existing file)) /\ r !! "store_name" = None) ->
  fst (Scrape.main br lib argv file w) = Py.Raise "KeyError: 'store_name'"
  /\ outline (Scrape.log (snd (snd (Scrape.main br lib argv file w))))
     = expected_outline (snd (Scrape.load_existing file)) Scrape.CITIES.
Proof.
  intros (r & Hr & Hnone). split; [|apply main_outline].
  unfold Scrape.main.
  set (loop := Scrape.handle_cities br lib (Scrape.parse_headless argv)
                 (Scrape.parse_max lib argv 50) (snd (Scrape.load_existing file))
                 Scrape.CITIES).
  destruct (handle_cities_outline br lib (Scrape.parse_headless argv)
              (Scrape.parse_max lib argv 50) (snd (Scrape.load_existing file))
              Scrape.CITIES (w, Scrape.initial file)) as [Hok _].
  pose proof (handle_cities_extends br lib (Scrape.parse_headless argv)
                (Scrape.parse_max lib argv 50) (snd (Scrape.load_existing file))
                Scrape.CITIES (w, Scrape.initial file)) as (new & Hn & _).
  fold loop in Hok, Hn. unfold Py.bind.
  destruct (loop (w, Scrape.initial file)) as [[[]|e] ws']; simpl in Hok; [|discriminate].
  cbn [snd] in Hn. rewrite (proj1 (proj2 (initial_counter file))) in Hn.
  assert (Hin : In r (Scrape.all_reviews (snd ws'))) by (rewrite Hn; apply in_or_app; now left).
  unfold Scrape.final_stats, Py.bind, Scrape.current. cbn [fst snd].
  destruct (Scrape.all_reviews (snd ws')) as [|r0 rs] eqn:Er; [destruct Hin|].
  assert (Hall : forallb (fun r : gmap string Py.val => bool_decide (is_Some (r !! "store_name")))
                   (r0 :: rs) = false).
  { apply not_true_is_false. intros Hall. rewrite forallb_forall in Hall.
    specialize (Hall r Hin). apply bool_decide_eq_true in Hall.
    rewrite Hnone in Hall. now destruct Hall. }
  rewrite Hall. reflexivity.
Qed.

Lemma resumed_record_without_store_name_witness :
  (exists r, In r (fst (Scrape.load_existing foreign_file)) /\ r !! "store_name" = None)
  /\ fst (Scrape.main blank_browser plain_lib [] foreign_file tt)
     = Py.Raise "KeyError: 'store_name'".
Proof.
  assert (H : exists r, In r (fst (Scrape.load_existing foreign_file))
                        /\ r !! "store_name" = None).
  { eexists. split; [left; reflexivity | reflexivity]. }
  split; [exact H|].
  exact (proj1 (resumed_record_without_store_name blank_browser plain_lib [] foreign_file
                  tt H)).
Defined.

(** X19: an error while a store is scraped is caught in the loop over the
    stores of the unit.  If its message mentions a session (in any case) the
    remaining stores of the unit are not visited; otherwise the loop goes on
    with the next store.  In both cases the batch, the counter and the file
    are as they were. *)
Theorem session_error_ends_the_unit {W D E : Type}
    (br : Scrape.Browser W D E) (lib : Scrape.Lib) (driver : D) (city_name : string)
    (max_rev : Z) (i n : nat) (store : Scrape.Found) (rest : list Scrape.Found)
    (ws : W * Scrape.State) (w' : W) (e : Py.Exn) :
  Scrape.scrape_reviews br lib driver (Scrape.found_href store) max_rev (fst ws)
  = (Py.Raise e, w') ->
  let st1 := Scrape.say (Scrape.EvError e)
               (Scrape.say (Scrape.EvStore (S i) n (Scrape.found_name store)) (snd ws)) in
  (PyStr.contains "session" (PyStr.lower e) = true ->
   Scrape.handle_stores br lib driver city_name max_rev i n (store :: rest) ws
   = (Py.Ok tt, (w', Scrape.say Scrape.EvChromeCrashed st1)))
  /\ (PyStr.contains "session" (PyStr.lower e) = false ->
      Scrape.handle_stores br lib driver city_name max_rev i n (store :: rest) ws
      = Scrape.handle_stores br lib driver city_name max_rev (S i) n rest (w', st1))
  /\ Scrape.all_reviews st1 = Scrape.all_reviews (snd ws)
  /\ Scrape.counter st1 = Scrape.counter (snd ws)
  /\ Scrape.file st1 = Scrape.file (snd ws).
Proof.
  intros Hraise st1. destruct ws as [w st]. cbn [fst snd] in *.
  assert (Hstore : Scrape.handle_store br lib driver city_name max_rev store
                     (w, Scrape.say (Scrape.EvStore (S i) n (Scrape.found_name store)) st)
                   = (Py.Raise e,
                      (w', Scrape.say (Scrape.EvStore (S i) n (Scrape.found_name store)) st))).
  { unfold Scrape.handle_store, Py.bind, Scrape.up. cbn [fst snd]. now rewrite Hraise. }
  split; [|split; [|split; [|split]]]; try reflexivity.
  - intros Hs. cbn [Scrape.handle_stores].
    unfold Py.bind at 1, Scrape.update at 1. cbn [fst snd].
    unfold Py.bind at 1, Py.catch at 1, Py.bind at 1. rewrite Hstore.
    unfold Py.bind at 1, Scrape.update at 1. cbn [fst snd]. rewrite Hs.
    reflexivity.
  - intros Hs. cbn [Scrape.handle_stores].
    unfold Py.bind at 1, Scrape.update at 1. cbn [fst snd].
    unfold Py.bind at 1, Py.catch at 1, Py.bind at 1. rewrite Hstore.
    unfold Py.bind at 1, Scrape.update at 1. cbn [fst snd]. rewrite Hs.
    reflexivity.
Qed.

Lemma session_error_ends_the_unit_witness :
  let store := {| Scrape.found_name := "Intersport Rivoli";
                  Scrape.found_href := "https://maps.google.com/?cid=1" |} in
  let other := {| Scrape.found_name := "Intersport Republique";
                  Scrape.found_href := "https://maps.google.com/?cid=3" |} in
  let st := Scrape.initial None in
  Scrape.scrape_reviews crashed_browser plain_lib tt (Scrape.found_href store) 50 tt
  = (Py.Raise "Message: invalid session id", tt)
  /\ Scrape.handle_stores crashed_browser plain_lib tt "Paris" 50 0 2 [store; other] (tt, st)
     = (Py.Ok tt,
        (tt, Scrape.say Scrape.EvChromeCrashed
               (Scrape.say (Scrape.EvError "Message: invalid session id")
                  (Scrape.say (Scrape.EvStore 1 2 "Intersport Rivoli") st)))).
Proof.
  intros store other st.
  assert (H : Scrape.scrape_reviews crashed_browser plain_lib tt (Scrape.found_href store)
                50 (fst (tt, st))
              = (Py.Raise "Message: invalid session id", tt)) by reflexivity.
  split; [exact H|].
  exact (proj1 (session_error_ends_the_unit crashed_browser plain_lib tt "Paris" 50 0 2
                  store [other] (tt, st) tt _ H) eq_refl).
Defined.

(* ===================================================================== *)
(** ** [parse_date]: the months and the years *)
(* ===================================================================== *)

Section DateFacts.
Import Py Dates.

Lemma months_back_spec (fuel : nat) :
  forall mo yr : Z,
    (mo <= 12)%Z -> (1 - 12 * Z.of_nat fuel <= mo)%Z ->
    let '(mo', yr') := months_back fuel mo yr in
    (1 <= mo' <= 12)%Z /\ (12 * yr' + mo' = 12 * yr + mo)%Z.
Proof.
  induction fuel as [|fuel IH]; intros mo yr Hhi Hlo; cbn [months_back].
  - destruct (mo <=? 0)%Z eqn:E; [apply Z.leb_le in E; lia|].
    apply Z.leb_gt in E. lia.
  - destruct (mo <=? 0)%Z eqn:E.
    + apply Z.leb_le in E. specialize (IH (mo + 12)%Z (yr - 1)%Z).
      destruct (months_back fuel (mo + 12) (yr - 1)) as [mo' yr'].
      destruct IH as [H1 H2]; lia.
    + apply Z.leb_gt in E. lia.
Qed.

Lemma take_digits_nonneg (s : string) (acc : Z) : (0 <= acc)%Z -> (0 <= take_digits s acc)%Z.
Proof.
  revert acc. induction s as [|c s IH]; intros acc Hacc; cbn; [exact Hacc|].
  destruct (Scrape.digit_of c) as [d|] eqn:E; [|exact Hacc].
  apply IH. pose proof (digit_of_range c d E). lia.
Qed.

Lemma first_number_nonneg (s : string) (n : Z) : first_number s = Ok n -> (0 <= n)%Z.
Proof.
  unfold first_number, int_of_digits.
  destruct (first_match s) as [ds|]; [|intros [= <-]; lia].
  destruct (_ <? _)%N; [discriminate|].
  intros [= <-]. apply take_digits_nonneg. lia.
Qed.

(** With at most 4300 digits the first number is converted. *)
Lemma first_number_converted (s : string) :
  (N.of_nat (String.length (default EmptyString (first_match s))) <= 4300)%N ->
  first_number s
  = Ok (match first_match s with Some ds => take_digits ds 0 | None => 1%Z end).
Proof.
  unfold first_number, int_of_digits, MAX_STR_DIGITS.
  destruct (first_match s) as [ds|]; [|reflexivity].
  intros H. change (N.of_nat (String.length ds) <= 4300)%N in H.
  destruct (N.ltb_spec 4300 (N.of_nat (String.length ds))); [lia | reflexivity].
Qed.

End DateFacts.

(** X20: a relative date in months.  For an ASCII text whose first number
    has at most 4300 digits and that mentions [mois] or [month] and none of
    [jour], [day], [semaine], [week], at a time whose month is between one
    and twelve, [parse_date] returns the fifteenth of a month between one
    and twelve that lies exactly [n] months before the current one, [n]
    being the first number of the text, or one when the text has no digit.
    The loop over the years ends. *)
Theorem parse_date_counts_months_back (now : Dates.Now) (text : string) :
  Dates.ascii_text text = true ->
  (N.of_nat (String.length (default EmptyString (Dates.first_match (PyStr.lower text))))
   <= 4300)%N ->
  (1 <= Dates.month now <= 12)%Z ->
  Dates.mentions ["jour"; "day"] (PyStr.lower text) = false ->
  Dates.mentions ["semaine"; "week"] (PyStr.lower text) = false ->
  Dates.mentions ["mois"; "month"] (PyStr.lower text) = true ->
  let n := match Dates.first_match (PyStr.lower text) with
           | Some ds => Dates.take_digits ds 0
           | None => 1%Z
           end in
  exists mo yr : Z,
    Dates.parse_date now text
    = Py.Ok (pretty yr +:+ "-" +:+ Collect.fmt_d 2 mo +:+ "-15")
    /\ (1 <= mo <= 12)%Z
    /\ (12 * yr + mo = 12 * Dates.year now + Dates.month now - n)%Z
    /\ (0 <= n)%Z.
Proof.
  intros _ Hlen Hm Hd Hw Hmo n. unfold Dates.parse_date.
  pose proof (first_number_converted (PyStr.lower text) Hlen) as Hn. fold n in Hn.
  rewrite Hn. cbn [mbind Py.result_bind]. rewrite Hd, Hw, Hmo.
  assert (H0 : (0 <= n)%Z) by (eapply first_number_nonneg, Hn).
  pose proof (months_back_spec (Z.to_nat n) (Dates.month now - n)%Z (Dates.year now)) as H.
  destruct (Dates.months_back (Z.to_nat n) (Dates.month now - n)%Z (Dates.year now))
    as [mo yr].
  destruct H as [H1 H2]; [lia | lia |].
  exists mo, yr. split; [reflexivity|]. split; [exact H1|]. split; [lia | exact H0].
Qed.

Lemma parse_date_counts_months_back_witness :
  Dates.ascii_text "il y a 14 mois" = true
  /\ (1 <= Dates.month Dates.sample_now <= 12)%Z
  /\ exists mo yr : Z,
       Dates.parse_date Dates.sample_now "il y a 14 mois"
       = Py.Ok (pretty yr +:+ "-" +:+ Collect.fmt_d 2 mo +:+ "-15")
       /\ (1 <= mo <= 12)%Z
       /\ (12 * yr + mo = 12 * 2026 + 11 - 14)%Z.
Proof.
  assert (H : (1 <= Dates.month Dates.sample_now <= 12)%Z) by (cbn; lia).
  assert (Hl : (N.of_nat (String.length (default EmptyString
                   (Dates.first_match (PyStr.lower "il y a 14 mois")))) <= 4300)%N)
    by (vm_compute; discriminate).
  split; [reflexivity|]. split; [exact H|].
  destruct (parse_date_counts_months_back Dates.sample_now "il y a 14 mois" eq_refl Hl H
              eq_refl eq_refl eq_refl) as (mo & yr & E & Hmo & Hsum & _).
  exists mo, yr. split; [exact E|]. split; [exact Hmo | exact Hsum].
Defined.

(** Fourteen months before November 2026. *)
Lemma parse_date_fourteen_months :
  Dates.parse_date Dates.sample_now "il y a 14 mois" = Py.Ok "2025-09-15".
Proof. vm_compute. reflexivity. Qed.

(** Where the conversion is limited, a first number of more than 4300
    digits ends [parse_date] with the [ValueError] of [int]. *)
Lemma parse_date_long_number (now : Dates.Now) (text ds : string) :
  Dates.first_match (PyStr.lower text) = Some ds ->
  (4300 < N.of_nat (String.length ds))%N ->
  exists e, Dates.parse_date now text = Py.Raise e /\ PyStr.starts_with "ValueError" e = true.
Proof.
  intros Hm Hl. unfold Dates.parse_date, Dates.first_number, Dates.int_of_digits,
    Dates.MAX_STR_DIGITS. rewrite Hm.
  destruct (N.ltb_spec 4300 (N.of_nat (String.length ds))); [|lia].
  eexists. split; reflexivity.
Qed.

(** The key words are looked for anywhere in the text, in the order days,
    weeks, months, years.  An ASCII text that contains [an] or [year], even
    inside another word, and none of the key words before them is dated the
    fifteenth of June, [n] years before the current year. *)
Lemma parse_date_reads_an_inside_words (now : Dates.Now) (text : string) (n : Z) :
  Dates.ascii_text text = true ->
  Dates.first_number (PyStr.lower text) = Py.Ok n ->
  Dates.mentions ["jour"; "day"] (PyStr.lower text) = false ->
  Dates.mentions ["semaine"; "week"] (PyStr.lower text) = false ->
  Dates.mentions ["mois"; "month"] (PyStr.lower text) = false ->
  Dates.mentions ["an"; "year"] (PyStr.lower text) = true ->
  Dates.parse_date now text = Py.Ok (pretty (Dates.year now - n)%Z +:+ "-06-15").
Proof.
  intros _ Hn Hd Hw Hmo Hy. unfold Dates.parse_date. rewrite Hn.
  cbn [mbind Py.result_bind]. now rewrite Hd, Hw, Hmo, Hy.
Qed.

(** So a review posted a moment ago is dated June of the year before. *)
Lemma parse_date_of_an_instant :
  Dates.parse_date Dates.sample_now "Il y a un instant" = Py.Ok "2025-06-15".
Proof.
  exact (parse_date_reads_an_inside_words Dates.sample_now "Il y a un instant" 1
           eq_refl eq_refl eq_refl eq_refl eq_refl eq_refl).
Qed.

(* ===================================================================== *)
(** ** [scrape_google_maps.py]: the command line and the driver *)
(* ===================================================================== *)

Section CommandLine.
Import Py Scrape.

Lemma parse_max_cons (lib : Lib) (a b : string) (argv : list string) (max_rev : Z) :
  parse_max lib (a :: b :: argv) max_rev
  = parse_max lib (b :: argv)
      (if String.eqb a "--max" then default max_rev (int_of lib b) else max_rev).
Proof. reflexivity. Qed.

Lemma parse_max_absent (lib : Lib) (argv : list string) :
  ~ In "--max" argv -> forall max_rev, parse_max lib argv max_rev = max_rev.
Proof.
  induction argv as [|a argv IH]; intros Hno max_rev; [reflexivity|].
  destruct argv as [|b argv]; [reflexivity|]. rewrite parse_max_cons.
  destruct (String.eqb_spec a "--max") as [->|_]; [exfalso; apply Hno; now left|].
  apply IH. intros H. apply Hno. now right.
Qed.

Lemma parse_max_prefix (lib : Lib) (pre : list string) :
  forall (rest : list string) (max_rev : Z),
    rest <> [] ->
    exists max_rev', parse_max lib (pre ++ rest) max_rev = parse_max lib rest max_rev'.
Proof.
  induction pre as [|a pre IH]; intros rest max_rev Hne; [now exists max_rev|].
  destruct (pre ++ rest) as [|b tail] eqn:E.
  { apply app_eq_nil in E as [_ ->]. contradiction. }
  change ((a :: pre) ++ rest) with (a :: (pre ++ rest)). rewrite E, parse_max_cons.
  rewrite <- E. apply IH, Hne.
Qed.

End CommandLine.

(** X21: the command line.  Without [--max] the number of reviews asked
    per store is 50.  The last [--max] that is followed by a numeral
    decides: when nothing after the numeral is [--max], the number is that
    numeral, whatever comes before. *)
Theorem last_max_option_decides (lib : Scrape.Lib) (pre post : list string)
    (v : string) (n : Z) :
  Scrape.int_of lib v = Some n ->
  v <> "--max" ->
  ~ In "--max" post ->
  Scrape.parse_max lib (pre ++ "--max" :: v :: post) 50 = n
  /\ (forall argv, ~ In "--max" argv -> Scrape.parse_max lib argv 50 = 50%Z).
Proof.
  intros Hv Hne Hpost. split; [|intros argv H; now apply parse_max_absent].
  destruct (parse_max_prefix lib pre ("--max" :: v :: post) 50 ltac:(discriminate))
    as [d ->].
  rewrite parse_max_cons, String.eqb_refl, Hv. cbn [default].
  apply parse_max_absent. intros [H|H]; [now apply Hne | now apply Hpost].
Qed.

Lemma last_max_option_decides_witness :
  Scrape.int_of numeral_lib "80" = Some 80%Z
  /\ Scrape.parse_max numeral_lib
       (["scrape_google_maps.py"; "--max"; "20"] ++ "--max" :: "80" :: ["--visible"]) 50
     = 80%Z.
Proof.
  split; [reflexivity|].
  refine (proj1 (last_max_option_decides numeral_lib
                   ["scrape_google_maps.py"; "--max"; "20"] ["--visible"] "80" 80
                   eq_refl _ _)).
  - discriminate.
  - intros [H|[]]. discriminate.
Defined.

(** X22: a Chrome that was started and then fails.  When
    [webdriver.Chrome] returns a driver and the script that hides the
    [webdriver] flag raises, [make_driver] raises, [main] logs the error of
    the unit and goes on, and nothing more is asked of the browser: the
    driver that was started is never quit. *)
Theorem driver_that_fails_to_start_is_not_quit {W D E : Type}
    (br : Scrape.Browser W D E) (lib : Scrape.Lib) (headless : bool) (max_rev : Z)
    (city : string * float * float) (ws : W * Scrape.State) (driver : D) (w1 w2 : W)
    (e : Py.Exn) :
  Scrape.new_chrome br headless (fst ws) = (Py.Ok driver, w1) ->
  Scrape.execute_script br driver Scrape.HIDE_WEBDRIVER [] w1 = (Py.Raise e, w2) ->
  Scrape.make_driver br headless (fst ws) = (Py.Raise e, w2)
  /\ Scrape.handle_city br lib headless max_rev city ws
     = (Py.Ok tt, (w2, Scrape.say (Scrape.EvCityError e) (snd ws))).
Proof.
  intros Hnew Hscript.
  assert (Hm : Scrape.make_driver br headless (fst ws) = (Py.Raise e, w2)).
  { unfold Scrape.make_driver, Py.bind. rewrite Hnew. now rewrite Hscript. }
  split; [exact Hm|].
  destruct city as [[city_name city_lat] city_lng]. unfold Scrape.handle_city, Scrape.up.
  rewrite Hm. reflexivity.
Qed.

Lemma driver_that_fails_to_start_is_not_quit_witness :
  Scrape.new_chrome unscriptable_browser true tt = (Py.Ok tt, tt)
  /\ Scrape.handle_city unscriptable_browser plain_lib true 50 ("Paris", 48.8566, 2.3522)%float
       (tt, Scrape.initial None)
     = (Py.Ok tt,
        (tt, Scrape.say (Scrape.EvCityError "Message: javascript error")
               (Scrape.initial None))).
Proof.
  split; [reflexivity|].
  exact (proj2 (driver_that_fails_to_start_is_not_quit unscriptable_browser plain_lib true 50
                  ("Paris", 48.8566, 2.3522)%float (tt, Scrape.initial None) tt tt tt _
                  eq_refl eq_refl)).
Defined.
